(** * openeo.rest._testing: the dummy back-end of the openEO Python client

    A shallow embedding of [DummyBackend] (src/openeo/rest/_testing.py):
    its request handlers, its job registry, the job status update hook and
    the inspection API, with the properties its specification states. *)

From Stdlib Require Import ZArith Ascii String List Decimal DecimalString DecimalNat.
From stdpp Require Import base option list strings gmap fin_maps.

Local Open Scope string_scope.

(** ** Python values

    The values the handlers see: what [request.json()] returns, what a test
    stores in [next_result], and what a job record holds.  A [str] is
    modelled by its UTF-8 encoding (request paths and job ids are ASCII,
    where [\d] is a digit from 0 to 9), a [dict] with string keys by its
    items in insertion order, each key once.  Numbers are integers; no
    handler computes with a number. *)

#[local] Set Warnings "-register-all".

Inductive value : Type :=
| VNone
| VBool (b : bool)
| VInt (z : Z)
| VStr (s : string)
| VBytes (bs : list Byte.byte)
| VList (items : list value)
| VDict (items : list (string * value)).

(** ** Exceptions *)

(** The text of an [OpeneoTestingException], as the f-string that builds it:
    literal pieces, [{len(...)}] fields, [{...}] fields of a str, and
    fields that print the [repr] of a value ([{...!r}], and [{...}] of a
    list). *)
Inductive fragment : Type :=
| Lit (s : string)
| Num (n : nat)
| Str (s : string)
| Repr (v : value).

Inductive exn : Type :=
| OpeneoTestingException (msg : list fragment)
| AssertionError
| KeyError (key : string)
| TypeError
| AttributeError
| IndexError
| ValueError
| JSONDecodeError
| UnicodeDecodeError.

Inductive res (A : Type) : Type :=
| Ok (a : A)
| Raise (e : exn).
Arguments Ok {A} a.
Arguments Raise {A} e.

Definition res_bind {A B} (r : res A) (k : A → res B) : res B :=
  match r with
  | Ok a => k a
  | Raise e => Raise e
  end.

Definition assert (b : bool) : res unit :=
  if b then Ok tt else Raise AssertionError.

(** ** Operations of Python on these values *)

(** [d[key]] on the items of a dict. *)
Fixpoint items_lookup (key : string) (items : list (string * value)) : option value :=
  match items with
  | [] => None
  | (k, v) :: rest => if String.eqb k key then Some v else items_lookup key rest
  end.

(** [obj[key]] with a string key: a dict looks it up, anything else of these
    values refuses a string subscript. *)
Definition subscript (obj : value) (key : string) : res value :=
  match obj with
  | VDict items =>
      match items_lookup key items with
      | Some v => Ok v
      | None => Raise (KeyError key)
      end
  | _ => Raise TypeError
  end.

(** [obj.get(key)]: only a dict has the method. *)
Definition dict_get (obj : value) (key : string) : res value :=
  match obj with
  | VDict items => Ok (default VNone (items_lookup key items))
  | _ => Raise AttributeError
  end.

(** [obj.values()] *)
Definition dict_values (obj : value) : res (list value) :=
  match obj with
  | VDict items => Ok (map snd items)
  | _ => Raise AttributeError
  end.

(** [v == s] for a string [s]: no other kind of value equals a [str]. *)
Definition eq_str (v : value) (s : string) : bool :=
  match v with
  | VStr t => String.eqb t s
  | _ => false
  end.

(** ** Job ids: [f"job-{n:03d}"] *)

Fixpoint zeros (n : nat) : string :=
  match n with
  | 0 => EmptyString
  | S k => String "0" (zeros k)
  end.

(** Zero-padding on the left up to [width]; a longer string is kept whole. *)
Definition zfill (width : nat) (s : string) : string :=
  zeros (width - String.length s) +:+ s.

(** [f"{n:03d}"]: the decimal digits of [n], zero-padded to at least three. *)
Definition format_03d (n : nat) : string :=
  zfill 3 (NilZero.string_of_uint (Nat.to_uint n)).

Definition format_job_id (n : nat) : string := "job-" +:+ format_03d n.

(** ** The pattern [^/jobs/(job-\d+)(/|$)] *)

(** [\d] on a character of a path.  The path of a request that reaches a
    handler is ASCII (the transport percent-encodes any other character),
    and there [\d] is [0-9]. *)
Definition is_digit (c : ascii) : bool :=
  (48 <=? nat_of_ascii c)%nat && (nat_of_ascii c <=? 57)%nat.

(** The longest run of digits at the start of [s], and what follows. *)
Fixpoint span_digits (s : string) : string * string :=
  match s with
  | String c rest =>
      if is_digit c
      then let (ds, tl) := span_digits rest in (String c ds, tl)
      else (EmptyString, s)
  | EmptyString => (EmptyString, EmptyString)
  end.

Fixpoint strip_prefix (p s : string) : option string :=
  match p, s with
  | EmptyString, _ => Some s
  | String a p', String b s' => if Ascii.eqb a b then strip_prefix p' s' else None
  | String _ _, EmptyString => None
  end.

(** What [(/|$)] accepts after the digits: a slash, the end of the string,
    or (Python's [$]) a newline that ends the string. *)
Definition after_job_id (rest : string) : bool :=
  match rest with
  | EmptyString => true
  | String c rest' =>
      Ascii.eqb c "/" || (Ascii.eqb c "010" && String.eqb rest' EmptyString)
  end.

(** [re.match(r"^/jobs/(job-\d+)(/|$)", path)], giving [match.group(1)]. *)
Definition match_job_path (path : string) : option string :=
  match strip_prefix "/jobs/job-" path with
  | Some rest =>
      let (ds, tl) := span_digits rest in
      if negb (String.eqb ds EmptyString) && after_job_id tl
      then Some ("job-" +:+ ds)
      else None
  | None => None
  end.

(** [key in obj] for a string [key]: a key of a dict, an element of a list,
    a substring of a str; the other values are not containers of strings. *)
Fixpoint is_prefix (p s : string) : bool :=
  match p, s with
  | EmptyString, _ => true
  | String a p', String b s' => Ascii.eqb a b && is_prefix p' s'
  | String _ _, EmptyString => false
  end.

Fixpoint is_substring (p s : string) : bool :=
  is_prefix p s ||
  match s with
  | EmptyString => false
  | String _ s' => is_substring p s'
  end.

Definition contains (obj : value) (key : string) : res bool :=
  match obj with
  | VDict items => Ok (bool_decide (is_Some (items_lookup key items)))
  | VList items => Ok (existsb (λ v, eq_str v key) items)
  | VStr s => Ok (is_substring key s)
  | _ => Raise TypeError
  end.

(** [str.encode("utf-8")] on a str held as its UTF-8 encoding. *)
Definition encode_utf8 (s : string) : list Byte.byte := list_byte_of_string s.

(** Python's truth value of an optional string argument: [None] and the
    empty string are false. *)
Definition truthy (o : option string) : bool :=
  match o with
  | Some s => negb (String.eqb s EmptyString)
  | None => false
  end.

(** ** The job status update hook

    A Python callable [(job_id, current_status) -> status] that may carry
    state of its own (the closure [get_status] keeps a stack per job): the
    captured state and the code that runs on it.  A call returns a [str],
    as [get_status] is annotated, or raises. *)

Record Updater : Type := {
  hook_state : Type;
  hook_env : hook_state;
  hook_call : hook_state → string → value → res string * hook_state;
}.

(** One call of the hook: its result, and the hook with its state after
    the call. *)
Definition call_updater (u : Updater) (job_id : string) (current_status : value)
  : res string * Updater :=
  let (r, st) := hook_call u (hook_env u) job_id current_status in
  (r, {| hook_state := hook_state u; hook_env := st; hook_call := hook_call u |}).

(** [lambda job_id, current_status: "finished"] *)
Definition finished_updater : Updater :=
  {| hook_state := unit;
     hook_env := tt;
     hook_call := λ st _ _, (Ok "finished", st) |}.

(** ** The back-end and its requests *)

Record Connection : Type := { build_url : string → string }.

Record DummyBackend : Type := {
  connection : Connection;
  sync_requests : list value;
  batch_jobs : gmap string (gmap string value);
  validation_requests : list value;
  next_result : value;
  next_validation_errors : value;
  job_status_updater : Updater;
  extra_job_metadata_fields : list string;
}.

(** The body of a request, as far as [request.json()] depends on it.  The
    mocked transport computes [json.loads(request.text)], where [text] is
    the body, decoded as UTF-8 when it is bytes. *)
Inductive Body : Type :=
| no_body            (* sent without a body: [text] is [None] *)
| undecodable_body   (* bytes that are not UTF-8 *)
| invalid_json_body  (* text that is not JSON *)
| json_body (v : value).  (* the JSON text of [v] *)

(** A request as the handlers read it: [request.path] and the body. *)
Record Request : Type := {
  path : string;
  body : Body;
}.

(** The value that the body is the JSON text of, if it is JSON. *)
Definition json (request : Request) : option value :=
  match body request with
  | json_body v => Some v
  | _ => None
  end.

(** The response under construction ([context]). *)
Record Context : Type := {
  status_code : nat;
  headers : gmap string string;
}.

(** [request.json()] *)
Definition request_json (request : Request) : res value :=
  match body request with
  | no_body => Raise TypeError             (* [json.loads(None)] *)
  | undecodable_body => Raise UnicodeDecodeError
  | invalid_json_body => Raise JSONDecodeError
  | json_body v => Ok v
  end.

Definition set_sync_requests (l : list value) (self : DummyBackend) : DummyBackend :=
  {| connection := connection self; sync_requests := l;
     batch_jobs := batch_jobs self;
     validation_requests := validation_requests self;
     next_result := next_result self;
     next_validation_errors := next_validation_errors self;
     job_status_updater := job_status_updater self;
     extra_job_metadata_fields := extra_job_metadata_fields self |}.

Definition set_batch_jobs (m : gmap string (gmap string value)) (self : DummyBackend)
  : DummyBackend :=
  {| connection := connection self; sync_requests := sync_requests self;
     batch_jobs := m;
     validation_requests := validation_requests self;
     next_result := next_result self;
     next_validation_errors := next_validation_errors self;
     job_status_updater := job_status_updater self;
     extra_job_metadata_fields := extra_job_metadata_fields self |}.

Definition set_validation_requests (l : list value) (self : DummyBackend) : DummyBackend :=
  {| connection := connection self; sync_requests := sync_requests self;
     batch_jobs := batch_jobs self;
     validation_requests := l;
     next_result := next_result self;
     next_validation_errors := next_validation_errors self;
     job_status_updater := job_status_updater self;
     extra_job_metadata_fields := extra_job_metadata_fields self |}.

Definition set_next_result (v : value) (self : DummyBackend) : DummyBackend :=
  {| connection := connection self; sync_requests := sync_requests self;
     batch_jobs := batch_jobs self;
     validation_requests := validation_requests self;
     next_result := v;
     next_validation_errors := next_validation_errors self;
     job_status_updater := job_status_updater self;
     extra_job_metadata_fields := extra_job_metadata_fields self |}.

Definition set_next_validation_errors (v : value) (self : DummyBackend) : DummyBackend :=
  {| connection := connection self; sync_requests := sync_requests self;
     batch_jobs := batch_jobs self;
     validation_requests := validation_requests self;
     next_result := next_result self;
     next_validation_errors := v;
     job_status_updater := job_status_updater self;
     extra_job_metadata_fields := extra_job_metadata_fields self |}.

Definition set_job_status_updater (u : Updater) (self : DummyBackend) : DummyBackend :=
  {| connection := connection self; sync_requests := sync_requests self;
     batch_jobs := batch_jobs self;
     validation_requests := validation_requests self;
     next_result := next_result self;
     next_validation_errors := next_validation_errors self;
     job_status_updater := u;
     extra_job_metadata_fields := extra_job_metadata_fields self |}.

Definition set_extra_job_metadata_fields (l : list string) (self : DummyBackend)
  : DummyBackend :=
  {| connection := connection self; sync_requests := sync_requests self;
     batch_jobs := batch_jobs self;
     validation_requests := validation_requests self;
     next_result := next_result self;
     next_validation_errors := next_validation_errors self;
     job_status_updater := job_status_updater self;
     extra_job_metadata_fields := l |}.

Definition set_status_code (n : nat) (context : Context) : Context :=
  {| status_code := n; headers := headers context |}.

Definition set_header (k v : string) (context : Context) : Context :=
  {| status_code := status_code context; headers := <[k := v]> (headers context) |}.

(** ** Methods: computations on [self] that can raise

    A method reads and mutates the back-end and returns or raises; what it
    mutated before raising stays mutated. *)

Definition M (A : Type) : Type := DummyBackend → res A * DummyBackend.

Definition ret {A} (a : A) : M A := λ self, (Ok a, self).

Definition bind {A B} (m : M A) (k : A → M B) : M B :=
  λ self,
    match m self with
    | (Ok a, self') => k a self'
    | (Raise e, self') => (Raise e, self')
    end.

Definition lift {A} (r : res A) : M A := λ self, (r, self).
Definition raise {A} (e : exn) : M A := lift (Raise e).
Definition get_self : M DummyBackend := λ self, (Ok self, self).
Definition modify (f : DummyBackend → DummyBackend) : M unit := λ self, (Ok tt, f self).

#[global] Instance res_mret : MRet res := @Ok.
#[global] Instance res_mbind : MBind res := λ A B k r, res_bind r k.
#[global] Instance M_mret : MRet M := @ret.
#[global] Instance M_mbind : MBind M := λ A B k m, bind m k.

(** A loop [for x in l: acc = f(acc, x)] whose body can raise. *)
Fixpoint for_each {A B} (f : A → B → res A) (l : list B) (acc : A) : res A :=
  match l with
  | [] => Ok acc
  | x :: rest => acc' ← f acc x; for_each f rest acc'
  end.

(** A list comprehension [[x for x in l if p(x)]] whose test can raise. *)
Fixpoint filter_res {A} (p : A → res bool) (l : list A) : res (list A) :=
  match l with
  | [] => Ok []
  | x :: rest =>
      b ← p x;
      found ← filter_res p rest;
      Ok (if b : bool then x :: found else found)
  end.

(** A list comprehension [[f(x) for x in l]] whose body can raise. *)
Fixpoint map_res {A B} (f : A → res B) (l : list A) : res (list B) :=
  match l with
  | [] => Ok []
  | x :: rest => y ← f x; ys ← map_res f rest; Ok (y :: ys)
  end.

(** ** The handlers *)

Section Handlers.

(** [json.dumps] of the standard library, which can raise. *)
Variable json_dumps : value → res string.

(** [self.batch_jobs[job_id][key]] *)
Definition job_field (job_id key : string) : M value :=
  self ← get_self;
  match batch_jobs self !! job_id with
  | None => raise (KeyError job_id)
  | Some job_data =>
      match job_data !! key with
      | None => raise (KeyError key)
      | Some v => ret v
      end
  end.

(** [self.batch_jobs[job_id][key] = v] *)
Definition set_job_field (job_id key : string) (v : value) : M unit :=
  self ← get_self;
  match batch_jobs self !! job_id with
  | None => raise (KeyError job_id)
  | Some job_data =>
      modify (set_batch_jobs (<[job_id := <[key := v]> job_data]> (batch_jobs self)))
  end.

(** [self.job_status_updater(job_id=..., current_status=...)] *)
Definition call_job_status_updater (job_id : string) (current_status : value)
  : M string :=
  λ self,
    let (r, u) := call_updater (job_status_updater self) job_id current_status in
    (r, set_job_status_updater u self).

(** Handler of [POST /result] (synchronous execute). *)
Definition _handle_post_result (request : Request) (context : Context)
  : M (value * Context) :=
  post_data ← lift (request_json request);
  process ← lift (subscript post_data "process");
  pg ← lift (subscript process "process_graph");
  modify (λ self, set_sync_requests (sync_requests self ++ [pg]) self);;
  self ← get_self;
  let result := next_result self in
  result ← match result with
           | VDict _ | VList _ =>
               s ← lift (json_dumps result); ret (VBytes (encode_utf8 s))
           | VStr s => ret (VBytes (encode_utf8 s))
           | _ => ret result
           end;
  lift (assert (match result with VBytes _ => true | _ => false end));;
  ret (result, context).

(** The two loops of [_handle_post_jobs] over metadata fields. *)
Definition copy_if_present (post_data : value)
    (job_data : gmap string value) (field : string) : res (gmap string value) :=
  present ← contains post_data field;
  if present : bool
  then v ← subscript post_data field; Ok (<[field := v]> job_data)
  else Ok job_data.

Definition copy_get (post_data : value)
    (job_data : gmap string value) (field : string) : res (gmap string value) :=
  v ← dict_get post_data field; Ok (<[field := v]> job_data).

(** Handler of [POST /jobs] (create batch job). *)
Definition _handle_post_jobs (request : Request) (context : Context)
  : M (value * Context) :=
  post_data ← lift (request_json request);
  process ← lift (subscript post_data "process");
  pg ← lift (subscript process "process_graph");
  self ← get_self;
  let job_id := format_job_id (size (batch_jobs self)) in
  let job_data : gmap string value :=
    {[ "job_id" := VStr job_id; "pg" := pg; "status" := VStr "created" ]} in
  job_data ← lift (for_each (copy_if_present post_data) ["title"; "description"] job_data);
  job_data ← lift (for_each (copy_get post_data) (extra_job_metadata_fields self) job_data);
  modify (λ self, set_batch_jobs (<[job_id := job_data]> (batch_jobs self)) self);;
  let context := set_status_code 201 context in
  let context := set_header "openeo-identifier" job_id context in
  ret (VNone, context).

Definition _get_job_id (request : Request) : M string :=
  match match_job_path (path request) with
  | None =>
      raise (OpeneoTestingException
               [Lit "Failed to extract job_id from "; Str (path request)])
  | Some job_id =>
      self ← get_self;
      lift (assert (bool_decide (job_id ∈ dom (batch_jobs self))));;
      ret job_id
  end.

(** Handler of [POST /job/{job_id}/results] (start batch job). *)
Definition _handle_post_job_results (request : Request) (context : Context)
  : M (value * Context) :=
  job_id ← _get_job_id request;
  status ← job_field job_id "status";
  lift (assert (eq_str status "created"));;
  current_status ← job_field job_id "status";
  new_status ← call_job_status_updater job_id current_status;
  set_job_field job_id "status" (VStr new_status);;
  ret (VNone, set_status_code 202 context).

(** Handler of [GET /job/{job_id}] (get batch job status and metadata). *)
Definition _handle_get_job (request : Request) (context : Context)
  : M (value * Context) :=
  job_id ← _get_job_id request;
  status ← job_field job_id "status";
  (if negb (eq_str status "created")
   then
     current_status ← job_field job_id "status";
     new_status ← call_job_status_updater job_id current_status;
     set_job_field job_id "status" (VStr new_status)
   else ret tt);;
  status ← job_field job_id "status";
  ret (VDict [("id", VStr job_id); ("status", status)], context).

(** Handler of [GET /job/{job_id}/results] (list batch job results). *)
Definition _handle_get_job_results (request : Request) (context : Context)
  : M (value * Context) :=
  job_id ← _get_job_id request;
  status ← job_field job_id "status";
  lift (assert (eq_str status "finished"));;
  self ← get_self;
  let href :=
    build_url (connection self) ("/jobs/" +:+ job_id +:+ "/results/result.data") in
  ret (VDict [("id", VStr job_id);
              ("assets", VDict [("result.data", VDict [("href", VStr href)])])],
       context).

(** Handler of [GET /job/{job_id}/results/result.data] (get batch job
    result asset). *)
Definition _handle_get_job_result_asset (request : Request) (context : Context)
  : M (value * Context) :=
  job_id ← _get_job_id request;
  status ← job_field job_id "status";
  lift (assert (eq_str status "finished"));;
  self ← get_self;
  ret (next_result self, context).

(** Handler of [POST /validation] (validate process graph). *)
Definition _handle_post_validation (request : Request) (context : Context)
  : M (value * Context) :=
  post_data ← lift (request_json request);
  pg ← lift (subscript post_data "process_graph");
  modify (λ self, set_validation_requests (validation_requests self ++ [pg]) self);;
  self ← get_self;
  ret (VDict [("errors", next_validation_errors self)], context).

End Handlers.

(** ** The inspection API *)

(** Get one and only synchronous process graph. *)
Definition get_sync_pg (self : DummyBackend) : res value :=
  assert (length (sync_requests self) =? 1)%nat;;
  match sync_requests self with
  | pg :: _ => Ok pg
  | [] => Raise IndexError
  end.

(** [job_data[key]] on a job record. *)
Definition record_field (key : string) (job_data : gmap string value) : res value :=
  match job_data !! key with
  | Some v => Ok v
  | None => Raise (KeyError key)
  end.

(** [self.batch_jobs.values()].  The registry is a finite map here, so the
    order is the map's and not the order of insertion; the callers below
    use the list only for its length and, when that is one, its element. *)
Definition batch_jobs_values (self : DummyBackend) : list (gmap string value) :=
  map snd (map_to_list (batch_jobs self)).

(** [max(keys)] on strings, which Python compares character by character. *)
Definition max_key (keys : list string) : res string :=
  match keys with
  | [] => Raise ValueError
  | k :: rest => Ok (fold_left (λ m k', if String.ltb m k' then k' else m) rest k)
  end.

(** Get one and only batch process graph. *)
Definition get_batch_pg (self : DummyBackend) : res value :=
  assert (size (batch_jobs self) =? 1)%nat;;
  job_id ← max_key (map fst (map_to_list (batch_jobs self)));
  match batch_jobs self !! job_id with
  | Some job_data => record_field "pg" job_data
  | None => Raise (KeyError job_id)
  end.

(** [self.sync_requests + [b["pg"] for b in self.batch_jobs.values()]] *)
Definition collect_pgs (self : DummyBackend) : res (list value) :=
  batch_pgs ← map_res (record_field "pg") (batch_jobs_values self);
  Ok (sync_requests self ++ batch_pgs)%list.

(** [[node for node in pg.values() if node.get("process_id") == process_id]] *)
Definition find_nodes (pg : value) (process_id : string) : res (list value) :=
  nodes ← dict_values pg;
  filter_res (λ node, v ← dict_get node "process_id"; Ok (eq_str v process_id)) nodes.

(** Get one and only batch process graph (sync or batch), or the single
    node of it with the given [process_id].  ([execute] runs a cube of the
    client, which posts its graph, and then is this.) *)
Definition get_pg (self : DummyBackend) (process_id : option string) : res value :=
  pgs ← collect_pgs self;
  match pgs with
  | [pg] =>
      match process_id with
      | Some pid =>
          if truthy process_id then
            found ← find_nodes pg pid;
            match found with
            | [node] => Ok node
            | _ =>
                Raise (OpeneoTestingException
                         [Lit "Expected single process graph node with process_id ";
                          Repr (VStr pid); Lit ", but found "; Num (length found);
                          Lit ": "; Repr (VList found)])
            end
          else Ok pg
      | None => Ok pg
      end
  | _ =>
      Raise (OpeneoTestingException
               [Lit "Expected single process graph, but collected "; Num (length pgs)])
  end.

(** ** The simple job status flow *)

(** [["queued"] * queued + ["running"] * running + [final]]; a count that
    is not positive repeats nothing. *)
Definition status_template (queued running : Z) (final : string) : list string :=
  (repeat "queued" (Z.to_nat queued) ++ repeat "running" (Z.to_nat running) ++ [final])%list.

(** The closure [get_status]: [job_stacks] is a [defaultdict] that gives a
    job its own copy of the template at its first call.  It pops the first
    item each time, but repeats the last one at the end. *)
Definition get_status (template : list string) (job_stacks : gmap string (list string))
    (job_id : string) (current_status : value)
  : res string * gmap string (list string) :=
  let stack := default template (job_stacks !! job_id) in
  if (1 <? length stack)%nat
  then (* stack.pop(0) *)
    match stack with
    | s :: rest => (Ok s, <[job_id := rest]> job_stacks)
    | [] => (Raise IndexError, <[job_id := stack]> job_stacks)
    end
  else (* stack[0] *)
    match stack with
    | s :: _ => (Ok s, <[job_id := stack]> job_stacks)
    | [] => (Raise IndexError, <[job_id := stack]> job_stacks)
    end.

Definition simple_flow_updater (template : list string)
    (job_stacks : gmap string (list string)) : Updater :=
  {| hook_state := gmap string (list string);
     hook_env := job_stacks;
     hook_call := get_status template |}.

Definition setup_simple_job_status_flow (queued running : Z) (final : string)
    (self : DummyBackend) : DummyBackend :=
  let template := status_template queued running final in
  set_job_status_updater (simple_flow_updater template ∅) self.

(** ** Construction *)

Definition double_quote : string := String "034" EmptyString.

(** [b'{"what?": "Result data"}'] *)
Definition DEFAULT_RESULT : value :=
  VBytes (encode_utf8
            ("{" +:+ double_quote +:+ "what?" +:+ double_quote +:+ ": "
                 +:+ double_quote +:+ "Result data" +:+ double_quote +:+ "}")).

Definition __init__ (connection : Connection) : DummyBackend :=
  {| connection := connection;
     sync_requests := [];
     batch_jobs := ∅;
     validation_requests := [];
     next_result := DEFAULT_RESULT;
     next_validation_errors := VList [];
     job_status_updater := finished_updater;
     extra_job_metadata_fields := [] |}.

(** ** Test runs

    What a test does with a back-end: requests that the mocked transport
    hands to the handlers, and settings of the attributes that configure
    it: [next_result], [next_validation_errors],
    [extra_job_metadata_fields] and [job_status_updater] (a setting has no
    response: its outcome is [None]). *)

(** The [context] a handler receives: status 200 and no headers. *)
Definition fresh_context : Context := {| status_code := 200; headers := ∅ |}.

Inductive op : Type :=
| POST_result (request : Request)
| POST_jobs (request : Request)
| POST_job_results (request : Request)
| GET_job (request : Request)
| GET_job_results (request : Request)
| GET_job_result_asset (request : Request)
| POST_validation (request : Request)
| Set_next_result (v : value)
| Set_next_validation_errors (v : value)
| Set_extra_job_metadata_fields (fields : list string)
| Set_job_status_updater (u : Updater)
| Setup_simple_job_status_flow (queued running : Z) (final : string).

Section Runs.

Variable json_dumps : value → res string.

Definition step (o : op) : M (value * Context) :=
  match o with
  | POST_result request => _handle_post_result json_dumps request fresh_context
  | POST_jobs request => _handle_post_jobs request fresh_context
  | POST_job_results request => _handle_post_job_results request fresh_context
  | GET_job request => _handle_get_job request fresh_context
  | GET_job_results request => _handle_get_job_results request fresh_context
  | GET_job_result_asset request => _handle_get_job_result_asset request fresh_context
  | POST_validation request => _handle_post_validation request fresh_context
  | Set_next_result v =>
      modify (set_next_result v);; ret (VNone, fresh_context)
  | Set_next_validation_errors v =>
      modify (set_next_validation_errors v);; ret (VNone, fresh_context)
  | Set_extra_job_metadata_fields fields =>
      modify (set_extra_job_metadata_fields fields);; ret (VNone, fresh_context)
  | Set_job_status_updater u =>
      modify (set_job_status_updater u);; ret (VNone, fresh_context)
  | Setup_simple_job_status_flow queued running final =>
      modify (setup_simple_job_status_flow queued running final);;
      ret (VNone, fresh_context)
  end.

(** A whole run: the outcome of every step, and the back-end at the end.
    A step that raises leaves the back-end as it was at the raise, and
    the run goes on. *)
Fixpoint run (trace : list op) (self : DummyBackend)
  : list (res (value * Context)) * DummyBackend :=
  match trace with
  | [] => ([], self)
  | o :: rest =>
      let (r, self') := step o self in
      let (rs, self'') := run rest self' in
      (r :: rs, self'')
  end.

(** The back-ends a test can bring about from a new one. *)
Inductive reachable (conn : Connection) : DummyBackend → Prop :=
| reachable_init : reachable conn (__init__ conn)
| reachable_step o self :
    reachable conn self → reachable conn (snd (step o self)).

End Runs.

(** The job ids a run handed out: the [openeo-identifier] header of every
    answered [POST /jobs]. *)
Fixpoint created_ids (trace : list op) (outcomes : list (res (value * Context)))
  : list string :=
  match trace, outcomes with
  | POST_jobs _ :: trace', Ok (_, context) :: outcomes' =>
      match headers context !! "openeo-identifier" with
      | Some job_id => job_id :: created_ids trace' outcomes'
      | None => created_ids trace' outcomes'
      end
  | _ :: trace', _ :: outcomes' => created_ids trace' outcomes'
  | _, _ => []
  end.

(** ** Job ids, read back *)

(** Reading a job id back: the number after [job-]. *)
Definition parse_job_number (job_id : string) : option nat :=
  match strip_prefix "job-" job_id with
  | Some digits => Nat.of_uint <$> NilEmpty.uint_of_string digits
  | None => None
  end.

(** ** The pattern [^/jobs/(job-\d+)(/|$)], read as a pattern *)

Fixpoint all_digits (s : string) : bool :=
  match s with
  | EmptyString => true
  | String c rest => is_digit c && all_digits rest
  end.

Definition newline : string := String "010" EmptyString.

(** [path] is matched with [job_id] as group 1: after [/jobs/job-] come one
    or more digits, and then a slash, the end, or a newline that ends the
    string. *)
Definition matches_job_pattern (path job_id : string) : Prop :=
  ∃ digits rest,
    path = "/jobs/job-" +:+ digits +:+ rest
    ∧ digits ≠ EmptyString
    ∧ all_digits digits = true
    ∧ (rest = EmptyString ∨ rest = newline ∨ ∃ r, rest = String "/" r)
    ∧ job_id = "job-" +:+ digits.

(** ** The job record that [POST /jobs] builds, as one expression *)

(** [post_data.get(field)] on the items of the body. *)
Definition items_get (items : list (string * value)) (field : string) : value :=
  default VNone (items_lookup field items).

(** The record of a job before any metadata is copied into it. *)
Definition base_job_data (job_id : string) (pg : value) : gmap string value :=
  {[ "job_id" := VStr job_id; "pg" := pg; "status" := VStr "created" ]}.

(** One round of [if field in post_data: job_data[field] = post_data[field]]. *)
Definition with_present (items : list (string * value))
    (job_data : gmap string value) (field : string) : gmap string value :=
  match items_lookup field items with
  | Some v => <[field := v]> job_data
  | None => job_data
  end.

(** One round of [job_data[field] = post_data.get(field)]. *)
Definition with_get (items : list (string * value))
    (job_data : gmap string value) (field : string) : gmap string value :=
  <[field := default VNone (items_lookup field items)]> job_data.

Definition new_job_data (job_id : string) (pg : value)
    (items : list (string * value)) (extra : list string) : gmap string value :=
  fold_left (with_get items) extra
    (fold_left (with_present items) ["title"; "description"]
       (base_job_data job_id pg)).

(** The response to a created job. *)
Definition created_context (job_id : string) (context : Context) : Context :=
  set_header "openeo-identifier" job_id (set_status_code 201 context).

(** The failure of [_get_job_id] on a path the pattern rejects. *)
Definition no_job_id (request : Request) : exn :=
  OpeneoTestingException [Lit "Failed to extract job_id from "; Str (path request)].

(** The back-end after a hook call that gave [new_status] for [job_id]. *)
Definition with_status (job_id : string) (job_data : gmap string value)
    (new_status : string) (u : Updater) (self : DummyBackend) : DummyBackend :=
  set_batch_jobs
    (<[job_id := <["status" := VStr new_status]> job_data]> (batch_jobs self))
    (set_job_status_updater u self).

(** ** Invariants of the registry *)

(** The registered ids are exactly the first [size] ids of the sequence. *)
Definition ids_in_sequence (jobs : gmap string (gmap string value)) : Prop :=
  ∀ k, is_Some (jobs !! k) ↔ ∃ i, i < size jobs ∧ k = format_job_id i.

(** Every record has the fields the handlers read. *)
Definition records_complete (jobs : gmap string (gmap string value)) : Prop :=
  ∀ j job_data, jobs !! j = Some job_data →
    is_Some (job_data !! "pg") ∧ is_Some (job_data !! "status").

(** What a step other than a creation can do to the registry: nothing, or
    replace the status of a registered job. *)
Definition status_update (jobs jobs' : gmap string (gmap string value)) : Prop :=
  jobs' = jobs
  ∨ ∃ j job_data status,
      jobs !! j = Some job_data
      ∧ jobs' = <[j := <["status" := status]> job_data]> jobs.

Definition is_POST_jobs (o : op) : bool :=
  match o with
  | POST_jobs _ => true
  | _ => false
  end.

(** ** Reading the status of a job during a run *)

(** The body of the answer to [GET /jobs/{job_id}]. *)
Definition job_body (job_id : string) (status : value) : value :=
  VDict [("id", VStr job_id); ("status", status)].

(** [o] is a request to start the job [job_id]. *)
Definition is_start_of (job_id : string) (o : op) : bool :=
  match o with
  | POST_job_results request =>
      bool_decide (match_job_path (path request) = Some job_id)
  | _ => false
  end.

(** The outcomes of the status reads of [job_id] in a run. *)
Fixpoint reads_of (job_id : string) (trace : list op)
    (outcomes : list (res (value * Context))) : list (res (value * Context)) :=
  match trace, outcomes with
  | GET_job request :: trace', r :: outcomes' =>
      if bool_decide (match_job_path (path request) = Some job_id)
      then r :: reads_of job_id trace' outcomes'
      else reads_of job_id trace' outcomes'
  | _ :: trace', _ :: outcomes' => reads_of job_id trace' outcomes'
  | _, _ => []
  end.

(** ** The script of the simple status flow *)

(** The entry of the script that call number [k] (from 0) for a job is
    at: entry [k], and the last entry once the script is used up. *)
Definition script_position (template : list string) (k : nat) : nat :=
  Nat.min k (length template - 1).

(** The stack of a job after [k] calls of the hook for it. *)
Definition stack_after (template : list string) (k : nat) : list string :=
  drop (script_position template k) template.

(** How many of [calls] are for [job_id]. *)
Fixpoint calls_for (job_id : string) (calls : list (string * value)) : nat :=
  match calls with
  | [] => 0
  | (j, _) :: rest => (if String.eqb j job_id then 1 else 0) + calls_for job_id rest
  end.

(** The hook called on each of [calls] in turn. *)
Fixpoint call_all (template : list string) (calls : list (string * value))
    (job_stacks : gmap string (list string))
  : list (res string) * gmap string (list string) :=
  match calls with
  | [] => ([], job_stacks)
  | (job_id, current_status) :: rest =>
      let (r, job_stacks') := get_status template job_stacks job_id current_status in
      let (rs, job_stacks'') := call_all template rest job_stacks' in
      (r :: rs, job_stacks'')
  end.

(** The statuses in the answers of a run of reads. *)
Definition answered_statuses (outcomes : list (res (value * Context)))
  : list (res value) :=
  map (λ r, '(body, _) ← r; subscript body "status") outcomes.

(** ** Process graphs and their nodes *)

Definition is_dict (v : value) : bool :=
  match v with
  | VDict _ => true
  | _ => false
  end.

(** [node.get("process_id") == process_id] on a node that is a mapping. *)
Definition node_matches (process_id : string) (node : value) : bool :=
  match node with
  | VDict items => eq_str (default VNone (items_lookup "process_id" items)) process_id
  | _ => false
  end.

(** The messages of [get_pg]. *)
Definition not_single_pg (count : nat) : exn :=
  OpeneoTestingException
    [Lit "Expected single process graph, but collected "; Num count].

Definition not_single_node (process_id : string) (found : list value) : exn :=
  OpeneoTestingException
    [Lit "Expected single process graph node with process_id ";
     Repr (VStr process_id); Lit ", but found "; Num (length found);
     Lit ": "; Repr (VList found)].

(** ** The payload of the result endpoints *)

(** What [_handle_post_result] makes of [next_result] before it returns it. *)
Definition normalized (json_dumps : value → res string) (result : value) : res value :=
  match result with
  | VDict _ | VList _ => s ← json_dumps result; Ok (VBytes (encode_utf8 s))
  | VStr s => Ok (VBytes (encode_utf8 s))
  | VBytes bs => Ok (VBytes bs)
  | _ => Raise AssertionError
  end.

(** ** The scripted hook on a back-end *)

(** [o] sets the hook of the back-end. *)
Definition replaces_updater (o : op) : bool :=
  match o with
  | Set_job_status_updater _ | Setup_simple_job_status_flow _ _ _ => true
  | _ => false
  end.

(** The hook of [self] is the scripted one on [template]; the stack of
    every job is a stack of the script; and a job that has a stack (the
    hook was called for it) is registered with a status other than
    [created]. *)
Definition scripted (template : list string) (self : DummyBackend) : Prop :=
  ∃ (job_stacks : gmap string (list string)) (count : string → nat),
    job_status_updater self = simple_flow_updater template job_stacks
    ∧ (∀ j, default template (job_stacks !! j) = stack_after template (count j))
    ∧ (∀ j, is_Some (job_stacks !! j) →
            ∃ job_data status,
              batch_jobs self !! j = Some job_data
              ∧ job_data !! "status" = Some (VStr status)
              ∧ status ≠ "created").

(** ** Requests and back-ends of the examples *)

Definition OPENEO_BACKEND : string := "https://openeo.test/".

(** A connection to [OPENEO_BACKEND]: [build_url] puts the path, which
    starts with a slash, after the root. *)
Definition test_connection : Connection :=
  {| build_url := λ p, "https://openeo.test" +:+ p |}.

(** A creation request whose body has an empty process graph and nothing else. *)
Definition plain_job_request : Request :=
  {| path := "/jobs";
     body := json_body (VDict [("process", VDict [("process_graph", VDict [])])]) |}.

(** The record of the first job, created from [plain_job_request]. *)
Definition plain_job_data : gmap string value :=
  new_job_data "job-000" (VDict [])
    [("process", VDict [("process_graph", VDict [])])] [].

(** A new back-end after one [POST /jobs]. *)
Definition one_job_backend : DummyBackend :=
  snd (_handle_post_jobs plain_job_request fresh_context (__init__ test_connection)).

Definition job_000_request : Request := {| path := "/jobs/job-000"; body := no_body |}.

Definition start_job_000_request : Request :=
  {| path := "/jobs/job-000/results"; body := no_body |}.

(** [one_job_backend] after [POST /jobs/job-000/results]. *)
Definition started_job_backend : DummyBackend :=
  snd (_handle_post_job_results start_job_000_request fresh_context one_job_backend).

(** A new back-end with the simple status flow of the defaults
    ([queued=1, running=4, final="finished"]) set up, after one
    [POST /jobs]. *)
Definition flow_job_backend : DummyBackend :=
  snd (_handle_post_jobs plain_job_request fresh_context
         (setup_simple_job_status_flow 1 4 "finished" (__init__ test_connection))).

(** [flow_job_backend] after [POST /jobs/job-000/results]. *)
Definition flow_started_backend : DummyBackend :=
  snd (_handle_post_job_results start_job_000_request fresh_context flow_job_backend).

(** A graph of three nodes: two carry a [process_id], one carries none. *)
Definition sample_graph : value :=
  VDict
    [("loadcollection1",
      VDict [("process_id", VStr "load_collection");
             ("arguments", VDict [("id", VStr "S2")])]);
     ("note1", VDict [("description", VStr "no process here")]);
     ("saveresult1",
      VDict [("process_id", VStr "save_result"); ("result", VBool true)])].

Definition sync_request (pg : value) : Request :=
  {| path := "/result"; body := json_body (VDict [("process", VDict [("process_graph", pg)])]) |}.

Definition job_request (pg : value) : Request :=
  {| path := "/jobs"; body := json_body (VDict [("process", VDict [("process_graph", pg)])]) |}.

Definition result_asset_request : Request :=
  {| path := "/jobs/job-000/results/result.data"; body := no_body |}.

(** A mapping as the scripted result: [{"foo": "bar"}]. *)
Definition mapping_result : value := VDict [("foo", VStr "bar")].

(** ** Executing a cube and inspecting its graph *)

(** The argument [cube] of [execute], for all that [execute] does with
    it: it calls [cube.execute()].  The classes of the client ([DataCube],
    [VectorCube]) are not among the sources at hand, so nothing is assumed
    about what that call does: it is any computation on the back-end that
    returns a value or raises. *)
Record Cube : Type := { cube_execute : M value }.

(** Execute given cube (synchronously) and return observed process graph
    (or subset thereof). *)
Definition execute (cube : Cube) (process_id : option string) : M value :=
  cube_execute cube;;
  self ← get_self;
  lift (get_pg self process_id).

(** ** The capabilities document *)

(** [{"path": path, "methods": methods}] *)
Definition endpoint (path : string) (methods : list string) : value :=
  VDict [("path", VStr path); ("methods", VList (map VStr methods))].

(** The list [endpoints] that [build_capabilities] assembles. *)
Definition capabilities_endpoints
    (basic_auth oidc_auth collections processes sync_processing validation
       batch_jobs udp : bool) : list value :=
  let endpoints : list value := [] in
  let endpoints :=
    if basic_auth
    then (endpoints ++ [endpoint "/credentials/basic" ["GET"]])%list else endpoints in
  let endpoints :=
    if oidc_auth
    then (endpoints ++ [endpoint "/credentials/oidc" ["GET"]])%list else endpoints in
  let endpoints :=
    if basic_auth || oidc_auth
    then (endpoints ++ [endpoint "/me" ["GET"]])%list else endpoints in
  let endpoints :=
    if collections
    then ((endpoints ++ [endpoint "/collections" ["GET"]])
            ++ [endpoint "/collections/{collection_id}" ["GET"]])%list
    else endpoints in
  let endpoints :=
    if processes
    then (endpoints ++ [endpoint "/processes" ["GET"]])%list else endpoints in
  let endpoints :=
    if sync_processing
    then (endpoints ++ [endpoint "/result" ["POST"]])%list else endpoints in
  let endpoints :=
    if validation
    then (endpoints ++ [endpoint "/validation" ["POST"]])%list else endpoints in
  let endpoints :=
    if batch_jobs
    then (endpoints
            ++ [endpoint "/jobs" ["GET"; "POST"];
                endpoint "/jobs/{job_id}" ["GET"; "DELETE"];
                endpoint "/jobs/{job_id}/results" ["GET"; "POST"; "DELETE"];
                endpoint "/jobs/{job_id}/logs" ["GET"]])%list
    else endpoints in
  let endpoints :=
    if udp
    then (endpoints
            ++ [endpoint "/process_graphs" ["GET"];
                endpoint "/process_graphs/{process_graph_id" ["GET"; "PUT"; "DELETE"]])%list
    else endpoints in
  endpoints.

(** Build a dummy capabilities document for testing purposes. *)
Definition build_capabilities (api_version stac_version : string)
    (basic_auth oidc_auth collections processes sync_processing validation
       batch_jobs udp : bool) : value :=
  VDict
    [("api_version", VStr api_version);
     ("stac_version", VStr stac_version);
     ("id", VStr "dummy");
     ("title", VStr "Dummy openEO back-end");
     ("description", VStr "Dummy openeEO back-end");
     ("endpoints",
      VList (capabilities_endpoints basic_auth oidc_auth collections processes
               sync_processing validation batch_jobs udp));
     ("links", VList [])].

(** [build_capabilities()] with the defaults of its keyword arguments. *)
Definition default_capabilities : value :=
  build_capabilities "1.0.0" "0.9.0" true true true true true false true false.

(** Reading a capabilities document as a client does: the paths of its
    endpoints. *)
Definition endpoints_of (capabilities : value) : list value :=
  match subscript capabilities "endpoints" with
  | Ok (VList endpoints) => endpoints
  | _ => []
  end.

Definition endpoint_path (e : value) : option string :=
  match subscript e "path" with
  | Ok (VStr p) => Some p
  | _ => None
  end.

Definition advertised_paths (capabilities : value) : list string :=
  omap endpoint_path (endpoints_of capabilities).

(** ** The graphs of the requests of a run *)

(** [request.json()["process"]["process_graph"]] *)
Definition request_graph (request : Request) : res value :=
  post_data ← request_json request;
  process ← subscript post_data "process";
  subscript process "process_graph".

(** [request.json()["process_graph"]] *)
Definition validation_graph (request : Request) : res value :=
  post_data ← request_json request;
  subscript post_data "process_graph".

Definition res_to_list {A} (r : res A) : list A :=
  match r with
  | Ok a => [a]
  | Raise _ => []
  end.

(** The graph that a step hands to [POST /result], if it does. *)
Definition sync_graph_of (o : op) : list value :=
  match o with
  | POST_result request => res_to_list (request_graph request)
  | _ => []
  end.

(** The graph that a step hands to [POST /validation], if it does. *)
Definition validation_graph_of (o : op) : list value :=
  match o with
  | POST_validation request => res_to_list (validation_graph request)
  | _ => []
  end.

(** [o] is a request, not a setting of an attribute. *)
Definition is_request (o : op) : bool :=
  match o with
  | POST_result _ | POST_jobs _ | POST_job_results _ | GET_job _
  | GET_job_results _ | GET_job_result_asset _ | POST_validation _ => true
  | _ => false
  end.

(** ** Starting a job during a run *)

(** The outcomes of the starts of [job_id] in a run. *)
Fixpoint starts_of (job_id : string) (trace : list op)
    (outcomes : list (res (value * Context))) : list (res (value * Context)) :=
  match trace, outcomes with
  | o :: trace', r :: outcomes' =>
      if is_start_of job_id o
      then r :: starts_of job_id trace' outcomes'
      else starts_of job_id trace' outcomes'
  | _, _ => []
  end.

(** The job [job_id] is registered with a status other than [created]. *)
Definition started (job_id : string) (self : DummyBackend) : Prop :=
  ∃ job_data status,
    batch_jobs self !! job_id = Some job_data
    ∧ job_data !! "status" = Some status
    ∧ status ≠ VStr "created".

(** A hook that never returns [created], whatever it is called on and
    however often: some property of its state holds now, is kept by every
    call, and rules out that a call returns [created]. *)
Definition never_created (u : Updater) : Prop :=
  ∃ I : hook_state u → Prop,
    I (hook_env u)
    ∧ ∀ st job_id status,
        I st →
        I (snd (hook_call u st job_id status))
        ∧ fst (hook_call u st job_id status) ≠ Ok "created".

(** The status that call number [k] (from 0) of the scripted hook for a
    job returns: [queued] for the first [queued] calls, [running] for the
    next [running] calls, [final] from then on. *)
Definition phase (queued running : Z) (final : string) (k : nat) : string :=
  if (k <? Z.to_nat queued)%nat then "queued"
  else if (k <? Z.to_nat queued + Z.to_nat running)%nat then "running"
  else final.

(** [o] does not give the back-end a hook that can return [created]: it
    sets no hook, or one that never returns [created]; the simple status
    flow is such a hook when its final status is not [created]. *)
Definition keeps_never_created (o : op) : Prop :=
  match o with
  | Set_job_status_updater u => never_created u
  | Setup_simple_job_status_flow _ _ final => final ≠ "created"
  | _ => True
  end.

(** The hook [u] with [st] as the state it carries: what the hook is
    after a call that left its state as [st]. *)
Definition hook_after (u : Updater) (st : hook_state u) : Updater :=
  {| hook_state := hook_state u; hook_env := st; hook_call := hook_call u |}.

(** * Properties *)

(** ** Job ids and request paths *)

Example match_job_path_plain : match_job_path "/jobs/job-007" = Some "job-007".
Proof. reflexivity. Qed.
Example match_job_path_results :
  match_job_path "/jobs/job-012/results/result.data" = Some "job-012".
Proof. reflexivity. Qed.
Example match_job_path_no_digits : match_job_path "/jobs/job-/results" = None.
Proof. reflexivity. Qed.
Example match_job_path_tail : match_job_path "/jobs/job-12x" = None.
Proof. reflexivity. Qed.
Example format_job_id_7 : format_job_id 7 = "job-007".
Proof. reflexivity. Qed.
Example format_job_id_1234 : format_job_id 1234 = "job-1234".
Proof. reflexivity. Qed.

Lemma of_uint_D0 (d : uint) : Nat.of_uint (D0 d) = Nat.of_uint d.
Proof. reflexivity. Qed.

Lemma uint_of_string_zeros (k : nat) (s : string) (d : uint) :
  NilEmpty.uint_of_string s = Some d →
  ∃ d', NilEmpty.uint_of_string (zeros k +:+ s) = Some d'
        ∧ Nat.of_uint d' = Nat.of_uint d.
Proof.
  intros Hs. induction k as [|k [d' [Hd' Hn]]]; simpl.
  - eauto.
  - rewrite Hd'. simpl. exists (D0 d'). split; [done|]. by rewrite of_uint_D0.
Qed.

Lemma uint_of_string_of_uint (d : uint) :
  ∃ d', NilEmpty.uint_of_string (NilZero.string_of_uint d) = Some d'
        ∧ Nat.of_uint d' = Nat.of_uint d.
Proof.
  destruct d as [|d|d|d|d|d|d|d|d|d|d];
    [by exists (D0 Nil)|eexists; split; [apply NilEmpty.usu|done]..].
Qed.

Lemma parse_format_job_id (n : nat) : parse_job_number (format_job_id n) = Some n.
Proof.
  unfold parse_job_number, format_job_id, format_03d, zfill. simpl strip_prefix.
  destruct (uint_of_string_of_uint (Nat.to_uint n)) as [d [Hd Hn]].
  destruct (uint_of_string_zeros
              (3 - String.length (NilZero.string_of_uint (Nat.to_uint n))) _ _ Hd)
    as [d' [Hd' Hn']].
  change ("" +:+ ?s) with s. rewrite Hd'. simpl. by rewrite Hn', Hn, Unsigned.of_to.
Qed.

Lemma format_job_id_inj (i j : nat) : format_job_id i = format_job_id j → i = j.
Proof.
  intros H. apply (f_equal parse_job_number) in H.
  rewrite !parse_format_job_id in H. by injection H.
Qed.

(** ** The handlers as equations

    Each handler, with its sequence of statements run through: what it
    returns or raises and the back-end it leaves, by cases on what it
    reads. *)

Ltac unfold_M :=
  unfold mbind, mret, M_mbind, M_mret, res_mbind, res_mret, bind, ret, raise,
    lift, get_self, modify, res_bind in *.

Lemma request_json_Ok (request : Request) (v : value) :
  request_json request = Ok v ↔ json request = Some v.
Proof.
  unfold request_json, json. destruct (body request); split; congruence.
Qed.

Lemma request_json_Some (request : Request) (v : value) :
  json request = Some v → request_json request = Ok v.
Proof. apply request_json_Ok. Qed.

Lemma elem_of_dom_lookup (m : gmap string (gmap string value)) (j : string) :
  bool_decide (j ∈ dom m) = bool_decide (is_Some (m !! j)).
Proof. apply bool_decide_ext, elem_of_dom. Qed.

Lemma _get_job_id_eq (request : Request) (self : DummyBackend) :
  _get_job_id request self =
  match match_job_path (path request) with
  | None => (Raise (no_job_id request), self)
  | Some job_id =>
      match batch_jobs self !! job_id with
      | Some _ => (Ok job_id, self)
      | None => (Raise AssertionError, self)
      end
  end.
Proof.
  unfold _get_job_id. destruct (match_job_path _) as [j|]; [|done].
  unfold_M. rewrite elem_of_dom_lookup.
  by destruct (batch_jobs self !! j).
Qed.

Lemma _handle_get_job_eq (request : Request) (context : Context) (self : DummyBackend) :
  _handle_get_job request context self =
  match match_job_path (path request) with
  | None => (Raise (no_job_id request), self)
  | Some job_id =>
      match batch_jobs self !! job_id with
      | None => (Raise AssertionError, self)
      | Some job_data =>
          match job_data !! "status" with
          | None => (Raise (KeyError "status"), self)
          | Some status =>
              if eq_str status "created"
              then (Ok (VDict [("id", VStr job_id); ("status", status)], context), self)
              else
                match call_updater (job_status_updater self) job_id status with
                | (Ok new_status, u) =>
                    (Ok (VDict [("id", VStr job_id); ("status", VStr new_status)],
                         context),
                     with_status job_id job_data new_status u self)
                | (Raise e, u) => (Raise e, set_job_status_updater u self)
                end
          end
      end
  end.
Proof.
  unfold _handle_get_job. unfold_M. rewrite _get_job_id_eq.
  destruct (match_job_path _) as [j|]; [|done].
  destruct (batch_jobs self !! j) as [jd|] eqn:Ej; [|done].
  unfold job_field. unfold_M. rewrite Ej.
  destruct (jd !! "status") as [s|] eqn:Es; [|done].
  destruct (eq_str s "created") eqn:Ec; simpl.
  - by rewrite Ej, Es.
  - rewrite Ej, Es. unfold call_job_status_updater.
    destruct (call_updater _ _ _) as [[s'|e] u]; [|done].
    unfold set_job_field. unfold_M. simpl. rewrite Ej. simpl.
    by rewrite !lookup_insert_eq.
Qed.

Lemma _handle_post_job_results_eq (request : Request) (context : Context)
    (self : DummyBackend) :
  _handle_post_job_results request context self =
  match match_job_path (path request) with
  | None => (Raise (no_job_id request), self)
  | Some job_id =>
      match batch_jobs self !! job_id with
      | None => (Raise AssertionError, self)
      | Some job_data =>
          match job_data !! "status" with
          | None => (Raise (KeyError "status"), self)
          | Some status =>
              if eq_str status "created"
              then
                match call_updater (job_status_updater self) job_id status with
                | (Ok new_status, u) =>
                    (Ok (VNone, set_status_code 202 context),
                     with_status job_id job_data new_status u self)
                | (Raise e, u) => (Raise e, set_job_status_updater u self)
                end
              else (Raise AssertionError, self)
          end
      end
  end.
Proof.
  unfold _handle_post_job_results. unfold_M. rewrite _get_job_id_eq.
  destruct (match_job_path _) as [j|]; [|done].
  destruct (batch_jobs self !! j) as [jd|] eqn:Ej; [|done].
  unfold job_field. unfold_M. rewrite Ej.
  destruct (jd !! "status") as [s|] eqn:Es; [|done].
  destruct (eq_str s "created") eqn:Ec; simpl; [|done].
  rewrite Ej, Es. unfold call_job_status_updater.
  destruct (call_updater _ _ _) as [[s'|e] u]; [|done].
  unfold set_job_field. unfold_M. simpl. by rewrite Ej.
Qed.

Lemma _handle_get_job_results_eq (request : Request) (context : Context)
    (self : DummyBackend) :
  _handle_get_job_results request context self =
  match match_job_path (path request) with
  | None => (Raise (no_job_id request), self)
  | Some job_id =>
      match batch_jobs self !! job_id with
      | None => (Raise AssertionError, self)
      | Some job_data =>
          match job_data !! "status" with
          | None => (Raise (KeyError "status"), self)
          | Some status =>
              if eq_str status "finished"
              then
                (Ok (VDict
                       [("id", VStr job_id);
                        ("assets",
                         VDict
                           [("result.data",
                             VDict
                               [("href",
                                 VStr (build_url (connection self)
                                         ("/jobs/" +:+ job_id
                                            +:+ "/results/result.data")))])])],
                     context), self)
              else (Raise AssertionError, self)
          end
      end
  end.
Proof.
  unfold _handle_get_job_results. unfold_M. rewrite _get_job_id_eq.
  destruct (match_job_path _) as [j|]; [|done].
  destruct (batch_jobs self !! j) as [jd|] eqn:Ej; [|done].
  unfold job_field. unfold_M. rewrite Ej.
  destruct (jd !! "status") as [s|] eqn:Es; [|done].
  by destruct (eq_str s "finished").
Qed.

Lemma _handle_get_job_result_asset_eq (request : Request) (context : Context)
    (self : DummyBackend) :
  _handle_get_job_result_asset request context self =
  match match_job_path (path request) with
  | None => (Raise (no_job_id request), self)
  | Some job_id =>
      match batch_jobs self !! job_id with
      | None => (Raise AssertionError, self)
      | Some job_data =>
          match job_data !! "status" with
          | None => (Raise (KeyError "status"), self)
          | Some status =>
              if eq_str status "finished"
              then (Ok (next_result self, context), self)
              else (Raise AssertionError, self)
          end
      end
  end.
Proof.
  unfold _handle_get_job_result_asset. unfold_M. rewrite _get_job_id_eq.
  destruct (match_job_path _) as [j|]; [|done].
  destruct (batch_jobs self !! j) as [jd|] eqn:Ej; [|done].
  unfold job_field. unfold_M. rewrite Ej.
  destruct (jd !! "status") as [s|] eqn:Es; [|done].
  by destruct (eq_str s "finished").
Qed.

(** Only a dict answers [post_data["process"]]. *)
Lemma subscript_Ok_dict (obj v : value) (key : string) :
  subscript obj key = Ok v →
  ∃ items, obj = VDict items ∧ items_lookup key items = Some v.
Proof.
  destruct obj; try done. simpl.
  destruct (items_lookup key items) eqn:E; [|done].
  intros [= <-]. eauto.
Qed.

Lemma copy_if_present_dict (items : list (string * value))
    (job_data : gmap string value) (field : string) :
  copy_if_present (VDict items) job_data field = Ok (with_present items job_data field).
Proof.
  unfold copy_if_present, with_present. simpl.
  by destruct (items_lookup field items).
Qed.

Lemma copy_get_dict (items : list (string * value))
    (job_data : gmap string value) (field : string) :
  copy_get (VDict items) job_data field = Ok (with_get items job_data field).
Proof. done. Qed.

Lemma for_each_Ok {A B} (f : A → B → res A) (g : A → B → A) (l : list B) (acc : A) :
  (∀ a x, f a x = Ok (g a x)) → for_each f l acc = Ok (fold_left g l acc).
Proof.
  intros Hf. revert acc. induction l as [|x l IH]; intros acc; [done|].
  cbn [for_each fold_left]. rewrite Hf. apply IH.
Qed.

(** [POST /jobs] on a body with a process graph: the job is registered
    under the next id and the response announces it. *)
Lemma _handle_post_jobs_Ok (request : Request) (context : Context) (self : DummyBackend)
    (items : list (string * value)) (process pg : value) :
  json request = Some (VDict items) →
  items_lookup "process" items = Some process →
  subscript process "process_graph" = Ok pg →
  let job_id := format_job_id (size (batch_jobs self)) in
  _handle_post_jobs request context self =
  (Ok (VNone, created_context job_id context),
   set_batch_jobs
     (<[job_id := new_job_data job_id pg items (extra_job_metadata_fields self)]>
        (batch_jobs self))
     self).
Proof.
  intros Hj Hp Hg.
  assert (subscript (VDict items) "process" = Ok process) as Hs
    by (simpl; by rewrite Hp).
  unfold _handle_post_jobs. rewrite (request_json_Some _ _ Hj).
  unfold_M. rewrite Hs, Hg.
  rewrite (for_each_Ok _ _ _ _ (copy_if_present_dict items)).
  by rewrite (for_each_Ok _ _ _ _ (copy_get_dict items)).
Qed.

(** Any other body makes [POST /jobs] raise before it touches the back-end. *)
Lemma _handle_post_jobs_cases (request : Request) (context : Context)
    (self : DummyBackend) :
  (∃ e, _handle_post_jobs request context self = (Raise e, self))
  ∨ (∃ items process pg,
        json request = Some (VDict items)
        ∧ items_lookup "process" items = Some process
        ∧ subscript process "process_graph" = Ok pg).
Proof.
  unfold _handle_post_jobs. unfold_M.
  destruct (request_json request) as [post_data|e] eqn:Hj; [|left; eauto].
  apply request_json_Ok in Hj.
  destruct (subscript post_data "process") as [process|e] eqn:Hp; [|left; eauto].
  destruct (subscript process "process_graph") as [pg|e] eqn:Hg; [|left; eauto].
  apply subscript_Ok_dict in Hp as [items [-> Hp]].
  right. eauto 6.
Qed.

(** ** The registry along a run *)

Lemma with_present_is_Some items (job_data : gmap string value) (field k : string) :
  is_Some (job_data !! k) → is_Some (with_present items job_data field !! k).
Proof.
  intros H. unfold with_present. destruct (items_lookup field items); [|done].
  rewrite lookup_insert. by case_decide.
Qed.

Lemma with_get_is_Some items (job_data : gmap string value) (field k : string) :
  is_Some (job_data !! k) → is_Some (with_get items job_data field !! k).
Proof. intros H. unfold with_get. rewrite lookup_insert. by case_decide. Qed.

Lemma fold_left_is_Some (g : gmap string value → string → gmap string value)
    (fields : list string) (job_data : gmap string value) (k : string) :
  (∀ jd f, is_Some (jd !! k) → is_Some (g jd f !! k)) →
  is_Some (job_data !! k) → is_Some (fold_left g fields job_data !! k).
Proof.
  intros Hg. revert job_data.
  induction fields as [|f fields IH]; intros jd H; [done|]. simpl. auto.
Qed.

Lemma new_job_data_is_Some job_id pg items extra (k : string) :
  k = "job_id" ∨ k = "pg" ∨ k = "status" →
  is_Some (new_job_data job_id pg items extra !! k).
Proof.
  intros Hk. unfold new_job_data.
  apply fold_left_is_Some; [intros; by apply with_get_is_Some|].
  apply fold_left_is_Some; [intros; by apply with_present_is_Some|].
  destruct Hk as [-> | [-> | ->]]; by eexists.
Qed.

Section RunFacts.

Variable json_dumps : value → res string.

Lemma _handle_post_result_jobs request context self :
  batch_jobs (snd (_handle_post_result json_dumps request context self))
  = batch_jobs self.
Proof.
  unfold _handle_post_result. unfold_M.
  destruct (request_json request) as [post_data|]; [|done].
  destruct (subscript post_data "process") as [process|]; [|done].
  destruct (subscript process "process_graph") as [pg|]; [|done].
  simpl. destruct (next_result self); try done.
  - by destruct (json_dumps _).
  - by destruct (json_dumps _).
Qed.

Lemma _handle_post_validation_jobs request context self :
  batch_jobs (snd (_handle_post_validation request context self)) = batch_jobs self.
Proof.
  unfold _handle_post_validation. unfold_M.
  destruct (request_json request) as [post_data|]; [|done].
  by destruct (subscript post_data "process_graph").
Qed.

(** A step that is not a creation keeps the registered ids. *)
Lemma step_status_update (o : op) (self : DummyBackend) :
  is_POST_jobs o = false →
  status_update (batch_jobs self) (batch_jobs (snd (step json_dumps o self))).
Proof.
  intros Ho.
  destruct o as [r|r|r|r|r|r|r|v|v|l|u|q n f]; try done; simpl step;
    try (by left).
  - rewrite _handle_post_result_jobs. by left.
  - rewrite _handle_post_job_results_eq.
    destruct (match_job_path _) as [j|]; [|by left].
    destruct (batch_jobs self !! j) as [jd|] eqn:Ej; [|by left].
    destruct (jd !! "status") as [s|]; [|by left].
    destruct (eq_str s "created"); [|by left].
    destruct (call_updater _ _ _) as [[s'|e] u]; [|by left].
    right. by exists j, jd, (VStr s').
  - rewrite _handle_get_job_eq.
    destruct (match_job_path _) as [j|]; [|by left].
    destruct (batch_jobs self !! j) as [jd|] eqn:Ej; [|by left].
    destruct (jd !! "status") as [s|]; [|by left].
    destruct (eq_str s "created"); [by left|].
    destruct (call_updater _ _ _) as [[s'|e] u]; [|by left].
    right. by exists j, jd, (VStr s').
  - rewrite _handle_get_job_results_eq.
    repeat case_match; by left.
  - rewrite _handle_get_job_result_asset_eq.
    repeat case_match; by left.
  - rewrite _handle_post_validation_jobs. by left.
Qed.

(** A creation either raises on its body or registers the next id. *)
Lemma step_POST_jobs (request : Request) (self : DummyBackend) :
  (∃ e, step json_dumps (POST_jobs request) self = (Raise e, self))
  ∨ (∃ job_data,
        let job_id := format_job_id (size (batch_jobs self)) in
        step json_dumps (POST_jobs request) self
        = (Ok (VNone, created_context job_id fresh_context),
           set_batch_jobs (<[job_id := job_data]> (batch_jobs self)) self)
        ∧ is_Some (job_data !! "pg") ∧ is_Some (job_data !! "status")).
Proof.
  simpl step.
  destruct (_handle_post_jobs_cases request fresh_context self)
    as [[e He]|(items & process & pg & Hj & Hp & Hg)]; [left; eauto|].
  right. eexists. split; [by apply (_handle_post_jobs_Ok _ _ _ _ _ _ Hj Hp Hg)|].
  split; apply new_job_data_is_Some; auto.
Qed.

End RunFacts.

Lemma status_update_lookup jobs jobs' (k : string) :
  status_update jobs jobs' → is_Some (jobs' !! k) ↔ is_Some (jobs !! k).
Proof.
  intros [->|(j & jd & s & Hj & ->)]; [done|].
  rewrite lookup_insert. case_decide; [subst|done].
  rewrite Hj. split; eauto.
Qed.

Lemma status_update_size jobs jobs' : status_update jobs jobs' → size jobs' = size jobs.
Proof.
  intros [->|(j & jd & s & Hj & ->)]; [done|].
  apply map_size_insert_Some. eauto.
Qed.

Lemma status_update_ids jobs jobs' :
  status_update jobs jobs' → ids_in_sequence jobs → ids_in_sequence jobs'.
Proof.
  intros Hu Hi k. rewrite (status_update_lookup _ _ _ Hu), (status_update_size _ _ Hu).
  apply Hi.
Qed.

Lemma status_update_complete jobs jobs' :
  status_update jobs jobs' → records_complete jobs → records_complete jobs'.
Proof.
  intros [->|(j & jd & s & Hj & ->)] Hc; [done|].
  intros k kd. rewrite lookup_insert. case_decide; [subst|by apply Hc].
  intros [= <-]. destruct (Hc _ _ Hj) as [Hpg _].
  split; [by rewrite lookup_insert_ne|rewrite lookup_insert_eq; eauto].
Qed.

(** The next id of the sequence is not registered yet. *)
Lemma next_id_fresh jobs :
  ids_in_sequence jobs → jobs !! format_job_id (size jobs) = None.
Proof.
  intros Hi. apply eq_None_not_Some. intros Hs.
  apply Hi in Hs as (i & Hlt & Heq). apply format_job_id_inj in Heq. lia.
Qed.

Lemma created_ids_in_sequence jobs job_data :
  ids_in_sequence jobs →
  ids_in_sequence (<[format_job_id (size jobs) := job_data]> jobs).
Proof.
  intros Hi k. rewrite (map_size_insert_None _ _ _ (next_id_fresh _ Hi)).
  rewrite lookup_insert. case_decide as Hk.
  - subst. split; [|eauto]. intros _. exists (size jobs). split; [lia|done].
  - rewrite (Hi k). split; intros (i & Hlt & ->).
    + exists i. split; [lia|done].
    + exists i. split; [|done].
      destruct (decide (i = size jobs)) as [->|]; [done|lia].
Qed.

Lemma created_complete jobs job_id job_data :
  is_Some (job_data !! "pg") → is_Some (job_data !! "status") →
  records_complete jobs → records_complete (<[job_id := job_data]> jobs).
Proof.
  intros Hp Hs Hc k kd. rewrite lookup_insert. case_decide; [|by apply Hc].
  by intros [= <-].
Qed.

Section Reachable.

Variable json_dumps : value → res string.
Variable conn : Connection.

Lemma step_invariants (o : op) (self : DummyBackend) :
  ids_in_sequence (batch_jobs self) ∧ records_complete (batch_jobs self) →
  ids_in_sequence (batch_jobs (snd (step json_dumps o self)))
  ∧ records_complete (batch_jobs (snd (step json_dumps o self))).
Proof.
  intros [Hi Hc]. destruct (is_POST_jobs o) eqn:Ho.
  - destruct o; try done.
    destruct (step_POST_jobs json_dumps request self)
      as [[e ->]|(jd & -> & Hpg & Hst)]; [done|].
    split; [by apply created_ids_in_sequence|by apply created_complete].
  - pose proof (step_status_update json_dumps o self Ho) as Hu.
    split; [by eapply status_update_ids|by eapply status_update_complete].
Qed.

Lemma reachable_invariants (self : DummyBackend) :
  reachable json_dumps conn self →
  ids_in_sequence (batch_jobs self) ∧ records_complete (batch_jobs self).
Proof.
  induction 1 as [|o self _ IH]; [|by apply step_invariants].
  split.
  - intros k. simpl. rewrite lookup_empty, map_size_empty.
    split; [by intros [? ?]|intros (i & ? & _); lia].
  - intros j jd. simpl. by rewrite lookup_empty.
Qed.

Lemma run_reachable (trace : list op) (self : DummyBackend) :
  reachable json_dumps conn self →
  reachable json_dumps conn (snd (run json_dumps trace self)).
Proof.
  revert self. induction trace as [|o trace IH]; intros self Hr; [done|].
  simpl. destruct (step json_dumps o self) as [r self'] eqn:Es.
  specialize (IH self').
  destruct (run json_dumps trace self') as [rs self'']. simpl in *.
  apply IH. replace self' with (snd (step json_dumps o self)) by (by rewrite Es).
  by constructor.
Qed.

End Reachable.

(** ** The fields of a new job record *)

Lemma fold_with_get_lookup items (fields : list string) (job_data : gmap string value)
    (f : string) :
  fold_left (with_get items) fields job_data !! f
  = if decide (f ∈ fields) then Some (items_get items f) else job_data !! f.
Proof.
  revert job_data. induction fields as [|x fields IH]; intros jd; cbn [fold_left].
  - rewrite decide_False; [done|apply not_elem_of_nil].
  - rewrite IH. unfold with_get.
    destruct (decide (f ∈ fields)) as [Hin|Hnin].
    + rewrite decide_True; [done|]. apply elem_of_cons. by right.
    + rewrite lookup_insert. destruct (decide (x = f)) as [->|Hne].
      * rewrite decide_True; [done|]. apply elem_of_cons. by left.
      * rewrite decide_False; [done|]. apply not_elem_of_cons. split; congruence.
Qed.

Lemma fold_with_present_lookup items (fields : list string)
    (job_data : gmap string value) (f : string) :
  fold_left (with_present items) fields job_data !! f
  = if decide (f ∈ fields)
    then match items_lookup f items with
         | Some v => Some v
         | None => job_data !! f
         end
    else job_data !! f.
Proof.
  revert job_data. induction fields as [|x fields IH]; intros jd; cbn [fold_left].
  - rewrite decide_False; [done|apply not_elem_of_nil].
  - rewrite IH. unfold with_present.
    destruct (decide (x = f)) as [->|Hne].
    + rewrite (decide_True (P := f ∈ f :: fields)); [|apply elem_of_cons; by left].
      destruct (items_lookup f items) as [v|] eqn:E.
      * rewrite lookup_insert_eq. by case_decide.
      * by case_decide.
    + destruct (decide (f ∈ fields)) as [Hin|Hnin].
      * rewrite decide_True; [|apply elem_of_cons; by right].
        destruct (items_lookup x items); [|done].
        by rewrite lookup_insert_ne.
      * rewrite decide_False; [|apply not_elem_of_cons; split; congruence].
        destruct (items_lookup x items); [|done].
        by rewrite lookup_insert_ne.
Qed.

(** What a new record holds under a key: the body's value (or [None]) for
    a configured extra field; else the body's value for a [title] or
    [description] that the body has; else what the record started with. *)
Lemma new_job_data_lookup job_id pg items (extra : list string) (f : string) :
  new_job_data job_id pg items extra !! f
  = if decide (f ∈ extra) then Some (items_get items f)
    else if decide (f ∈ ["title"; "description"]) then items_lookup f items
    else base_job_data job_id pg !! f.
Proof.
  unfold new_job_data. rewrite fold_with_get_lookup.
  case_decide; [done|]. rewrite fold_with_present_lookup.
  fold (base_job_data job_id pg).
  case_decide as Hf; [|done].
  destruct (items_lookup f items); [done|].
  apply elem_of_cons in Hf as [->|Hf]; [done|].
  apply elem_of_cons in Hf as [->|Hf]; [done|by apply elem_of_nil in Hf].
Qed.

Lemma length_zeros_append (k : nat) (s : string) :
  String.length (zeros k +:+ s) = k + String.length s.
Proof. induction k as [|k IH]; simpl; [done|by rewrite IH]. Qed.

Lemma format_03d_length (n : nat) : (3 ≤ String.length (format_03d n))%nat.
Proof. unfold format_03d, zfill. rewrite length_zeros_append. lia. Qed.

(** ** The ids a run hands out *)

Section CreatedIds.

Variable json_dumps : value → res string.

Lemma created_ids_skip (o : op) r trace outcomes :
  is_POST_jobs o = false →
  created_ids (o :: trace) (r :: outcomes) = created_ids trace outcomes.
Proof. by destruct o. Qed.

Lemma run_created_ids (trace : list op) (self : DummyBackend) :
  ids_in_sequence (batch_jobs self) →
  ∃ k,
    created_ids trace (fst (run json_dumps trace self))
    = map format_job_id (seq (size (batch_jobs self)) k)
    ∧ size (batch_jobs (snd (run json_dumps trace self))) = size (batch_jobs self) + k.
Proof.
  revert self. induction trace as [|o trace IH]; intros self Hi.
  { exists 0. simpl. split; [done|lia]. }
  cbn [run].
  destruct (step json_dumps o self) as [r self'] eqn:Es.
  destruct (run json_dumps trace self') as [rs self''] eqn:Er.
  cbn [fst snd].
  assert (fst (run json_dumps trace self') = rs) as Hrs by (by rewrite Er).
  assert (snd (run json_dumps trace self') = self'') as Hself by (by rewrite Er).
  destruct (is_POST_jobs o) eqn:Ho.
  - destruct o; try done.
    destruct (step_POST_jobs json_dumps request self)
      as [[e He]|(jd & He & _ & _)]; rewrite He in Es; injection Es as <- <-.
    + destruct (IH self Hi) as [k [Hk Hs]]. exists k.
      rewrite Hrs in Hk. rewrite Hself in Hs. done.
    + destruct (IH (set_batch_jobs (<[format_job_id (size (batch_jobs self)) := jd]>
                                      (batch_jobs self)) self)) as [k [Hk Hs]].
      { by apply created_ids_in_sequence. }
      rewrite Hrs in Hk. rewrite Hself in Hs. simpl in Hk, Hs.
      rewrite (map_size_insert_None _ _ _ (next_id_fresh _ Hi)) in Hk, Hs.
      exists (S k). split; [|lia].
      cbn [created_ids]. unfold created_context, set_header. cbn [headers].
      rewrite lookup_insert_eq. simpl. by rewrite Hk.
  - pose proof (step_status_update json_dumps o self Ho) as Hu.
    rewrite Es in Hu. simpl in Hu.
    destruct (IH self' (status_update_ids _ _ Hu Hi)) as [k [Hk Hs]].
    exists k. rewrite created_ids_skip by done.
    rewrite Hrs in Hk. rewrite Hself in Hs.
    rewrite (status_update_size _ _ Hu) in Hk, Hs. done.
Qed.

End CreatedIds.

(** ** Creating batch jobs *)

Section Creation.

Variable json_dumps : value → res string.

(** What a creation that answers does, on a back-end a test can reach. *)
Lemma _handle_post_jobs_reachable conn self request context v context' self' :
  reachable json_dumps conn self →
  _handle_post_jobs request context self = (Ok (v, context'), self') →
  let job_id := format_job_id (size (batch_jobs self)) in
  batch_jobs self !! job_id = None
  ∧ v = VNone
  ∧ status_code context' = 201
  ∧ headers context' !! "openeo-identifier" = Some job_id
  ∧ ∃ items pg,
      json request = Some (VDict items)
      ∧ batch_jobs self'
        = <[job_id := new_job_data job_id pg items (extra_job_metadata_fields self)]>
            (batch_jobs self).
Proof.
  intros Hr Hok job_id.
  destruct (reachable_invariants _ _ _ Hr) as [Hi _].
  split; [by apply next_id_fresh|].
  destruct (_handle_post_jobs_cases request context self)
    as [[e He]|(items & process & pg & Hj & Hp & Hg)]; [congruence|].
  rewrite (_handle_post_jobs_Ok _ _ _ _ _ _ Hj Hp Hg) in Hok.
  injection Hok as <- <- <-.
  split; [done|]. split; [done|].
  split; [apply lookup_insert_eq|]. by exists items, pg.
Qed.

End Creation.

(** C4, as the code has it.  On one back-end, whatever else the test does
    in between, the ids that [POST /jobs] hands out are [job-000],
    [job-001], ... in the order of creation: the n-th created job gets the
    sequence number n, zero-padded to at least three digits, no number is
    skipped and none is given twice.  A creation that answers takes an id
    that was free, answers 201 with the id in the [openeo-identifier]
    header, and stores the job under it; the stored status is [created]
    provided [status] is not one of the configured extra metadata
    fields. *)
Theorem C4_job_ids_in_creation_order
    (json_dumps : value → res string) (conn : Connection) (trace : list op) :
  created_ids trace (fst (run json_dumps trace (__init__ conn)))
  = map format_job_id
      (seq 0 (size (batch_jobs (snd (run json_dumps trace (__init__ conn))))))
  ∧ (∀ i j, format_job_id i = format_job_id j → i = j)
  ∧ (∀ i, format_job_id i
          = "job-" +:+ zfill 3 (NilZero.string_of_uint (Nat.to_uint i))
          ∧ parse_job_number (format_job_id i) = Some i
          ∧ (3 ≤ String.length (format_03d i))%nat)
  ∧ (∀ self request context v context' self',
        reachable json_dumps conn self →
        _handle_post_jobs request context self = (Ok (v, context'), self') →
        let job_id := format_job_id (size (batch_jobs self)) in
        batch_jobs self !! job_id = None
        ∧ status_code context' = 201
        ∧ headers context' !! "openeo-identifier" = Some job_id
        ∧ ∃ items job_data,
            json request = Some (VDict items)
            ∧ batch_jobs self' = <[job_id := job_data]> (batch_jobs self)
            ∧ ("status" ∉ extra_job_metadata_fields self →
               job_data !! "status" = Some (VStr "created"))).
Proof.
  split; [|split; [|split]].
  - destruct (run_created_ids json_dumps trace (__init__ conn)) as [k [Hk Hs]].
    { apply (reachable_invariants json_dumps conn). constructor. }
    rewrite Hk, Hs. simpl. by rewrite map_size_empty.
  - apply format_job_id_inj.
  - intros i. split; [done|]. split; [apply parse_format_job_id|].
    apply format_03d_length.
  - intros self request context v context' self' Hr Hok job_id.
    destruct (_handle_post_jobs_reachable _ _ _ _ _ _ _ _ Hr Hok)
      as (Hfresh & _ & Hcode & Hhead & items & pg & Hj & Hjobs).
    split; [done|]. split; [done|]. split; [done|].
    exists items, (new_job_data job_id pg items (extra_job_metadata_fields self)).
    split; [done|]. split; [done|].
    rewrite new_job_data_lookup. intros Hs.
    rewrite decide_False by done.
    rewrite decide_False; [done|].
    rewrite !not_elem_of_cons. repeat split; [done..|apply not_elem_of_nil].
Qed.

(** C4 as stated fails: with [status] configured as an extra metadata
    field, [POST /jobs] on a body without a [status] stores the job
    [job-000] with status [None], not [created]. *)
Lemma C4_status_counterexample :
  let self := set_extra_job_metadata_fields ["status"] (__init__ test_connection) in
  let outcome := _handle_post_jobs plain_job_request fresh_context self in
  fst outcome = Ok (VNone, created_context "job-000" fresh_context)
  ∧ (batch_jobs (snd outcome) !! "job-000") ≫= (λ job_data, job_data !! "status")
    = Some VNone
  ∧ (batch_jobs (snd outcome) !! "job-000") ≫= (λ job_data, job_data !! "status")
    ≠ Some (VStr "created").
Proof. vm_compute. repeat split; congruence. Qed.

(** The amended C4 on a run of three creations, the second with a body
    that has no process graph, and on the first creation of the run. *)
Lemma C4_job_ids_witness :
  let dumps : value → res string := λ _, Raise TypeError in
  let trace :=
    [POST_jobs plain_job_request;
     POST_jobs {| path := "/jobs"; body := json_body (VDict []) |};
     POST_jobs plain_job_request] in
  created_ids trace (fst (run dumps trace (__init__ test_connection)))
  = ["job-000"; "job-001"]
  ∧ ∃ job_data,
      batch_jobs (snd (_handle_post_jobs plain_job_request fresh_context
                         (__init__ test_connection)))
      = <["job-000" := job_data]> ∅
      ∧ job_data !! "status" = Some (VStr "created").
Proof.
  intros dumps trace.
  destruct (C4_job_ids_in_creation_order dumps test_connection trace)
    as (Hids & _ & _ & Hstep).
  split.
  - rewrite Hids. by vm_compute.
  - destruct (Hstep (__init__ test_connection) plain_job_request fresh_context
                VNone (created_context "job-000" fresh_context)
                (snd (_handle_post_jobs plain_job_request fresh_context
                        (__init__ test_connection))))
      as (_ & _ & _ & items & job_data & _ & Hjobs & Hstatus).
    + constructor.
    + by vm_compute.
    + exists job_data. split; [exact Hjobs|].
      apply Hstatus. simpl. apply not_elem_of_nil.
Defined.

(** C8, as the code has it.  When [POST /jobs] answers, the record stored
    for the new job holds: for every configured extra field, the value the
    request body has for it, and [None] when the body has none (the field
    is set either way); for [title] and [description], when not configured
    as extra fields, the value of the body if and only if the body has the
    field; no other field besides [job_id], [pg] and [status]. *)
Theorem C8_metadata_fields_of_new_job
    (self : DummyBackend) (request : Request) (context : Context)
    (v : value) (context' : Context) (self' : DummyBackend) :
  _handle_post_jobs request context self = (Ok (v, context'), self') →
  ∃ items job_data,
    json request = Some (VDict items)
    ∧ batch_jobs self' !! format_job_id (size (batch_jobs self)) = Some job_data
    ∧ (∀ f, f ∈ extra_job_metadata_fields self →
            job_data !! f = Some (default VNone (items_lookup f items)))
    ∧ (∀ f, f ∈ ["title"; "description"] → f ∉ extra_job_metadata_fields self →
            job_data !! f = items_lookup f items)
    ∧ (∀ f, f ∉ extra_job_metadata_fields self → f ∉ ["title"; "description"] →
            f ∉ ["job_id"; "pg"; "status"] → job_data !! f = None).
Proof.
  intros Hok.
  destruct (_handle_post_jobs_cases request context self)
    as [[e He]|(items & process & pg & Hj & Hp & Hg)]; [congruence|].
  rewrite (_handle_post_jobs_Ok _ _ _ _ _ _ Hj Hp Hg) in Hok.
  injection Hok as <- <- <-.
  eexists items, _. split; [done|]. split; [apply lookup_insert_eq|].
  split; [|split].
  - intros f Hf. rewrite new_job_data_lookup. by rewrite decide_True.
  - intros f Hf Hn. rewrite new_job_data_lookup.
    rewrite decide_False by done. by rewrite decide_True.
  - intros f Hn Ht Hb. rewrite new_job_data_lookup.
    rewrite !decide_False by done.
    rewrite !not_elem_of_cons in Hb. destruct Hb as (? & ? & ? & _).
    unfold base_job_data. rewrite !lookup_insert_ne by done.
    by rewrite lookup_singleton_ne.
Qed.

(** C8 as stated fails: with [job_options] configured as an extra field
    and a request body that has no [job_options], the record of the new job
    has the field all the same, holding [None]. *)
Lemma C8_absent_extra_field_counterexample :
  let self :=
    set_extra_job_metadata_fields ["job_options"] (__init__ test_connection) in
  let outcome := _handle_post_jobs plain_job_request fresh_context self in
  (json plain_job_request ≫= (λ body, match body with
                                      | VDict items => items_lookup "job_options" items
                                      | _ => None
                                      end)) = None
  ∧ fst outcome = Ok (VNone, created_context "job-000" fresh_context)
  ∧ (batch_jobs (snd outcome) !! "job-000")
      ≫= (λ job_data, job_data !! "job_options")
    = Some VNone.
Proof. by vm_compute. Qed.

(** The amended C8 on a body with a [title] and no [description], with
    [job_options] tracked and absent. *)
Lemma C8_metadata_fields_witness :
  let self :=
    set_extra_job_metadata_fields ["job_options"] (__init__ test_connection) in
  let request :=
    {| path := "/jobs";
       body := json_body (VDict [("process", VDict [("process_graph", VDict [])]);
                            ("title", VStr "NDVI")]) |} in
  ∃ job_data,
    batch_jobs (snd (_handle_post_jobs request fresh_context self)) !! "job-000"
    = Some job_data
    ∧ job_data !! "job_options" = Some VNone
    ∧ job_data !! "title" = Some (VStr "NDVI")
    ∧ job_data !! "description" = None.
Proof.
  intros self request.
  destruct (C8_metadata_fields_of_new_job self request fresh_context VNone
              (created_context "job-000" fresh_context)
              (snd (_handle_post_jobs request fresh_context self)))
    as (items & job_data & Hj & Hjob & Hextra & Hmeta & _); [by vm_compute|].
  injection Hj as <-.
  exists job_data. split; [exact Hjob|]. split; [|split].
  - apply (Hextra "job_options"). simpl. apply elem_of_cons. by left.
  - apply (Hmeta "title").
    + apply elem_of_cons. by left.
    + simpl. rewrite not_elem_of_cons. split; [done|apply not_elem_of_nil].
  - apply (Hmeta "description").
    + apply elem_of_cons. right. apply elem_of_cons. by left.
    + simpl. rewrite not_elem_of_cons. split; [done|apply not_elem_of_nil].
Defined.

(** ** Extracting the job id of a request *)

Lemma strip_prefix_Some (p s rest : string) :
  strip_prefix p s = Some rest → s = p +:+ rest.
Proof.
  revert s. induction p as [|a p IH]; intros s; simpl.
  - by intros [= ->].
  - destruct s as [|b s]; [done|].
    destruct (Ascii.eqb_spec a b) as [->|]; [|done].
    intros H. by rewrite (IH _ H).
Qed.

Lemma strip_prefix_append (p rest : string) : strip_prefix p (p +:+ rest) = Some rest.
Proof. induction p as [|a p IH]; simpl; [done|]. by rewrite Ascii.eqb_refl. Qed.

Lemma span_digits_spec (s ds tl : string) :
  span_digits s = (ds, tl) →
  s = ds +:+ tl ∧ all_digits ds = true
  ∧ match tl with
    | EmptyString => True
    | String c _ => is_digit c = false
    end.
Proof.
  revert ds tl. induction s as [|c s IH]; intros ds tl; simpl.
  - by intros [= <- <-].
  - destruct (is_digit c) eqn:Ec.
    + destruct (span_digits s) as [ds' tl'].
      intros [= <- <-]. destruct (IH _ _ eq_refl) as (-> & Hd & Ht).
      simpl. by rewrite Ec, Hd.
    + intros [= <- <-]. simpl. by rewrite Ec.
Qed.

Lemma span_digits_append (ds tl : string) :
  all_digits ds = true →
  match tl with
  | EmptyString => True
  | String c _ => is_digit c = false
  end →
  span_digits (ds +:+ tl) = (ds, tl).
Proof.
  intros Hd Ht. induction ds as [|c ds IH]; simpl in *.
  - destruct tl as [|c tl]; [done|]. simpl. by rewrite Ht.
  - apply andb_prop in Hd as [Hc Hd]. rewrite Hc, (IH Hd). done.
Qed.

(** The matcher computes the pattern. *)
Lemma match_job_path_spec (path job_id : string) :
  match_job_path path = Some job_id ↔ matches_job_pattern path job_id.
Proof.
  unfold match_job_path, matches_job_pattern. split.
  - destruct (strip_prefix "/jobs/job-" path) as [rest|] eqn:Hp; [|done].
    apply strip_prefix_Some in Hp as ->.
    destruct (span_digits rest) as [ds tl] eqn:Hs.
    apply span_digits_spec in Hs as (-> & Hd & Ht).
    destruct (String.eqb_spec ds EmptyString) as [->|Hne]; [done|]. simpl.
    destruct (after_job_id tl) eqn:Ha; [|done]. intros [= <-].
    exists ds, tl. repeat split; try done.
    destruct tl as [|c tl]; [by left|]. right. simpl in Ha.
    apply orb_prop in Ha as [Ha|Ha].
    + right. apply Ascii.eqb_eq in Ha as ->. eauto.
    + left. apply andb_prop in Ha as [Hc Hr].
      apply Ascii.eqb_eq in Hc as ->. by apply String.eqb_eq in Hr as ->.
  - intros (ds & rest & -> & Hne & Hd & Hrest & ->).
    rewrite strip_prefix_append, span_digits_append; [| done |].
    + destruct (String.eqb_spec ds EmptyString) as [?|_]; [done|]. simpl.
      by destruct Hrest as [->|[->|[r ->]]].
    + by destruct Hrest as [->|[->|[r ->]]].
Qed.

Lemma all_digits_append (a b : string) :
  all_digits a = true → all_digits b = true → all_digits (a +:+ b) = true.
Proof.
  intros Ha Hb. induction a as [|c a IH]; simpl in *; [done|].
  apply andb_prop in Ha as [Hc Ha]. by rewrite Hc, IH.
Qed.

Lemma all_digits_zeros (k : nat) : all_digits (zeros k) = true.
Proof. by induction k. Qed.

Lemma all_digits_string_of_uint (d : uint) :
  all_digits (NilEmpty.string_of_uint d) = true.
Proof. induction d; simpl; by rewrite ?IHd. Qed.

Lemma all_digits_format_03d (n : nat) : all_digits (format_03d n) = true.
Proof.
  unfold format_03d, zfill. apply all_digits_append; [apply all_digits_zeros|].
  destruct (Nat.to_uint n); try apply (all_digits_string_of_uint (_ _)); done.
Qed.

(** The ids that [POST /jobs] hands out are ids that the pattern extracts. *)
Lemma match_job_path_format_job_id (n : nat) (rest : string) :
  rest = EmptyString ∨ rest = newline ∨ (∃ r, rest = String "/" r) →
  match_job_path ("/jobs/" +:+ format_job_id n +:+ rest) = Some (format_job_id n).
Proof.
  intros Hrest. apply match_job_path_spec. exists (format_03d n), rest.
  repeat split; try done.
  - intros H. pose proof (format_03d_length n) as Hl. rewrite H in Hl. simpl in Hl. lia.
  - apply all_digits_format_03d.
Qed.

(** C7, as the code has it.  The job id of a request is group 1 of the
    pattern [^/jobs/(job-\d+)(/|$)] on its path.  When the path does not
    match, extraction raises [OpeneoTestingException], with the path in
    its message; when the path matches and no job is registered under the
    id, it raises [AssertionError] (the [assert] in the code), not the
    named exception; when a job is registered under the id, it returns the
    id.  The back-end is left as it was in all three cases. *)
Theorem C7_job_id_extraction (request : Request) (self : DummyBackend) :
  (∀ job_id, match_job_path (path request) = Some job_id
             ↔ matches_job_pattern (path request) job_id)
  ∧ ((∀ job_id, ¬ matches_job_pattern (path request) job_id) →
     _get_job_id request self
     = (Raise (OpeneoTestingException
                 [Lit "Failed to extract job_id from "; Str (path request)]), self))
  ∧ (∀ job_id, matches_job_pattern (path request) job_id →
               batch_jobs self !! job_id = None →
               _get_job_id request self = (Raise AssertionError, self))
  ∧ (∀ job_id, matches_job_pattern (path request) job_id →
               is_Some (batch_jobs self !! job_id) →
               _get_job_id request self = (Ok job_id, self)).
Proof.
  split; [intros; apply match_job_path_spec|].
  rewrite _get_job_id_eq. split; [|split].
  - intros Hno. destruct (match_job_path (path request)) as [j|] eqn:Hm; [|done].
    apply match_job_path_spec in Hm. by destruct (Hno j).
  - intros j Hm Hj. apply match_job_path_spec in Hm. by rewrite Hm, Hj.
  - intros j Hm [jd Hj]. apply match_job_path_spec in Hm. by rewrite Hm, Hj.
Qed.

(** C7 as stated fails: for a path that matches the pattern and names a
    job that was never created, extraction raises [AssertionError], which
    is not the named [OpeneoTestingException]. *)
Lemma C7_unknown_job_counterexample :
  let request := {| path := "/jobs/job-999"; body := no_body |} in
  let self := __init__ test_connection in
  match_job_path (path request) = Some "job-999"
  ∧ batch_jobs self !! "job-999" = None
  ∧ fst (_get_job_id request self) = Raise AssertionError
  ∧ ¬ (∃ msg, fst (_get_job_id request self) = Raise (OpeneoTestingException msg)).
Proof.
  vm_compute. repeat split; try done. by intros [msg ?].
Qed.

(** The amended C7 on a new back-end: a path without a job id, and a path
    with the id of a job that does not exist. *)
Lemma C7_job_id_extraction_witness :
  let self := __init__ test_connection in
  fst (_get_job_id {| path := "/jobs/latest"; body := no_body |} self)
  = Raise (OpeneoTestingException
             [Lit "Failed to extract job_id from "; Str "/jobs/latest"])
  ∧ fst (_get_job_id {| path := "/jobs/job-999/results"; body := no_body |} self)
    = Raise AssertionError.
Proof.
  intros self. split.
  - destruct (C7_job_id_extraction {| path := "/jobs/latest"; body := no_body |} self)
      as (Hspec & Hno & _).
    rewrite Hno; [done|].
    intros j Hj. apply Hspec in Hj. by vm_compute in Hj.
  - destruct (C7_job_id_extraction
                {| path := "/jobs/job-999/results"; body := no_body |} self)
      as (Hspec & _ & Hunknown & _).
    rewrite (Hunknown "job-999"); [done| |done].
    apply Hspec. by vm_compute.
Defined.

(** ** Reading and starting a job *)

Lemma eq_str_true (v : value) (s : string) : eq_str v s = true ↔ v = VStr s.
Proof.
  destruct v; simpl; try (split; [done|by intros [=]]).
  rewrite String.eqb_eq. split; [by intros ->|by intros [= ->]].
Qed.

Lemma eq_str_false (v : value) (s : string) : eq_str v s = false ↔ v ≠ VStr s.
Proof.
  rewrite <- eq_str_true. destruct (eq_str v s); split; congruence.
Qed.

(** A read of a job whose status is [created]. *)
Lemma _handle_get_job_created request context self job_id job_data :
  match_job_path (path request) = Some job_id →
  batch_jobs self !! job_id = Some job_data →
  job_data !! "status" = Some (VStr "created") →
  _handle_get_job request context self
  = (Ok (job_body job_id (VStr "created"), context), self).
Proof. intros Hm Hj Hs. rewrite _handle_get_job_eq, Hm, Hj, Hs. done. Qed.

(** A read of a job whose status is not [created]. *)
Lemma _handle_get_job_started request context self job_id job_data status :
  match_job_path (path request) = Some job_id →
  batch_jobs self !! job_id = Some job_data →
  job_data !! "status" = Some status →
  status ≠ VStr "created" →
  _handle_get_job request context self
  = match call_updater (job_status_updater self) job_id status with
    | (Ok new_status, u) =>
        (Ok (job_body job_id (VStr new_status), context),
         with_status job_id job_data new_status u self)
    | (Raise e, u) => (Raise e, set_job_status_updater u self)
    end.
Proof.
  intros Hm Hj Hs Hne. apply eq_str_false in Hne.
  rewrite _handle_get_job_eq, Hm, Hj, Hs, Hne. done.
Qed.

Section Reads.

Variable json_dumps : value → res string.

(** A step that is not a start of [job_id] keeps the record of a job whose
    status is [created]. *)
Lemma step_keeps_created (o : op) (self : DummyBackend) job_id job_data :
  ids_in_sequence (batch_jobs self) →
  batch_jobs self !! job_id = Some job_data →
  job_data !! "status" = Some (VStr "created") →
  is_start_of job_id o = false →
  batch_jobs (snd (step json_dumps o self)) !! job_id = Some job_data.
Proof.
  intros Hi Hj Hs Ho.
  destruct o as [r|r|r|r|r|r|r|v|v|l|u|q n f]; simpl step; try done.
  - by rewrite _handle_post_result_jobs.
  - destruct (step_POST_jobs json_dumps r self) as [[e He]|(jd & He & _)];
      simpl step in He; rewrite He; [done|]. simpl.
    rewrite lookup_insert_ne; [done|]. intros Heq.
    pose proof (next_id_fresh _ Hi) as Hf. rewrite Heq in Hf. congruence.
  - simpl in Ho. apply bool_decide_eq_false in Ho.
    rewrite _handle_post_job_results_eq.
    destruct (match_job_path (path r)) as [j|] eqn:Hm; [|done].
    destruct (batch_jobs self !! j) as [jd|] eqn:Ej; [|done].
    destruct (jd !! "status") as [s|]; [|done].
    destruct (eq_str s "created"); [|done].
    destruct (call_updater _ _ _) as [[s'|e] u]; [|done].
    simpl. rewrite lookup_insert_ne; [done|congruence].
  - rewrite _handle_get_job_eq.
    destruct (match_job_path (path r)) as [j|] eqn:Hm; [|done].
    destruct (batch_jobs self !! j) as [jd|] eqn:Ej; [|done].
    destruct (jd !! "status") as [s|] eqn:Es; [|done].
    destruct (eq_str s "created") eqn:Ec; [done|].
    destruct (call_updater _ _ _) as [[s'|e] u]; [|done].
    simpl. rewrite lookup_insert_ne; [done|].
    intros ->. rewrite Hj in Ej. injection Ej as <-.
    rewrite Hs in Es. injection Es as <-. done.
  - rewrite _handle_get_job_results_eq. by repeat case_match.
  - rewrite _handle_get_job_result_asset_eq. by repeat case_match.
  - by rewrite _handle_post_validation_jobs.
Qed.

(** The answer to a read of a job whose status is [created]. *)
Lemma step_GET_job_created (request : Request) (self : DummyBackend) job_id job_data :
  match_job_path (path request) = Some job_id →
  batch_jobs self !! job_id = Some job_data →
  job_data !! "status" = Some (VStr "created") →
  step json_dumps (GET_job request) self
  = (Ok (job_body job_id (VStr "created"), fresh_context), self).
Proof. intros. simpl. by eapply _handle_get_job_created. Qed.

(** As long as a job is not started, every read of it answers [created]. *)
Lemma run_never_started (trace : list op) (self : DummyBackend) job_id job_data :
  ids_in_sequence (batch_jobs self) ∧ records_complete (batch_jobs self) →
  batch_jobs self !! job_id = Some job_data →
  job_data !! "status" = Some (VStr "created") →
  existsb (is_start_of job_id) trace = false →
  Forall (λ r, r = Ok (job_body job_id (VStr "created"), fresh_context))
    (reads_of job_id trace (fst (run json_dumps trace self)))
  ∧ batch_jobs (snd (run json_dumps trace self)) !! job_id = Some job_data.
Proof.
  revert self. induction trace as [|o trace IH]; intros self Hinv Hj Hs Hno.
  { by split. }
  simpl in Hno. apply orb_false_elim in Hno as [Ho Hno].
  pose proof (step_keeps_created o self _ _ (proj1 Hinv) Hj Hs Ho) as Hkeep.
  pose proof (step_invariants json_dumps o self Hinv) as Hinv'.
  cbn [run].
  destruct (step json_dumps o self) as [r self'] eqn:Es. simpl in Hkeep, Hinv'.
  destruct (IH self' Hinv' Hkeep Hs Hno) as [Hreads Hfinal].
  destruct (run json_dumps trace self') as [rs self''] eqn:Er. simpl in *.
  split; [|done].
  destruct o as [r0|r0|r0|r0|r0|r0|r0|v|v|l|u|q n f]; try done.
  case_bool_decide as Hm; [|done].
  constructor; [|done].
  rewrite (step_GET_job_created _ _ _ _ Hm Hj Hs) in Es. by injection Es as <- _.
Qed.

(** Consecutive reads of a job whose status is [created]. *)
Lemma run_reads_created (n : nat) request self job_id job_data :
  match_job_path (path request) = Some job_id →
  batch_jobs self !! job_id = Some job_data →
  job_data !! "status" = Some (VStr "created") →
  run json_dumps (repeat (GET_job request) n) self
  = (repeat (Ok (job_body job_id (VStr "created"), fresh_context)) n, self).
Proof.
  intros Hm Hj Hs. induction n as [|n IH]; [done|].
  cbn [repeat run]. rewrite (step_GET_job_created _ _ _ _ Hm Hj Hs). by rewrite IH.
Qed.

End Reads.

(** One call of the hook of the back-end, in terms of the code and the
    state of the hook. *)
Lemma call_updater_hook_call (u : Updater) (job_id : string) (status : value)
    (r : res string) (st' : hook_state u) :
  hook_call u (hook_env u) job_id status = (r, st') →
  call_updater u job_id status = (r, hook_after u st').
Proof. intros H. unfold call_updater. by rewrite H. Qed.

(** A job that [POST /jobs] registers while [status] is not one of the
    extra metadata fields is stored with the status [created]. *)
Lemma new_job_status_created job_id pg items (extra : list string) :
  "status" ∉ extra →
  new_job_data job_id pg items extra !! "status" = Some (VStr "created").
Proof.
  intros Hne. rewrite new_job_data_lookup.
  rewrite decide_False by done.
  rewrite decide_False; [done|].
  rewrite !not_elem_of_cons. repeat split; [done..|apply not_elem_of_nil].
Qed.

(** C2, as the code has it.  A read of a job ([GET /jobs/{job_id}]) whose
    stored status is [created] answers [created] and leaves the back-end,
    the hook and its state included, exactly as it was: the hook is not
    called.  So any number of reads in a row answer [created], and on a
    back-end that a test can reach every read answers [created] for as
    long as the job is not started, whatever else is requested in between.
    A job that [POST /jobs] registers while [status] is not one of the
    extra metadata fields is such a job: every read of it answers
    [created] for as long as it is not started.  A read of a job whose
    stored status [status] is not [created] runs the code of the hook once,
    on the state the hook carries and on [(job_id, status)]; the hook
    carries the state that this call leaves; when the call returns, its
    result is stored as the status of the job and is the status of the
    answer (when it raises, the read raises and the stored status
    stays). *)
Theorem C2_reading_job_status
    (json_dumps : value → res string) (conn : Connection)
    (self : DummyBackend) (request : Request) (context : Context)
    (job_id : string) (job_data : gmap string value) (status : value) :
  match_job_path (path request) = Some job_id →
  batch_jobs self !! job_id = Some job_data →
  job_data !! "status" = Some status →
  (status = VStr "created" →
     _handle_get_job request context self
     = (Ok (VDict [("id", VStr job_id); ("status", VStr "created")], context), self)
     ∧ (∀ n, run json_dumps (repeat (GET_job request) n) self
             = (repeat (Ok (job_body job_id (VStr "created"), fresh_context)) n, self))
     ∧ (∀ trace,
          reachable json_dumps conn self →
          existsb (is_start_of job_id) trace = false →
          Forall (λ r, r = Ok (job_body job_id (VStr "created"), fresh_context))
            (reads_of job_id trace (fst (run json_dumps trace self)))
          ∧ batch_jobs (snd (run json_dumps trace self)) !! job_id = Some job_data))
  ∧ (status ≠ VStr "created" →
     ∀ (r : res string) (st' : hook_state (job_status_updater self)),
       hook_call (job_status_updater self) (hook_env (job_status_updater self))
         job_id status = (r, st') →
       match r with
       | Ok new_status =>
           let self' :=
             set_batch_jobs
               (<[job_id := <["status" := VStr new_status]> job_data]> (batch_jobs self))
               (set_job_status_updater (hook_after (job_status_updater self) st') self)
           in
           _handle_get_job request context self
           = (Ok (VDict [("id", VStr job_id); ("status", VStr new_status)], context),
              self')
           ∧ batch_jobs self' !! job_id ≫= (λ jd, jd !! "status")
             = Some (VStr new_status)
       | Raise e =>
           _handle_get_job request context self
           = (Raise e,
              set_job_status_updater (hook_after (job_status_updater self) st') self)
       end)
  ∧ (∀ (self0 : DummyBackend) (new_request : Request) (v : value)
       (new_context : Context) (self1 : DummyBackend) (trace : list op),
        reachable json_dumps conn self0 →
        "status" ∉ extra_job_metadata_fields self0 →
        step json_dumps (POST_jobs new_request) self0 = (Ok (v, new_context), self1) →
        let new_id := format_job_id (size (batch_jobs self0)) in
        existsb (is_start_of new_id) trace = false →
        headers new_context !! "openeo-identifier" = Some new_id
        ∧ Forall (λ r, r = Ok (job_body new_id (VStr "created"), fresh_context))
            (reads_of new_id trace (fst (run json_dumps trace self1)))).
Proof.
  intros Hm Hj Hs. split; [|split].
  - intros ->. split; [by eapply _handle_get_job_created|].
    split; [intros n; by eapply run_reads_created|].
    intros trace Hr Hno.
    by apply run_never_started; [eapply reachable_invariants|..].
  - intros Hne r st' Hcall.
    rewrite (_handle_get_job_started _ _ _ _ _ _ Hm Hj Hs Hne),
      (call_updater_hook_call _ _ _ _ _ Hcall).
    destruct r as [new_status|e]; [|done].
    split; [done|]. simpl. rewrite lookup_insert_eq. simpl.
    by rewrite lookup_insert_eq.
  - intros self0 new_request v new_context self1 trace Hr Hextra Hstep new_id Hno.
    pose proof (reachable_step json_dumps conn (POST_jobs new_request) self0 Hr) as Hr1.
    rewrite Hstep in Hr1. simpl in Hr1, Hstep.
    destruct (_handle_post_jobs_reachable json_dumps conn _ _ _ _ _ _ Hr Hstep)
      as (_ & _ & _ & Hh & items & pg & _ & Hjobs).
    split; [done|].
    eapply (run_never_started json_dumps trace self1 new_id).
    + by eapply reachable_invariants.
    + rewrite Hjobs. apply lookup_insert_eq.
    + by apply new_job_status_created.
    + done.
Qed.

(** C2 as stated fails on a job that was never started: with [status]
    configured as an extra metadata field, the job [job-000] is stored
    with the status [None], and its reads, with no start before them, call
    the hook and answer [finished], not [created]. *)
Lemma C2_never_started_counterexample :
  let trace :=
    [Set_extra_job_metadata_fields ["status"]; POST_jobs plain_job_request;
     GET_job job_000_request; GET_job job_000_request] in
  let outcomes := fst (run (λ _, Raise TypeError) trace (__init__ test_connection)) in
  existsb (is_start_of "job-000") trace = false
  ∧ created_ids trace outcomes = ["job-000"]
  ∧ reads_of "job-000" trace outcomes
    = [Ok (job_body "job-000" (VStr "finished"), fresh_context);
       Ok (job_body "job-000" (VStr "finished"), fresh_context)]
  ∧ reads_of "job-000" trace outcomes
    ≠ [Ok (job_body "job-000" (VStr "created"), fresh_context);
       Ok (job_body "job-000" (VStr "created"), fresh_context)].
Proof. vm_compute. repeat split; congruence. Qed.

(** The amended C2 on the first job of a back-end: while it is not started
    (as stored, and through a run from its creation), and once it is
    started under the simple status flow, where the read calls the hook
    and answers [running]. *)
Lemma C2_reading_job_status_witness :
  fst (_handle_get_job job_000_request fresh_context one_job_backend)
  = Ok (job_body "job-000" (VStr "created"), fresh_context)
  ∧ fst (_handle_get_job job_000_request fresh_context flow_started_backend)
    = Ok (job_body "job-000" (VStr "running"), fresh_context)
  ∧ Forall (λ r, r = Ok (job_body "job-000" (VStr "created"), fresh_context))
      (reads_of "job-000"
         [GET_job job_000_request; Set_next_result VNone; GET_job job_000_request]
         (fst (run (λ _, Raise TypeError)
                 [GET_job job_000_request; Set_next_result VNone;
                  GET_job job_000_request]
                 one_job_backend))).
Proof.
  split; [|split].
  - destruct (C2_reading_job_status (λ _, Raise TypeError) test_connection
                one_job_backend job_000_request fresh_context "job-000"
                plain_job_data (VStr "created")) as (Hcreated & _ & _);
      [by vm_compute..|].
    destruct (Hcreated eq_refl) as [-> _]. done.
  - destruct (C2_reading_job_status (λ _, Raise TypeError) test_connection
                flow_started_backend job_000_request fresh_context "job-000"
                (<["status" := VStr "queued"]> plain_job_data) (VStr "queued"))
      as (_ & Hstarted & _); [by vm_compute..|].
    specialize (Hstarted ltac:(done) (Ok "running")
                  (snd (hook_call (job_status_updater flow_started_backend)
                          (hook_env (job_status_updater flow_started_backend))
                          "job-000" (VStr "queued")))
                  eq_refl).
    simpl in Hstarted. destruct Hstarted as [-> _]. done.
  - destruct (C2_reading_job_status (λ _, Raise TypeError) test_connection
                one_job_backend job_000_request fresh_context "job-000"
                plain_job_data (VStr "created")) as (_ & _ & Hnew);
      [by vm_compute..|].
    apply (Hnew (__init__ test_connection) plain_job_request VNone
             (created_context "job-000" fresh_context) one_job_backend
             [GET_job job_000_request; Set_next_result VNone; GET_job job_000_request]).
    + constructor.
    + apply not_elem_of_nil.
    + by vm_compute.
    + by vm_compute.
Defined.

(** C3.  [POST /jobs/{job_id}/results] answers only for a registered job
    whose status is [created].  Then it runs the code of the hook once, on
    the state the hook carries and on [(job_id, "created")]; the hook
    carries the state that this call leaves; when the call returns, its
    result is stored as the status of the job and the answer has the
    status code 202, with the headers as they were (when it raises, the
    start raises and the stored status stays); and when the stored status
    is not [created], a further start of the same job raises the
    [AssertionError] of the status check and changes nothing.  A start of
    a job in any other status, or of a job that is not registered, raises
    [AssertionError] and changes nothing. *)
Theorem C3_starting_a_job
    (self : DummyBackend) (request : Request) (context : Context) (job_id : string) :
  match_job_path (path request) = Some job_id →
  (∀ v context' self',
      _handle_post_job_results request context self = (Ok (v, context'), self') →
      ∃ job_data,
        batch_jobs self !! job_id = Some job_data
        ∧ job_data !! "status" = Some (VStr "created"))
  ∧ (∀ job_data (r : res string) (st' : hook_state (job_status_updater self)),
        batch_jobs self !! job_id = Some job_data →
        job_data !! "status" = Some (VStr "created") →
        hook_call (job_status_updater self) (hook_env (job_status_updater self))
          job_id (VStr "created") = (r, st') →
        match r with
        | Ok new_status =>
            let self' :=
              set_batch_jobs
                (<[job_id := <["status" := VStr new_status]> job_data]>
                   (batch_jobs self))
                (set_job_status_updater (hook_after (job_status_updater self) st') self)
            in
            (∃ context',
                _handle_post_job_results request context self
                = (Ok (VNone, context'), self')
                ∧ status_code context' = 202
                ∧ headers context' = headers context)
            ∧ _handle_post_job_results request context self
              = (Ok (VNone, set_status_code 202 context), self')
            ∧ batch_jobs self' !! job_id ≫= (λ jd, jd !! "status")
              = Some (VStr new_status)
            ∧ (new_status ≠ "created" →
               ∀ request2 context2,
                 match_job_path (path request2) = Some job_id →
                 _handle_post_job_results request2 context2 self'
                 = (Raise AssertionError, self'))
        | Raise e =>
            _handle_post_job_results request context self
            = (Raise e,
               set_job_status_updater (hook_after (job_status_updater self) st') self)
        end)
  ∧ (∀ job_data status,
        batch_jobs self !! job_id = Some job_data →
        job_data !! "status" = Some status →
        status ≠ VStr "created" →
        _handle_post_job_results request context self = (Raise AssertionError, self))
  ∧ (batch_jobs self !! job_id = None →
     _handle_post_job_results request context self = (Raise AssertionError, self)).
Proof.
  intros Hm. rewrite _handle_post_job_results_eq, Hm.
  split; [|split; [|split]].
  - intros v context' self'.
    destruct (batch_jobs self !! job_id) as [jd|]; [|done].
    destruct (jd !! "status") as [s|] eqn:Es; [|done].
    destruct (eq_str s "created") eqn:Ec; [|done].
    apply eq_str_true in Ec as ->. intros _. by exists jd.
  - intros jd r st' Hj Hs Hcall. rewrite Hj, Hs. simpl.
    rewrite (call_updater_hook_call _ _ _ _ _ Hcall).
    destruct r as [new_status|e]; [|done].
    split; [by eexists|]. split; [done|]. split.
    { simpl. rewrite lookup_insert_eq. simpl. by rewrite lookup_insert_eq. }
    intros Hne request2 context2 Hm2.
    rewrite _handle_post_job_results_eq, Hm2. simpl.
    rewrite lookup_insert_eq, lookup_insert_eq. simpl.
    destruct (String.eqb_spec new_status "created"); [done|done].
  - intros jd s Hj Hs Hne. rewrite Hj, Hs.
    apply eq_str_false in Hne. by rewrite Hne.
  - by intros ->.
Qed.

(** C3 on the first job of a back-end with the simple status flow: the
    start answers 202 and stores [queued], the status that the hook
    returns; a second start fails. *)
Lemma C3_starting_a_job_witness :
  (∃ context',
      _handle_post_job_results start_job_000_request fresh_context flow_job_backend
      = (Ok (VNone, context'), flow_started_backend)
      ∧ status_code context' = 202)
  ∧ batch_jobs flow_started_backend !! "job-000" ≫= (λ jd, jd !! "status")
    = Some (VStr "queued")
  ∧ _handle_post_job_results start_job_000_request fresh_context flow_started_backend
    = (Raise AssertionError, flow_started_backend).
Proof.
  destruct (C3_starting_a_job flow_job_backend start_job_000_request fresh_context
              "job-000" eq_refl) as (_ & Hstart & _).
  specialize (Hstart plain_job_data (Ok "queued")
                (snd (hook_call (job_status_updater flow_job_backend)
                        (hook_env (job_status_updater flow_job_backend))
                        "job-000" (VStr "created")))
                ltac:(by vm_compute) ltac:(by vm_compute) eq_refl).
  simpl in Hstart. destruct Hstart as ((context' & H1 & H202 & _) & _ & _ & H2).
  split; [|split].
  - exists context'. split; [|done]. rewrite H1. by vm_compute.
  - by vm_compute.
  - etransitivity; [|apply (H2 ltac:(done) start_job_000_request fresh_context eq_refl)].
    by vm_compute.
Defined.

(** ** The scripted status hook *)

Lemma status_template_length (queued running : Z) (final : string) :
  length (status_template queued running final)
  = Z.to_nat queued + Z.to_nat running + 1.
Proof.
  unfold status_template. rewrite !length_app, !repeat_length. simpl. lia.
Qed.

Lemma script_position_lt (template : list string) (k : nat) :
  template ≠ [] → script_position template k < length template.
Proof.
  intros Hne. unfold script_position.
  destruct template; [done|]. simpl. lia.
Qed.

(** One call of the hook for a job that had [k] calls before: it returns
    the entry of the script at [k] and leaves the stack of [k + 1] calls;
    the status passed in plays no part. *)
Lemma get_status_at (template : list string) (job_stacks : gmap string (list string))
    (job_id : string) (current_status : value) (k : nat) (d : string) :
  template ≠ [] →
  default template (job_stacks !! job_id) = stack_after template k →
  get_status template job_stacks job_id current_status
  = (Ok (nth (script_position template k) template d),
     <[job_id := stack_after template (S k)]> job_stacks).
Proof.
  intros Hne Hstack. unfold get_status. rewrite Hstack. unfold stack_after.
  pose proof (script_position_lt template k Hne) as Hlt.
  destruct (lookup_lt_is_Some_2 template _ Hlt) as [x Hx].
  rewrite (drop_S _ _ _ Hx).
  rewrite (nth_lookup_Some _ _ _ _ Hx).
  destruct (drop (S (script_position template k)) template) as [|y rest] eqn:Hd.
  - simpl. do 3 f_equal.
    assert (length (drop (S (script_position template k)) template) = 0) as Hl
      by (by rewrite Hd).
    rewrite length_drop in Hl.
    assert (script_position template (S k) = script_position template k) as ->
      by (unfold script_position in *; lia).
    by rewrite (drop_S _ _ _ Hx), Hd.
  - cbn [length Nat.ltb Nat.leb]. do 2 f_equal.
    assert (length (drop (S (script_position template k)) template) = S (length rest))
      as Hl by (by rewrite Hd).
    rewrite length_drop in Hl.
    assert (script_position template (S k) = S (script_position template k)) as ->
      by (unfold script_position in *; lia).
    by rewrite Hd.
Qed.

Lemma calls_for_app job_id (calls1 calls2 : list (string * value)) :
  calls_for job_id (calls1 ++ calls2) = calls_for job_id calls1 + calls_for job_id calls2.
Proof.
  induction calls1 as [|[j s] calls1 IH]; simpl; [done|]. rewrite IH. lia.
Qed.

(** After [calls], every job's stack is the one of its number of calls. *)
Lemma call_all_stacks (template : list string) (calls : list (string * value))
    (job_stacks : gmap string (list string)) (count : string → nat) :
  template ≠ [] →
  (∀ j, default template (job_stacks !! j) = stack_after template (count j)) →
  ∀ j, default template (snd (call_all template calls job_stacks) !! j)
       = stack_after template (count j + calls_for j calls).
Proof.
  intros Hne. revert job_stacks count.
  induction calls as [|[job_id s] calls IH]; intros job_stacks count Hinv j.
  { simpl. by rewrite Nat.add_0_r. }
  cbn [call_all calls_for].
  rewrite (get_status_at _ _ _ _ _ "" Hne (Hinv job_id)).
  specialize (IH (<[job_id := stack_after template (S (count job_id))]> job_stacks)
                (λ i, count i + (if String.eqb job_id i then 1 else 0))).
  destruct (call_all template calls _) as [rs job_stacks''] eqn:Ec.
  simpl in *. rewrite Nat.add_assoc. apply IH.
  intros i. rewrite lookup_insert.
  destruct (String.eqb_spec job_id i) as [->|Hi].
  - rewrite decide_True by done. simpl. by rewrite Nat.add_1_r.
  - rewrite decide_False by done. by rewrite Nat.add_0_r.
Qed.

(** The status passed to the hook plays no part in a sequence of calls. *)
Lemma call_all_ignores_status (template : list string)
    (calls1 calls2 : list (string * value)) (job_stacks : gmap string (list string)) :
  map fst calls1 = map fst calls2 →
  call_all template calls1 job_stacks = call_all template calls2 job_stacks.
Proof.
  revert calls2 job_stacks.
  induction calls1 as [|[j s1] calls1 IH]; intros [|[j2 s2] calls2] job_stacks;
    try done.
  simpl. intros [= <- Hrest].
  change (get_status template job_stacks j s2)
    with (get_status template job_stacks j s1).
  destruct (get_status template job_stacks j s1) as [r job_stacks'].
  by rewrite (IH calls2 job_stacks' Hrest).
Qed.

Lemma status_template_nonempty (queued running : Z) (final : string) :
  status_template queued running final ≠ [].
Proof.
  intros H. apply (f_equal length) in H.
  rewrite status_template_length in H. simpl in H. lia.
Qed.

(** C9.  The hook that [setup_simple_job_status_flow] installs is the
    closure [get_status] on the template, with no stacks yet.  The status
    passed to it plays no part: two calls that differ only in
    [current_status] return the same status and leave the same stacks; two
    sequences of calls for the same job ids, whatever the statuses passed,
    give the same results; and after any sequence of calls since the
    installation, a call for a job returns the entry of the script at the
    number of earlier calls for that job (the last entry once the script
    is used up). *)
Theorem C9_scripted_hook_ignores_current_status
    (queued running : Z) (final : string) :
  let template := status_template queued running final in
  (∀ self,
      job_status_updater (setup_simple_job_status_flow queued running final self)
      = {| hook_state := gmap string (list string);
           hook_env := ∅;
           hook_call := get_status template |})
  ∧ (∀ job_stacks job_id status1 status2,
        get_status template job_stacks job_id status1
        = get_status template job_stacks job_id status2)
  ∧ (∀ calls1 calls2,
        map fst calls1 = map fst calls2 →
        call_all template calls1 ∅ = call_all template calls2 ∅)
  ∧ (∀ calls job_id current_status,
        fst (get_status template (snd (call_all template calls ∅)) job_id current_status)
        = Ok (nth (Nat.min (calls_for job_id calls) (length template - 1))
                template final)).
Proof.
  intros template. split; [done|]. split; [done|].
  split; [intros; by apply call_all_ignores_status|].
  intros calls job_id current_status.
  pose proof (status_template_nonempty queued running final) as Hne.
  rewrite (get_status_at template _ job_id current_status
             (calls_for job_id calls) final Hne); [done|].
  apply (call_all_stacks template calls ∅ (λ _, 0) Hne).
  intros j. rewrite lookup_empty. simpl. unfold stack_after, script_position.
  by rewrite Nat.min_0_l.
Qed.

(** ** The simple status flow on a job *)

Lemma call_updater_scripted (template : list string)
    (job_stacks : gmap string (list string)) (job_id : string)
    (current_status : value) (k : nat) (d : string) :
  template ≠ [] →
  default template (job_stacks !! job_id) = stack_after template k →
  call_updater (simple_flow_updater template job_stacks) job_id current_status
  = (Ok (nth (script_position template k) template d),
     simple_flow_updater template
       (<[job_id := stack_after template (S k)]> job_stacks)).
Proof.
  intros Hne Hstack. unfold call_updater, simple_flow_updater. simpl.
  by rewrite (get_status_at _ _ _ _ k d Hne Hstack).
Qed.

Section Flow.

Variable json_dumps : value → res string.

(** Consecutive reads of a started job under the scripted hook: read
    number [i] after [k] calls of the hook answers the entry of the script
    at [k + i]. *)
Lemma run_reads_scripted (template : list string) (d : string) (n : nat) :
  template ≠ [] →
  Forall (λ s, s ≠ "created") template →
  ∀ (k : nat) (self : DummyBackend) (job_stacks : gmap string (list string))
    (request : Request) (job_id : string) (job_data : gmap string value)
    (status : string),
    job_status_updater self = simple_flow_updater template job_stacks →
    default template (job_stacks !! job_id) = stack_after template k →
    match_job_path (path request) = Some job_id →
    batch_jobs self !! job_id = Some job_data →
    job_data !! "status" = Some (VStr status) →
    status ≠ "created" →
    fst (run json_dumps (repeat (GET_job request) n) self)
    = map (λ i, Ok (job_body job_id
                      (VStr (nth (script_position template i) template d)),
                    fresh_context))
        (seq k n).
Proof.
  intros Hne Hall. induction n as [|n IH];
    intros k self job_stacks request job_id jd status Hu Hstack Hm Hj Hs Hc; [done|].
  cbn [repeat run seq map]. simpl step.
  rewrite (_handle_get_job_started _ _ _ _ _ _ Hm Hj Hs) by congruence.
  rewrite Hu, (call_updater_scripted _ _ _ _ k d Hne Hstack).
  set (new := nth (script_position template k) template d).
  set (self' := with_status _ _ _ _ _).
  specialize (IH (S k) self' (<[job_id := stack_after template (S k)]> job_stacks)
                request job_id (<["status" := VStr new]> jd) new).
  destruct (run json_dumps (repeat (GET_job request) n) self') as [rs self''].
  simpl in *. f_equal. apply IH; try done.
  - by rewrite lookup_insert_eq.
  - subst self'. simpl. by rewrite lookup_insert_eq.
  - by rewrite lookup_insert_eq.
  - rewrite Forall_forall in Hall. apply Hall. subst new.
    apply list_elem_of_In, nth_In. by apply script_position_lt.
Qed.

End Flow.

Lemma stack_after_0 (template : list string) : stack_after template 0 = template.
Proof. unfold stack_after, script_position. by rewrite Nat.min_0_l. Qed.

Lemma default_flow_status (i : nat) :
  nth (script_position (status_template 1 4 "finished") (S i))
    (status_template 1 4 "finished") "finished"
  = if (i <? 4)%nat then "running" else "finished".
Proof.
  change (status_template 1 4 "finished")
    with ["queued"; "running"; "running"; "running"; "running"; "finished"].
  unfold script_position.
  destruct i as [|[|[|[|i]]]]; try done.
  replace (Nat.min (S (S (S (S (S i))))) _) with 5 by (simpl; lia). done.
Qed.

(** The start of a job and the reads that follow, under the scripted hook
    of [queued=1, running=4, final="finished"] not yet called for the job:
    the start stores [queued], the first four reads answer [running], the
    fifth and every later one [finished]. *)
Lemma start_then_reads_default_flow
    (json_dumps : value → res string) (self : DummyBackend)
    (job_stacks : gmap string (list string)) (start get : Request)
    (job_id : string) (job_data : gmap string value) :
  job_status_updater self
  = simple_flow_updater (status_template 1 4 "finished") job_stacks →
  job_stacks !! job_id = None →
  match_job_path (path start) = Some job_id →
  match_job_path (path get) = Some job_id →
  batch_jobs self !! job_id = Some job_data →
  job_data !! "status" = Some (VStr "created") →
  ∃ self',
    _handle_post_job_results start fresh_context self
    = (Ok (VNone, set_status_code 202 fresh_context), self')
    ∧ batch_jobs self' !! job_id ≫= (λ jd, jd !! "status") = Some (VStr "queued")
    ∧ ∀ n,
        fst (run json_dumps (repeat (GET_job get) n) self')
        = map (λ i, Ok (job_body job_id
                          (VStr (if (i <? 4)%nat then "running" else "finished")),
                        fresh_context))
            (seq 0 n).
Proof.
  intros Hu Hfresh Hstart Hget Hj Hs.
  pose proof (status_template_nonempty 1 4 "finished") as Hne.
  assert (default (status_template 1 4 "finished") (job_stacks !! job_id)
          = stack_after (status_template 1 4 "finished") 0) as Hstack
    by (by rewrite Hfresh, stack_after_0).
  eexists. split; [|split].
  - rewrite _handle_post_job_results_eq, Hstart, Hj, Hs. simpl.
    rewrite Hu, (call_updater_scripted _ _ _ _ 0 "finished" Hne Hstack).
    reflexivity.
  - simpl. rewrite lookup_insert_eq. simpl. by rewrite lookup_insert_eq.
  - intros n.
    rewrite (run_reads_scripted json_dumps (status_template 1 4 "finished")
               "finished" n Hne
               ltac:(by repeat constructor) 1 _
               (<[job_id := stack_after (status_template 1 4 "finished") 1]> job_stacks)
               get job_id (<["status" := VStr "queued"]> job_data) "queued");
      try done.
    + rewrite <- seq_shift, map_map. apply map_ext. intros i.
      by rewrite default_flow_status.
    + by rewrite lookup_insert_eq.
    + simpl. by rewrite lookup_insert_eq.
    + by rewrite lookup_insert_eq.
Qed.

(** ** The scripted hook along a run *)

Section ScriptedRuns.

Variable json_dumps : value → res string.

Lemma _handle_post_result_updater request context self :
  job_status_updater (snd (_handle_post_result json_dumps request context self))
  = job_status_updater self.
Proof.
  unfold _handle_post_result. unfold_M.
  destruct (request_json request) as [post_data|]; [|done].
  destruct (subscript post_data "process") as [process|]; [|done].
  destruct (subscript process "process_graph") as [pg|]; [|done].
  simpl. destruct (next_result self); try done.
  - by destruct (json_dumps _).
  - by destruct (json_dumps _).
Qed.

Lemma _handle_post_validation_updater request context self :
  job_status_updater (snd (_handle_post_validation request context self))
  = job_status_updater self.
Proof.
  unfold _handle_post_validation. unfold_M.
  destruct (request_json request) as [post_data|]; [|done].
  by destruct (subscript post_data "process_graph").
Qed.

(** The back-end after a call of the scripted hook for a registered job. *)
Lemma scripted_with_status (template : list string) (self : DummyBackend)
    (job_stacks : gmap string (list string)) (count : string → nat)
    (job_id : string) (job_data : gmap string value) :
  template ≠ [] →
  Forall (λ s, s ≠ "created") template →
  (∀ j, default template (job_stacks !! j) = stack_after template (count j)) →
  (∀ j, is_Some (job_stacks !! j) →
        ∃ jd status,
          batch_jobs self !! j = Some jd
          ∧ jd !! "status" = Some (VStr status) ∧ status ≠ "created") →
  scripted template
    (with_status job_id job_data
       (nth (script_position template (count job_id)) template "")
       (simple_flow_updater template
          (<[job_id := stack_after template (S (count job_id))]> job_stacks))
       self).
Proof.
  intros Hne Hall Hstacks Hreg.
  exists (<[job_id := stack_after template (S (count job_id))]> job_stacks),
    (λ j, if decide (job_id = j) then S (count job_id) else count j).
  split; [done|]. split.
  - intros j. rewrite lookup_insert. by case_decide; subst.
  - intros j. simpl. rewrite !lookup_insert. case_decide as Hj.
    + subst. intros _. eexists _, _. split; [done|].
      split; [by rewrite lookup_insert_eq|].
      rewrite Forall_forall in Hall. apply Hall.
      apply list_elem_of_In, nth_In. by apply script_position_lt.
    + apply Hreg.
Qed.

(** A step that does not set the hook keeps the scripted hook in place. *)
Lemma step_scripted (template : list string) (o : op) (self : DummyBackend) :
  template ≠ [] →
  Forall (λ s, s ≠ "created") template →
  ids_in_sequence (batch_jobs self) →
  replaces_updater o = false →
  scripted template self →
  scripted template (snd (step json_dumps o self)).
Proof.
  intros Hne Hall Hi Ho (job_stacks & count & Hu & Hstacks & Hreg).
  assert (∀ self', job_status_updater self' = job_status_updater self →
                   batch_jobs self' = batch_jobs self → scripted template self')
    as Hsame.
  { intros self' Hu' Hb'. exists job_stacks, count. by rewrite Hu', Hb'. }
  destruct o as [r|r|r|r|r|r|r|v|v|l|u|q n f]; try done; simpl step;
    try (by apply Hsame).
  - apply Hsame; [apply _handle_post_result_updater|apply _handle_post_result_jobs].
  - destruct (step_POST_jobs json_dumps r self) as [[e He]|(jd & He & _)];
      simpl step in He; rewrite He; [by apply Hsame|].
    exists job_stacks, count. split; [done|]. split; [done|].
    intros j Hj. destruct (Hreg j Hj) as (jd' & s & Hjd & Hs & Hc).
    exists jd', s. split; [|done]. simpl.
    rewrite lookup_insert_ne; [done|]. intros Heq.
    pose proof (next_id_fresh _ Hi) as Hf. rewrite Heq in Hf. congruence.
  - rewrite _handle_post_job_results_eq.
    destruct (match_job_path (path r)) as [j|]; [|by apply Hsame].
    destruct (batch_jobs self !! j) as [jd|] eqn:Ej; [|by apply Hsame].
    destruct (jd !! "status") as [s|]; [|by apply Hsame].
    destruct (eq_str s "created"); [|by apply Hsame].
    rewrite Hu, (call_updater_scripted _ _ _ _ (count j) "" Hne (Hstacks j)).
    by apply scripted_with_status.
  - rewrite _handle_get_job_eq.
    destruct (match_job_path (path r)) as [j|]; [|by apply Hsame].
    destruct (batch_jobs self !! j) as [jd|] eqn:Ej; [|by apply Hsame].
    destruct (jd !! "status") as [s|]; [|by apply Hsame].
    destruct (eq_str s "created"); [by apply Hsame|].
    rewrite Hu, (call_updater_scripted _ _ _ _ (count j) "" Hne (Hstacks j)).
    by apply scripted_with_status.
  - rewrite _handle_get_job_results_eq. by repeat case_match; apply Hsame.
  - rewrite _handle_get_job_result_asset_eq. by repeat case_match; apply Hsame.
  - apply Hsame;
      [apply _handle_post_validation_updater|apply _handle_post_validation_jobs].
Qed.

Lemma run_scripted (template : list string) (trace : list op) (self : DummyBackend) :
  template ≠ [] →
  Forall (λ s, s ≠ "created") template →
  ids_in_sequence (batch_jobs self) ∧ records_complete (batch_jobs self) →
  forallb (λ o, negb (replaces_updater o)) trace = true →
  scripted template self →
  scripted template (snd (run json_dumps trace self)).
Proof.
  intros Hne Hall. revert self.
  induction trace as [|o trace IH]; intros self Hinv Hkeep Hs; [done|].
  simpl in Hkeep. apply andb_prop in Hkeep as [Ho Hkeep].
  apply negb_true_iff in Ho.
  pose proof (step_scripted template o self Hne Hall (proj1 Hinv) Ho Hs) as Hs'.
  pose proof (step_invariants json_dumps o self Hinv) as Hinv'.
  cbn [run]. destruct (step json_dumps o self) as [r self']. simpl in *.
  specialize (IH self' Hinv' Hkeep Hs').
  by destruct (run json_dumps trace self') as [rs self''].
Qed.

(** Right after [setup_simple_job_status_flow] no job has a stack. *)
Lemma setup_scripted (queued running : Z) (final : string) (self : DummyBackend) :
  scripted (status_template queued running final)
    (setup_simple_job_status_flow queued running final self).
Proof.
  exists ∅, (λ _, 0). split; [done|]. split.
  - intros j. by rewrite lookup_empty, stack_after_0.
  - intros j. rewrite lookup_empty. by intros [? ?].
Qed.

(** Under the scripted hook, a job in status [created] has no stack yet. *)
Lemma scripted_created_fresh (template : list string) (self : DummyBackend)
    (job_id : string) (job_data : gmap string value) :
  scripted template self →
  batch_jobs self !! job_id = Some job_data →
  job_data !! "status" = Some (VStr "created") →
  ∃ job_stacks,
    job_status_updater self = simple_flow_updater template job_stacks
    ∧ job_stacks !! job_id = None.
Proof.
  intros (job_stacks & count & Hu & _ & Hreg) Hj Hs.
  exists job_stacks. split; [done|].
  apply eq_None_not_Some. intros Hsome.
  destruct (Hreg _ Hsome) as (jd & s & Hjd & Hst & Hc). congruence.
Qed.

End ScriptedRuns.

Section SimpleFlow.

Variable json_dumps : value → res string.

Lemma run_app (trace1 trace2 : list op) (self : DummyBackend) :
  snd (run json_dumps (trace1 ++ trace2) self)
  = snd (run json_dumps trace2 (snd (run json_dumps trace1 self))).
Proof.
  revert self. induction trace1 as [|o trace1 IH]; intros self; [done|].
  cbn [app run]. destruct (step json_dumps o self) as [r self'].
  specialize (IH self').
  destruct (run json_dumps (trace1 ++ trace2) self') as [rs self''].
  by destruct (run json_dumps trace1 self') as [rs1 self1].
Qed.

(** The back-end after a run in which the simple status flow was set up
    and the hook was not set again. *)
Lemma run_setup_scripted (conn : Connection) (before after : list op)
    (queued running : Z) (final : string) :
  final ≠ "created" →
  forallb (λ o, negb (replaces_updater o)) after = true →
  scripted (status_template queued running final)
    (snd (run json_dumps
            (before ++ Setup_simple_job_status_flow queued running final :: after)
            (__init__ conn))).
Proof.
  intros Hfinal Hkeep. rewrite run_app.
  set (self := snd (run json_dumps before (__init__ conn))).
  assert (reachable json_dumps conn self) as Hr
    by (apply run_reachable; constructor).
  cbn [run]. simpl step. unfold_M. cbn [fst snd].
  destruct (run json_dumps after _) as [rs self'] eqn:Er.
  replace self' with
    (snd (run json_dumps after
            (setup_simple_job_status_flow queued running final self)))
    by (by rewrite Er).
  apply run_scripted; try done.
  - apply status_template_nonempty.
  - unfold status_template. rewrite !Forall_app. split; [|split].
    + apply Forall_forall. by intros s ->%list_elem_of_In%repeat_spec.
    + apply Forall_forall. by intros s ->%list_elem_of_In%repeat_spec.
    + by repeat constructor.
  - apply (reachable_invariants json_dumps conn) in Hr. done.
  - apply setup_scripted.
Qed.

End SimpleFlow.

(** C1, as the code has it.  On a back-end where the simple status flow
    [queued=1, running=4, final="finished"] was set up, and the hook not
    set again since, take a job whose status is [created].  Its start
    answers 202 and stores [queued] as its status: the start is the first
    call of the hook and takes the first entry of the script.  Every read
    calls the hook once more before it answers, so of the consecutive
    reads that follow the first four answer [running], and the fifth and
    every later one answers [finished]. *)
Theorem C1_simple_job_status_flow
    (json_dumps : value → res string) (conn : Connection)
    (before after : list op) (start get : Request)
    (job_id : string) (job_data : gmap string value) :
  let self :=
    snd (run json_dumps
           (before ++ Setup_simple_job_status_flow 1 4 "finished" :: after)
           (__init__ conn)) in
  forallb (λ o, negb (replaces_updater o)) after = true →
  match_job_path (path start) = Some job_id →
  match_job_path (path get) = Some job_id →
  batch_jobs self !! job_id = Some job_data →
  job_data !! "status" = Some (VStr "created") →
  ∃ self' context',
    _handle_post_job_results start fresh_context self
    = (Ok (VNone, context'), self')
    ∧ status_code context' = 202
    ∧ headers context' = headers fresh_context
    ∧ batch_jobs self' !! job_id ≫= (λ jd, jd !! "status") = Some (VStr "queued")
    ∧ ∀ n,
        fst (run json_dumps (repeat (GET_job get) n) self')
        = map (λ i, Ok (VDict [("id", VStr job_id);
                               ("status",
                                VStr (if (i <? 4)%nat then "running" else "finished"))],
                        fresh_context))
            (seq 0 n).
Proof.
  intros self Hkeep Hstart Hget Hj Hs.
  pose proof (run_setup_scripted json_dumps conn before after 1 4 "finished"
                ltac:(done) Hkeep) as Hscripted.
  destruct (scripted_created_fresh _ _ _ _ Hscripted Hj Hs)
    as (job_stacks & Hu & Hfresh).
  destruct (start_then_reads_default_flow json_dumps self job_stacks start get
              job_id job_data) as (self' & Hanswer & Hstored & Hreads); [done..|].
  exists self', (set_status_code 202 fresh_context). by repeat split.
Qed.

(** The amended C1 on a new back-end with the flow set up and one job
    created, for seven reads after the start. *)
Lemma C1_simple_job_status_flow_witness :
  fst (run (λ _, Raise TypeError) (repeat (GET_job job_000_request) 7)
         flow_started_backend)
  = map (λ s, Ok (job_body "job-000" (VStr s), fresh_context))
      ["running"; "running"; "running"; "running"; "finished"; "finished"; "finished"].
Proof.
  destruct (C1_simple_job_status_flow (λ _, Raise TypeError) test_connection
              [] [POST_jobs plain_job_request]
              start_job_000_request job_000_request "job-000" plain_job_data)
    as (self' & context' & Hstart & _ & _ & _ & Hreads); [by vm_compute..|].
  replace flow_started_backend with self'.
  - by rewrite Hreads.
  - unfold flow_started_backend.
    change flow_job_backend
      with (snd (run (λ _ : value, Raise TypeError)
                   ([] ++ [Setup_simple_job_status_flow 1 4 "finished";
                           POST_jobs plain_job_request])
                   (__init__ test_connection))).
    by rewrite Hstart.
Defined.

(** C1 as stated fails: on a new back-end with the flow of
    [queued=1, running=4, final="finished"] set up and one job created and
    started, the first read answers [running], not [queued], and the fifth
    read already answers [finished]. *)
Lemma C1_first_read_counterexample :
  let reads n :=
    answered_statuses
      (fst (run (λ _, Raise TypeError) (repeat (GET_job job_000_request) n)
              flow_started_backend)) in
  fst (_handle_post_job_results start_job_000_request fresh_context flow_job_backend)
  = Ok (VNone, set_status_code 202 fresh_context)
  ∧ reads 6
    = [Ok (VStr "running"); Ok (VStr "running"); Ok (VStr "running");
       Ok (VStr "running"); Ok (VStr "finished"); Ok (VStr "finished")]
  ∧ reads 5
    ≠ [Ok (VStr "queued"); Ok (VStr "running"); Ok (VStr "running");
       Ok (VStr "running"); Ok (VStr "running")].
Proof. vm_compute. repeat split; congruence. Qed.


(** ** The inspection of captured graphs *)

Lemma map_res_Ok {A B} (f : A → res B) (g : A → B) (l : list A) :
  Forall (λ x, f x = Ok (g x)) l → map_res f l = Ok (map g l).
Proof.
  induction 1 as [|x l Hx _ IH]; [done|]. cbn [map_res map]. by rewrite Hx, IH.
Qed.

Lemma filter_res_Ok {A} (p : A → res bool) (q : A → bool) (l : list A) :
  Forall (λ x, p x = Ok (q x)) l → filter_res p l = Ok (List.filter q l).
Proof.
  induction 1 as [|x l Hx _ IH]; [done|]. cbn [filter_res List.filter].
  by rewrite Hx, IH.
Qed.

(** On a graph whose nodes are mappings the comprehension of [get_pg]
    does not raise: it is the filter by [node_matches]. *)
Lemma find_nodes_Ok (items : list (string * value)) (process_id : string) :
  Forall (λ kv, is_dict kv.2 = true) items →
  find_nodes (VDict items) process_id
  = Ok (List.filter (node_matches process_id) (map snd items)).
Proof.
  intros Hd. unfold find_nodes. simpl.
  apply (filter_res_Ok _ (node_matches process_id)).
  induction Hd as [|[k node] items Hnode _ IH]; [done|]. simpl.
  constructor; [|done]. by destruct node.
Qed.

Lemma node_matches_no_process_id (process_id : string) (node_items : list (string * value)) :
  items_lookup "process_id" node_items = None →
  node_matches process_id (VDict node_items) = false.
Proof. intros H. simpl. by rewrite H. Qed.

Lemma get_pg_eq (self : DummyBackend) (process_id : option string) :
  get_pg self process_id =
  match collect_pgs self with
  | Raise e => Raise e
  | Ok [pg] =>
      match process_id with
      | Some pid =>
          if negb (String.eqb pid EmptyString)
          then
            match find_nodes pg pid with
            | Raise e => Raise e
            | Ok [node] => Ok node
            | Ok found => Raise (not_single_node pid found)
            end
          else Ok pg
      | None => Ok pg
      end
  | Ok pgs => Raise (not_single_pg (length pgs))
  end.
Proof.
  unfold get_pg. destruct (collect_pgs self) as [[|pg [|pg' pgs]]|e]; try done.
  simpl. destruct process_id as [pid|]; [|done]. simpl.
  destruct (negb _); [|done].
  by destruct (find_nodes pg pid) as [[|node [|node' found]]|e].
Qed.

(** C10.  On a graph whose nodes are mappings, the [process_id] filter of
    [get_pg] never raises: it keeps exactly the nodes whose [process_id]
    equals the filter.  A node without a [process_id] key is read as
    [None], matches no filter, is not among the nodes found, and the
    filter gives the same nodes with it as without it; so [get_pg] with
    a filter either returns a node or raises its own
    [OpeneoTestingException]. *)
Theorem C10_nodes_without_process_id_are_skipped
    (items : list (string * value)) (process_id : string) :
  Forall (λ kv, is_dict kv.2 = true) items →
  find_nodes (VDict items) process_id
  = Ok (List.filter (node_matches process_id) (map snd items))
  ∧ (∀ node_items,
        items_lookup "process_id" node_items = None →
        dict_get (VDict node_items) "process_id" = Ok VNone
        ∧ node_matches process_id (VDict node_items) = false
        ∧ ¬ In (VDict node_items)
              (List.filter (node_matches process_id) (map snd items)))
  ∧ (∀ before key node_items after,
        items = (before ++ (key, VDict node_items) :: after)%list →
        items_lookup "process_id" node_items = None →
        find_nodes (VDict items) process_id
        = find_nodes (VDict (before ++ after)%list) process_id)
  ∧ (∀ self,
        collect_pgs self = Ok [VDict items] →
        (∃ node, get_pg self (Some process_id) = Ok node)
        ∨ (∃ msg, get_pg self (Some process_id)
                  = Raise (OpeneoTestingException msg))).
Proof.
  intros Hd. split; [by apply find_nodes_Ok|]. split; [|split].
  - intros node_items Hnone. split; [by simpl; rewrite Hnone|].
    split; [by apply node_matches_no_process_id|].
    intros Hin. apply filter_In in Hin as [_ Hm].
    by rewrite node_matches_no_process_id in Hm.
  - intros before key node_items after -> Hnone.
    rewrite !find_nodes_Ok; [| |done].
    + rewrite !map_app, !List.filter_app. cbn [map List.filter snd].
      by rewrite node_matches_no_process_id.
    + apply Forall_app in Hd as [Hb Ha]. apply Forall_app. split; [done|].
      by apply Forall_cons in Ha as [_ Ha].
  - intros self Hpgs. rewrite get_pg_eq, Hpgs.
    destruct (negb _); [|eauto].
    rewrite find_nodes_Ok by done.
    destruct (List.filter _ _) as [|node [|node' found]]; unfold not_single_node; eauto.
Qed.

(** C10 on the sample graph, whose second node has no [process_id]. *)
Lemma C10_nodes_without_process_id_witness :
  find_nodes sample_graph "save_result"
  = Ok [VDict [("process_id", VStr "save_result"); ("result", VBool true)]].
Proof.
  unfold sample_graph.
  match goal with
  | |- find_nodes (VDict ?items) ?pid = _ =>
      destruct (C10_nodes_without_process_id_are_skipped items pid) as [-> _]
  end.
  - by repeat constructor.
  - reflexivity.
Defined.

Lemma node_matches_true (process_id : string) (node_items : list (string * value)) :
  node_matches process_id (VDict node_items) = true
  ↔ items_lookup "process_id" node_items = Some (VStr process_id).
Proof.
  simpl. rewrite eq_str_true.
  destruct (items_lookup "process_id" node_items) as [v|]; simpl.
  - split; [by intros ->|by intros [= ->]].
  - split; [done|done].
Qed.

(** On a registry whose records are complete, the pool of [get_pg] is the
    synchronous graphs followed by one graph per job. *)
Lemma collect_pgs_Ok (self : DummyBackend) :
  records_complete (batch_jobs self) →
  ∃ batch_pgs,
    collect_pgs self = Ok (sync_requests self ++ batch_pgs)%list
    ∧ length batch_pgs = size (batch_jobs self)
    ∧ ∀ pg, In pg batch_pgs
            ↔ ∃ job_id job_data,
                batch_jobs self !! job_id = Some job_data ∧ job_data !! "pg" = Some pg.
Proof.
  intros Hc.
  exists (map (λ jd : gmap string value, default VNone (jd !! "pg"))
            (batch_jobs_values self)).
  split; [|split].
  - unfold collect_pgs.
    rewrite (map_res_Ok _ (λ jd : gmap string value, default VNone (jd !! "pg")));
      [done|].
    apply Forall_forall. intros jd Hin. unfold batch_jobs_values in Hin.
    apply list_elem_of_In, in_map_iff in Hin as [[j jd'] [<- Hin]].
    apply list_elem_of_In, elem_of_map_to_list in Hin.
    destruct (Hc _ _ Hin) as [[pg Hpg] _]. simpl.
    unfold record_field. by rewrite Hpg.
  - unfold batch_jobs_values. by rewrite !length_map, length_map_to_list.
  - intros pg. unfold batch_jobs_values. rewrite in_map_iff. split.
    + intros [jd [<- Hin]]. apply in_map_iff in Hin as [[j jd'] [<- Hin]].
      apply list_elem_of_In, elem_of_map_to_list in Hin.
      destruct (Hc _ _ Hin) as [[pg Hpg] _]. exists j, jd'. simpl.
      by rewrite Hpg.
    + intros (j & jd & Hj & Hpg). exists jd. split; [by rewrite Hpg|].
      apply in_map_iff. exists (j, jd). split; [done|].
      by apply list_elem_of_In, elem_of_map_to_list.
Qed.

(** C5.  On a back-end that a test can reach, [get_pg] pools the
    synchronous graphs and the graph of every batch job.  When the pool
    does not hold exactly one graph it raises [OpeneoTestingException]
    with the size of the pool in the message (so for one synchronous
    request and one batch job, with 2).  When the pool is one graph,
    [get_pg] without a filter returns the graph (no filter: [None], or the
    empty string, which [if process_id:] takes for none); with a filter
    (a [process_id] that is not empty) on a graph whose nodes are mappings,
    it returns the node whose [process_id] equals the filter when there is
    exactly one, and raises [OpeneoTestingException] with the number of
    matching nodes and the nodes in the message when there is none or more
    than one. *)
Theorem C5_get_pg
    (json_dumps : value → res string) (conn : Connection) (self : DummyBackend) :
  reachable json_dumps conn self →
  ∃ batch_pgs,
    let pgs := (sync_requests self ++ batch_pgs)%list in
    collect_pgs self = Ok pgs
    ∧ length batch_pgs = size (batch_jobs self)
    ∧ (∀ pg, In pg batch_pgs
             ↔ ∃ job_id job_data,
                 batch_jobs self !! job_id = Some job_data
                 ∧ job_data !! "pg" = Some pg)
    ∧ (∀ process_id,
          length pgs ≠ 1 →
          get_pg self process_id
          = Raise (OpeneoTestingException
                     [Lit "Expected single process graph, but collected ";
                      Num (length pgs)]))
    ∧ (∀ process_id,
          length (sync_requests self) = 1 → size (batch_jobs self) = 1 →
          get_pg self process_id
          = Raise (OpeneoTestingException
                     [Lit "Expected single process graph, but collected "; Num 2]))
    ∧ (∀ pg,
          pgs = [pg] →
          get_pg self None = Ok pg
          ∧ get_pg self (Some EmptyString) = Ok pg
          ∧ ∀ process_id items,
              process_id ≠ EmptyString →
              pg = VDict items →
              Forall (λ kv, is_dict kv.2 = true) items →
              let found := List.filter (node_matches process_id) (map snd items) in
              (∀ node_items,
                  node_matches process_id (VDict node_items) = true
                  ↔ items_lookup "process_id" node_items = Some (VStr process_id))
              ∧ (∀ node, found = [node] → get_pg self (Some process_id) = Ok node)
              ∧ (length found ≠ 1 →
                 get_pg self (Some process_id)
                 = Raise (OpeneoTestingException
                            [Lit "Expected single process graph node with process_id ";
                             Repr (VStr process_id); Lit ", but found ";
                             Num (length found); Lit ": "; Repr (VList found)]))).
Proof.
  intros Hr. destruct (reachable_invariants _ _ _ Hr) as [_ Hc].
  destruct (collect_pgs_Ok self Hc) as (batch_pgs & Hpgs & Hlen & Hin).
  exists batch_pgs. intros pgs.
  split; [done|]. split; [done|]. split; [done|].
  assert (∀ process_id, length pgs ≠ 1 →
            get_pg self process_id = Raise (not_single_pg (length pgs))) as Hcount.
  { intros process_id Hne. rewrite get_pg_eq, Hpgs. fold pgs.
    by destruct pgs as [|pg [|pg' rest]]. }
  split; [done|]. split.
  { intros process_id Hs Hb.
    assert (length pgs = 2) as Hl by (subst pgs; rewrite length_app; lia).
    rewrite Hcount by lia. by rewrite Hl. }
  intros pg Hone. fold pgs in Hpgs. rewrite Hone in Hpgs.
  split; [by rewrite get_pg_eq, Hpgs|].
  split; [by rewrite get_pg_eq, Hpgs|].
  intros process_id items Hne -> Hd found.
  split; [apply node_matches_true|].
  assert (negb (String.eqb process_id EmptyString) = true) as Ht.
  { by destruct (String.eqb_spec process_id EmptyString). }
  split.
  - intros node Hfound. rewrite get_pg_eq, Hpgs, Ht, find_nodes_Ok by done.
    fold found. by rewrite Hfound.
  - intros Hl. rewrite get_pg_eq, Hpgs, Ht, find_nodes_Ok by done.
    fold found. by destruct found as [|node [|node' rest]].
Qed.

(** C5 on a new back-end: after one synchronous request, and after one
    batch job more. *)
Lemma C5_get_pg_witness :
  let dumps : value → res string := λ _, Raise TypeError in
  let self1 :=
    snd (run dumps [POST_result (sync_request sample_graph)]
           (__init__ test_connection)) in
  let self2 := snd (run dumps [POST_jobs (job_request sample_graph)] self1) in
  get_pg self1 None = Ok sample_graph
  ∧ get_pg self1 (Some "save_result")
    = Ok (VDict [("process_id", VStr "save_result"); ("result", VBool true)])
  ∧ get_pg self2 None
    = Raise (OpeneoTestingException
               [Lit "Expected single process graph, but collected "; Num 2]).
Proof.
  intros dumps self1 self2.
  assert (reachable dumps test_connection self1) as Hr1
    by (apply run_reachable; constructor).
  assert (reachable dumps test_connection self2) as Hr2
    by (by apply run_reachable).
  destruct (C5_get_pg dumps test_connection self1 Hr1)
    as (batch_pgs1 & Hpgs1 & _ & _ & _ & _ & Hone).
  destruct (C5_get_pg dumps test_connection self2 Hr2)
    as (batch_pgs2 & _ & _ & _ & _ & Htwo & _).
  assert (batch_pgs1 = []) as -> by (vm_compute in Hpgs1; congruence).
  destruct (Hone sample_graph eq_refl) as (Hnone & _ & Hfilter).
  split; [exact Hnone|]. split.
  - unfold sample_graph in Hfilter.
    match type of Hfilter with
    | ∀ process_id items, _ → VDict ?graph = _ → _ =>
        destruct (Hfilter "save_result" graph) as (_ & Hnode & _);
          [done|done|by repeat constructor|]
    end.
    by apply Hnode.
  - apply Htwo; by vm_compute.
Defined.

(** ** The payload endpoints *)

(** [POST /result] on a body with a process graph answers the scripted
    result as bytes: bytes as they are, text encoded, a mapping or a
    sequence serialized to JSON and encoded. *)
Lemma _handle_post_result_normalized (json_dumps : value → res string)
    (request : Request) (context : Context) (self : DummyBackend)
    (items : list (string * value)) (process pg : value) :
  json request = Some (VDict items) →
  items_lookup "process" items = Some process →
  subscript process "process_graph" = Ok pg →
  fst (_handle_post_result json_dumps request context self)
  = (result ← normalized json_dumps (next_result self); Ok (result, context)).
Proof.
  intros Hj Hp Hg.
  assert (subscript (VDict items) "process" = Ok process) as Hs
    by (simpl; by rewrite Hp).
  unfold _handle_post_result. rewrite (request_json_Some _ _ Hj).
  unfold_M. rewrite Hs, Hg. cbn [next_result set_sync_requests fst snd].
  destruct (next_result self) as [|b|z|s|bs|l|d]; try done.
  - simpl. by destruct (json_dumps (VList l)).
  - simpl. by destruct (json_dumps (VDict d)).
Qed.

(** C6 at its failing input.  With the mapping [{"foo": "bar"}] as the
    scripted result and the job [job-000] finished, the result asset
    endpoint answers the mapping itself, which is not bytes: it returns
    [next_result] as it is.  [POST /result] on the same back-end answers
    the encoded JSON text of the mapping. *)
Theorem C6_result_asset_not_normalized (json_dumps : value → res string) :
  let self := set_next_result mapping_result started_job_backend in
  (batch_jobs self !! "job-000") ≫= (λ job_data, job_data !! "status")
  = Some (VStr "finished")
  ∧ fst (_handle_get_job_result_asset result_asset_request fresh_context self)
    = Ok (mapping_result, fresh_context)
  ∧ (∀ bs, mapping_result ≠ VBytes bs)
  ∧ (∀ s, json_dumps mapping_result = Ok s →
          fst (_handle_post_result json_dumps (sync_request (VDict []))
                 fresh_context self)
          = Ok (VBytes (encode_utf8 s), fresh_context)).
Proof.
  intros self. split; [by vm_compute|]. split; [by vm_compute|].
  split; [done|]. intros s Hs.
  rewrite (_handle_post_result_normalized json_dumps (sync_request (VDict []))
             fresh_context self [("process", VDict [("process_graph", VDict [])])]
             (VDict [("process_graph", VDict [])]) (VDict [])
             eq_refl eq_refl eq_refl).
  simpl. fold mapping_result. by rewrite Hs.
Qed.

(** ** Further properties of the handlers and of the inspection API *)

(** The results of a job are served only once it is [finished]: for a
    registered job in any other status, the listing of its results and its
    result asset both raise [AssertionError] and change nothing; for a
    finished job the listing names one asset, [result.data], whose link is
    built from the job id, and the asset is the scripted result as it is
    stored. *)
Theorem results_need_finished_job
    (self : DummyBackend) (request : Request) (context : Context)
    (job_id : string) (job_data : gmap string value) (status : value) :
  match_job_path (path request) = Some job_id →
  batch_jobs self !! job_id = Some job_data →
  job_data !! "status" = Some status →
  (status ≠ VStr "finished" →
     _handle_get_job_results request context self = (Raise AssertionError, self)
     ∧ _handle_get_job_result_asset request context self = (Raise AssertionError, self))
  ∧ (status = VStr "finished" →
     _handle_get_job_results request context self
     = (Ok (VDict
              [("id", VStr job_id);
               ("assets",
                VDict
                  [("result.data",
                    VDict
                      [("href",
                        VStr (build_url (connection self)
                                ("/jobs/" +:+ job_id +:+ "/results/result.data")))])])],
            context), self)
     ∧ _handle_get_job_result_asset request context self
       = (Ok (next_result self, context), self)).
Proof.
  intros Hm Hj Hs.
  rewrite _handle_get_job_results_eq, _handle_get_job_result_asset_eq, Hm, Hj, Hs.
  split.
  - intros Hne. apply eq_str_false in Hne. by rewrite Hne.
  - by intros ->.
Qed.

(** The results of the first job of a back-end, before and after its start. *)
Lemma results_need_finished_job_witness :
  fst (_handle_get_job_result_asset result_asset_request fresh_context one_job_backend)
  = Raise AssertionError
  ∧ fst (_handle_get_job_result_asset result_asset_request fresh_context
           started_job_backend)
    = Ok (DEFAULT_RESULT, fresh_context).
Proof.
  split.
  - destruct (results_need_finished_job one_job_backend result_asset_request
                fresh_context "job-000" plain_job_data (VStr "created"))
      as [Hnot _]; [by vm_compute..|].
    destruct (Hnot ltac:(done)) as [_ ->]. done.
  - destruct (results_need_finished_job started_job_backend result_asset_request
                fresh_context "job-000"
                (<["status" := VStr "finished"]> plain_job_data) (VStr "finished"))
      as [_ Hfin]; [by vm_compute..|].
    destruct (Hfin eq_refl) as [_ ->]. done.
Defined.

(** A new back-end has the hook that finishes a job at once: under it the
    start of a job in status [created] stores [finished] and answers 202,
    and the hook stays as it is. *)
Theorem default_updater_finishes_at_start
    (conn : Connection) (self : DummyBackend) (request : Request) (context : Context)
    (job_id : string) (job_data : gmap string value) :
  job_status_updater self = job_status_updater (__init__ conn) →
  match_job_path (path request) = Some job_id →
  batch_jobs self !! job_id = Some job_data →
  job_data !! "status" = Some (VStr "created") →
  (∀ j status, call_updater (job_status_updater (__init__ conn)) j status
               = (Ok "finished", job_status_updater (__init__ conn)))
  ∧ ∃ context',
      _handle_post_job_results request context self
      = (Ok (VNone, context'),
         set_batch_jobs
           (<[job_id := <["status" := VStr "finished"]> job_data]> (batch_jobs self))
           self)
      ∧ status_code context' = 202
      ∧ headers context' = headers context.
Proof.
  intros Hu Hm Hj Hs. split; [done|].
  exists (set_status_code 202 context). split; [|done].
  rewrite _handle_post_job_results_eq, Hm, Hj, Hs. simpl. rewrite Hu. simpl.
  unfold with_status. do 2 f_equal. destruct self. simpl in *. by rewrite Hu.
Qed.

Lemma default_updater_finishes_witness :
  (batch_jobs started_job_backend !! "job-000") ≫= (λ job_data, job_data !! "status")
  = Some (VStr "finished").
Proof.
  destruct (default_updater_finishes_at_start test_connection one_job_backend
              start_job_000_request fresh_context "job-000" plain_job_data)
    as (_ & context' & Hstart & _); [by vm_compute..|].
  unfold started_job_backend. rewrite Hstart. by vm_compute.
Defined.

(** [POST /validation] records the graph of its body after the graphs it
    recorded before and answers the configured errors, which stay
    configured. *)
Theorem validation_records_and_answers
    (request : Request) (context : Context) (self : DummyBackend)
    (post_data pg : value) :
  json request = Some post_data →
  subscript post_data "process_graph" = Ok pg →
  ∃ self',
    _handle_post_validation request context self
    = (Ok (VDict [("errors", next_validation_errors self)], context), self')
    ∧ validation_requests self' = (validation_requests self ++ [pg])%list
    ∧ next_validation_errors self' = next_validation_errors self.
Proof.
  intros Hj Hg. eexists. unfold _handle_post_validation.
  rewrite (request_json_Some _ _ Hj). unfold_M. rewrite Hg. by split.
Qed.

Lemma validation_records_witness :
  fst (_handle_post_validation
         {| path := "/validation";
            body := json_body (VDict [("process_graph", sample_graph)]) |}
         fresh_context (__init__ test_connection))
  = Ok (VDict [("errors", VList [])], fresh_context).
Proof.
  destruct (validation_records_and_answers
              {| path := "/validation";
                 body := json_body (VDict [("process_graph", sample_graph)]) |}
              fresh_context (__init__ test_connection)
              (VDict [("process_graph", sample_graph)]) sample_graph eq_refl eq_refl)
    as (self' & -> & _). done.
Defined.

(** [get_sync_pg] returns a graph exactly when one synchronous request was
    captured, and then that graph; otherwise its [assert] fails. *)
Theorem get_sync_pg_single (self : DummyBackend) :
  (∀ pg, get_sync_pg self = Ok pg ↔ sync_requests self = [pg])
  ∧ (length (sync_requests self) ≠ 1 → get_sync_pg self = Raise AssertionError).
Proof.
  unfold get_sync_pg.
  destruct (sync_requests self) as [|pg [|pg' rest]]; simpl; split;
    try done; try (intros pg0; split; congruence).
Qed.

Lemma append_empty_r (s : string) : s +:+ EmptyString = s.
Proof.
  induction s as [|c s IH]; [done|].
  change (String c (s +:+ EmptyString) = String c s). by f_equal.
Qed.

(** Every id that [POST /jobs] hands out is one that the pattern of
    [_get_job_id] extracts from the paths of that job. *)
Theorem created_ids_match_the_pattern (n : nat) :
  match_job_path ("/jobs/" +:+ format_job_id n) = Some (format_job_id n)
  ∧ match_job_path ("/jobs/" +:+ format_job_id n +:+ "/results")
    = Some (format_job_id n)
  ∧ match_job_path ("/jobs/" +:+ format_job_id n +:+ "/results/result.data")
    = Some (format_job_id n).
Proof.
  split; [|split].
  - rewrite <- (append_empty_r (format_job_id n)) at 1.
    apply match_job_path_format_job_id. by left.
  - apply match_job_path_format_job_id. right. right. eauto.
  - apply match_job_path_format_job_id. right. right. eauto.
Qed.

(** [get_batch_pg] returns the graph of the job when exactly one job is
    registered; otherwise its [assert] fails. *)
Theorem get_batch_pg_single (self : DummyBackend) :
  (∀ job_id job_data,
      batch_jobs self = {[ job_id := job_data ]} →
      get_batch_pg self = record_field "pg" job_data)
  ∧ (size (batch_jobs self) ≠ 1 → get_batch_pg self = Raise AssertionError).
Proof.
  unfold get_batch_pg. split.
  - intros j jd ->. rewrite map_size_singleton, map_to_list_singleton. simpl.
    by rewrite lookup_singleton_eq.
  - intros Hne. destruct (Nat.eqb_spec (size (batch_jobs self)) 1); done.
Qed.

(** ** The capabilities document *)

(** The endpoints come in groups, one per switch, in a fixed order. *)
Lemma capabilities_endpoints_groups
    (basic_auth oidc_auth collections processes sync_processing validation
       batch_jobs udp : bool) :
  let group (b : bool) (l : list value) := if b then l else [] in
  capabilities_endpoints basic_auth oidc_auth collections processes
    sync_processing validation batch_jobs udp
  = (group basic_auth [endpoint "/credentials/basic" ["GET"]]
     ++ group oidc_auth [endpoint "/credentials/oidc" ["GET"]]
     ++ group (basic_auth || oidc_auth) [endpoint "/me" ["GET"]]
     ++ group collections
          [endpoint "/collections" ["GET"];
           endpoint "/collections/{collection_id}" ["GET"]]
     ++ group processes [endpoint "/processes" ["GET"]]
     ++ group sync_processing [endpoint "/result" ["POST"]]
     ++ group validation [endpoint "/validation" ["POST"]]
     ++ group batch_jobs
          [endpoint "/jobs" ["GET"; "POST"];
           endpoint "/jobs/{job_id}" ["GET"; "DELETE"];
           endpoint "/jobs/{job_id}/results" ["GET"; "POST"; "DELETE"];
           endpoint "/jobs/{job_id}/logs" ["GET"]]
     ++ group udp
          [endpoint "/process_graphs" ["GET"];
           endpoint "/process_graphs/{process_graph_id" ["GET"; "PUT"; "DELETE"]])%list.
Proof.
  by destruct basic_auth, oidc_auth, collections, processes, sync_processing,
    validation, batch_jobs, udp.
Qed.

Lemma In_group {A} (b : bool) (l : list A) (x : A) :
  In x (if b then l else []) ↔ b = true ∧ In x l.
Proof. destruct b; simpl; intuition congruence. Qed.

(** What [build_capabilities] advertises: every switch lists its own
    paths and no other ([/me] is listed when either way to authenticate
    is), no path is listed twice, every endpoint has a path, and the two
    versions are the ones passed in. *)
Theorem build_capabilities_advertises
    (api_version stac_version : string)
    (basic_auth oidc_auth collections processes sync_processing validation
       batch_jobs udp : bool) :
  let capabilities :=
    build_capabilities api_version stac_version basic_auth oidc_auth collections
      processes sync_processing validation batch_jobs udp in
  NoDup (advertised_paths capabilities)
  ∧ length (advertised_paths capabilities) = length (endpoints_of capabilities)
  ∧ (∀ p, In p (advertised_paths capabilities)
          ↔ (basic_auth = true ∧ p = "/credentials/basic")
            ∨ (oidc_auth = true ∧ p = "/credentials/oidc")
            ∨ ((basic_auth = true ∨ oidc_auth = true) ∧ p = "/me")
            ∨ (collections = true
               ∧ (p = "/collections" ∨ p = "/collections/{collection_id}"))
            ∨ (processes = true ∧ p = "/processes")
            ∨ (sync_processing = true ∧ p = "/result")
            ∨ (validation = true ∧ p = "/validation")
            ∨ (batch_jobs = true
               ∧ (p = "/jobs" ∨ p = "/jobs/{job_id}"
                  ∨ p = "/jobs/{job_id}/results" ∨ p = "/jobs/{job_id}/logs"))
            ∨ (udp = true
               ∧ (p = "/process_graphs" ∨ p = "/process_graphs/{process_graph_id")))
  ∧ subscript capabilities "api_version" = Ok (VStr api_version)
  ∧ subscript capabilities "stac_version" = Ok (VStr stac_version).
Proof.
  intros capabilities. split; [|split; [|split]].
  - subst capabilities.
    destruct basic_auth, oidc_auth, collections, processes, sync_processing,
      validation, batch_jobs, udp;
      apply (bool_decide_unpack (NoDup _)); by vm_compute.
  - subst capabilities.
    by destruct basic_auth, oidc_auth, collections, processes, sync_processing,
      validation, batch_jobs, udp.
  - intros p. subst capabilities. unfold advertised_paths, endpoints_of.
    cbn [build_capabilities subscript items_lookup String.eqb Ascii.eqb Bool.eqb].
    change (items_lookup "endpoints" _) with
      (Some (VList (capabilities_endpoints basic_auth oidc_auth collections
                      processes sync_processing validation batch_jobs udp))).
    cbv beta iota. rewrite capabilities_endpoints_groups. cbv zeta.
    rewrite !omap_app, !in_app_iff.
    repeat match goal with
           | |- context [omap endpoint_path (if ?b then ?l else [])] =>
               replace (omap endpoint_path (if b then l else []))
                 with (if b then omap endpoint_path l else [])
                 by (by destruct b)
           end.
    rewrite !In_group. cbn [omap endpoint_path endpoint subscript items_lookup
                              String.eqb Ascii.eqb Bool.eqb In].
    rewrite orb_true_iff. cbn. intuition congruence.
  - done.
Qed.

(** ** What the handlers capture, and what they leave alone *)

Lemma self_eta (self : DummyBackend) :
  set_sync_requests (sync_requests self) self = self.
Proof. by destruct self. Qed.

(** [POST /result], run through. *)
Lemma _handle_post_result_eq (json_dumps : value → res string)
    (request : Request) (context : Context) (self : DummyBackend) :
  _handle_post_result json_dumps request context self =
  match request_graph request with
  | Raise e => (Raise e, self)
  | Ok pg =>
      (result ← normalized json_dumps (next_result self); Ok (result, context),
       set_sync_requests (sync_requests self ++ [pg]) self)
  end.
Proof.
  unfold _handle_post_result, request_graph. unfold_M.
  destruct (request_json request) as [post_data|]; [|done].
  destruct (subscript post_data "process") as [process|]; [|done].
  destruct (subscript process "process_graph") as [pg|]; [|done].
  cbn [next_result set_sync_requests fst snd].
  destruct (next_result self) as [|b|z|s|bs|l|d]; try done.
  - simpl. by destruct (json_dumps (VList l)).
  - simpl. by destruct (json_dumps (VDict d)).
Qed.

(** [POST /validation], run through. *)
Lemma _handle_post_validation_eq (request : Request) (context : Context)
    (self : DummyBackend) :
  _handle_post_validation request context self =
  match validation_graph request with
  | Raise e => (Raise e, self)
  | Ok pg =>
      (Ok (VDict [("errors", next_validation_errors self)], context),
       set_validation_requests (validation_requests self ++ [pg]) self)
  end.
Proof.
  unfold _handle_post_validation, validation_graph. unfold_M.
  destruct (request_json request) as [post_data|]; [|done].
  by destruct (subscript post_data "process_graph").
Qed.

(** [POST /jobs], run through. *)
Lemma _handle_post_jobs_eq (request : Request) (context : Context)
    (self : DummyBackend) :
  _handle_post_jobs request context self =
  match request_graph request with
  | Raise e => (Raise e, self)
  | Ok pg =>
      let job_id := format_job_id (size (batch_jobs self)) in
      let items := match json request with Some (VDict items) => items | _ => [] end in
      (Ok (VNone, created_context job_id context),
       set_batch_jobs
         (<[job_id := new_job_data job_id pg items (extra_job_metadata_fields self)]>
            (batch_jobs self))
         self)
  end.
Proof.
  destruct (request_graph request) as [pg|e] eqn:Hg.
  - unfold request_graph in Hg.
    destruct (request_json request) as [post_data|e] eqn:Hj; [|done].
    apply request_json_Ok in Hj. simpl in Hg.
    destruct (subscript post_data "process") as [process|] eqn:Hp; [|done].
    simpl in Hg. apply subscript_Ok_dict in Hp as [items [-> Hp]].
    rewrite Hj. by apply _handle_post_jobs_Ok with (process := process).
  - unfold _handle_post_jobs. unfold request_graph in Hg. unfold_M.
    destruct (request_json request) as [post_data|]; [|by injection Hg as ->].
    destruct (subscript post_data "process") as [process|]; [|by injection Hg as ->].
    destruct (subscript process "process_graph") as [pg|]; [done|].
    by injection Hg as ->.
Qed.

Section Frames.

Variable json_dumps : value → res string.

(** What one step does to everything but the registry and the hook: it
    appends the graph it captures, if any, to its log, and a request
    leaves the configuration as it is. *)
Lemma step_frame (o : op) (self : DummyBackend) :
  let self' := snd (step json_dumps o self) in
  sync_requests self' = (sync_requests self ++ sync_graph_of o)%list
  ∧ validation_requests self'
    = (validation_requests self ++ validation_graph_of o)%list
  ∧ connection self' = connection self
  ∧ (is_request o = true →
     next_result self' = next_result self
     ∧ next_validation_errors self' = next_validation_errors self
     ∧ extra_job_metadata_fields self' = extra_job_metadata_fields self).
Proof.
  destruct o as [r|r|r|r|r|r|r|v|v|l|u|q n f]; simpl step;
    cbn [sync_graph_of validation_graph_of is_request];
    rewrite ?app_nil_r; try done.
  - rewrite _handle_post_result_eq.
    destruct (request_graph r); simpl; by rewrite ?app_nil_r.
  - rewrite _handle_post_jobs_eq. by destruct (request_graph r).
  - rewrite _handle_post_job_results_eq. by repeat case_match.
  - rewrite _handle_get_job_eq. by repeat case_match.
  - rewrite _handle_get_job_results_eq. by repeat case_match.
  - rewrite _handle_get_job_result_asset_eq. by repeat case_match.
  - rewrite _handle_post_validation_eq.
    destruct (validation_graph r); simpl; by rewrite ?app_nil_r.
Qed.

Lemma run_snd_cons (o : op) (trace : list op) (self : DummyBackend) :
  snd (run json_dumps (o :: trace) self)
  = snd (run json_dumps trace (snd (step json_dumps o self))).
Proof.
  cbn [run]. destruct (step json_dumps o self) as [r self']. cbn [fst snd].
  by destruct (run json_dumps trace self').
Qed.

Lemma run_fst_cons (o : op) (trace : list op) (self : DummyBackend) :
  fst (run json_dumps (o :: trace) self)
  = fst (step json_dumps o self)
      :: fst (run json_dumps trace (snd (step json_dumps o self))).
Proof.
  cbn [run]. destruct (step json_dumps o self) as [r self']. cbn [fst snd].
  by destruct (run json_dumps trace self').
Qed.

End Frames.

(** The capture logs of a run.  Whatever the outcomes of its steps, at the
    end of a run the log of synchronous graphs is the log at its start
    followed by the graphs of the bodies of its [POST /result] requests,
    in the order of the requests, and the log of validated graphs the same
    for its [POST /validation] requests: nothing else is added, nothing is
    removed or reordered, and a graph is logged also when the answer to
    its request could not be produced. *)
Theorem capture_logs_of_a_run
    (json_dumps : value → res string) (trace : list op) (self : DummyBackend) :
  sync_requests (snd (run json_dumps trace self))
  = (sync_requests self ++ flat_map sync_graph_of trace)%list
  ∧ validation_requests (snd (run json_dumps trace self))
    = (validation_requests self ++ flat_map validation_graph_of trace)%list.
Proof.
  revert self. induction trace as [|o trace IH]; intros self.
  { simpl. by rewrite !app_nil_r. }
  rewrite run_snd_cons. destruct (IH (snd (step json_dumps o self))) as [-> ->].
  destruct (step_frame json_dumps o self) as (-> & -> & _).
  cbn [flat_map]. by rewrite !app_assoc.
Qed.

(** No request changes the configuration of the back-end: across any run
    of requests (no settings) the scripted result, the validation errors,
    the extra metadata fields and the connection are the ones of the
    start. *)
Theorem requests_keep_the_configuration
    (json_dumps : value → res string) (trace : list op) (self : DummyBackend) :
  forallb is_request trace = true →
  let self' := snd (run json_dumps trace self) in
  next_result self' = next_result self
  ∧ next_validation_errors self' = next_validation_errors self
  ∧ extra_job_metadata_fields self' = extra_job_metadata_fields self
  ∧ connection self' = connection self.
Proof.
  revert self. induction trace as [|o trace IH]; intros self Hreq; [done|].
  simpl in Hreq. apply andb_prop in Hreq as [Ho Hreq].
  cbv zeta. rewrite run_snd_cons.
  destruct (IH (snd (step json_dumps o self)) Hreq) as (-> & -> & -> & ->).
  destruct (step_frame json_dumps o self) as (_ & _ & Hc & Hcfg).
  by destruct (Hcfg Ho) as (-> & -> & ->).
Qed.

(** A run of requests on the back-end with one started job, in which one
    request fails: the configuration is still the one of the start. *)
Lemma requests_keep_the_configuration_witness :
  next_result
    (snd (run (λ _, Raise TypeError)
            [POST_result (sync_request sample_graph); GET_job job_000_request;
             POST_job_results start_job_000_request;
             GET_job_result_asset result_asset_request]
            started_job_backend))
  = DEFAULT_RESULT.
Proof.
  apply (requests_keep_the_configuration (λ _, Raise TypeError)
           [POST_result (sync_request sample_graph); GET_job job_000_request;
            POST_job_results start_job_000_request;
            GET_job_result_asset result_asset_request]
           started_job_backend eq_refl).
Defined.

(** ** Job records over time *)

Section Records.

Variable json_dumps : value → res string.

(** One step keeps every registered job registered, with all its fields
    but the status as they were, and removes no job. *)
Lemma step_keeps_records (o : op) (self : DummyBackend)
    (job_id : string) (job_data : gmap string value) :
  ids_in_sequence (batch_jobs self) →
  batch_jobs self !! job_id = Some job_data →
  ∃ job_data',
    batch_jobs (snd (step json_dumps o self)) !! job_id = Some job_data'
    ∧ ∀ k, k ≠ "status" → job_data' !! k = job_data !! k.
Proof.
  intros Hi Hj. destruct (is_POST_jobs o) eqn:Ho.
  - destruct o; try done.
    destruct (step_POST_jobs json_dumps request self)
      as [[e ->]|(jd & -> & _)]; [by exists job_data|].
    exists job_data. split; [|done]. simpl.
    rewrite lookup_insert_ne; [done|]. intros Heq.
    pose proof (next_id_fresh _ Hi) as Hf. rewrite Heq in Hf. congruence.
  - destruct (step_status_update json_dumps o self Ho)
      as [->|(j & jd & s & Hjd & ->)]; [by exists job_data|].
    rewrite lookup_insert. case_decide as Hjj; [|by exists job_data].
    subst. rewrite Hj in Hjd. injection Hjd as <-.
    eexists. split; [done|]. intros k Hk. by rewrite lookup_insert_ne.
Qed.

End Records.

(** Job records over a run.  On a back-end that a test can reach, a job
    that is registered stays registered through any run, and every field
    of its record other than [status] (its graph, its id, its title,
    description and extra fields) keeps the value it has; the number of
    registered jobs never goes down. *)
Theorem job_records_keep_their_fields
    (json_dumps : value → res string) (conn : Connection) (trace : list op)
    (self : DummyBackend) (job_id : string) (job_data : gmap string value) :
  reachable json_dumps conn self →
  batch_jobs self !! job_id = Some job_data →
  (∃ job_data',
      batch_jobs (snd (run json_dumps trace self)) !! job_id = Some job_data'
      ∧ ∀ k, k ≠ "status" → job_data' !! k = job_data !! k)
  ∧ (size (batch_jobs self)
     ≤ size (batch_jobs (snd (run json_dumps trace self))))%nat.
Proof.
  intros Hr Hj. split.
  - revert self job_data Hr Hj.
    induction trace as [|o trace IH]; intros self jd Hr Hj; [by exists jd|].
    rewrite run_snd_cons.
    destruct (step_keeps_records json_dumps o self job_id jd) as (jd1 & Hj1 & Hk1);
      [by eapply reachable_invariants|done|].
    destruct (IH (snd (step json_dumps o self)) jd1) as (jd2 & Hj2 & Hk2);
      [by constructor|done|].
    exists jd2. split; [done|]. intros k Hk. by rewrite Hk2, Hk1.
  - destruct (run_created_ids json_dumps trace self) as (k & _ & ->);
      [by eapply reachable_invariants|lia].
Qed.

(** The first job of a back-end through its start and two reads. *)
Lemma job_records_keep_their_fields_witness :
  (batch_jobs
     (snd (run (λ _, Raise TypeError)
             [POST_job_results start_job_000_request; GET_job job_000_request;
              POST_jobs plain_job_request; GET_job job_000_request]
             one_job_backend)) !! "job-000")
    ≫= (λ job_data, job_data !! "pg")
  = Some (VDict []).
Proof.
  destruct (job_records_keep_their_fields (λ _, Raise TypeError) test_connection
              [POST_job_results start_job_000_request; GET_job job_000_request;
               POST_jobs plain_job_request; GET_job job_000_request]
              one_job_backend "job-000" plain_job_data)
    as [(jd & -> & Hk) _].
  - apply (reachable_step _ _ (POST_jobs plain_job_request)). constructor.
  - by vm_compute.
  - simpl. by rewrite (Hk "pg").
Defined.

(** ** The errors of the two requests that carry a graph *)



(** [POST /result] captures the graph of its body before it looks at the
    scripted result.  Without a graph in the body it raises the error of
    the lookup and captures nothing.  With one, the graph is appended to
    the log of synchronous graphs whatever happens next, and the answer is
    the scripted result as bytes: bytes as they are, text encoded, a
    mapping or a sequence serialized by [json.dumps] and encoded (or the
    error of [json.dumps]); any other scripted result ([None], a boolean,
    a number) fails the [assert], after the capture. *)
Theorem sync_request_is_captured_first
    (json_dumps : value → res string)
    (request : Request) (context : Context) (self : DummyBackend) :
  (∀ e, request_graph request = Raise e →
        _handle_post_result json_dumps request context self = (Raise e, self))
  ∧ (∀ pg, request_graph request = Ok pg →
       snd (_handle_post_result json_dumps request context self)
       = set_sync_requests (sync_requests self ++ [pg]) self
       ∧ fst (_handle_post_result json_dumps request context self)
         = match next_result self with
           | VBytes bs => Ok (VBytes bs, context)
           | VStr s => Ok (VBytes (encode_utf8 s), context)
           | VDict _ | VList _ =>
               match json_dumps (next_result self) with
               | Ok s => Ok (VBytes (encode_utf8 s), context)
               | Raise e => Raise e
               end
           | VNone | VBool _ | VInt _ => Raise AssertionError
           end).
Proof.
  rewrite _handle_post_result_eq. split.
  - by intros e ->.
  - intros pg ->. split; [done|]. simpl.
    destruct (next_result self) as [|b|z|s|bs|l|d]; try done; simpl;
      by destruct (json_dumps _).
Qed.

(** ** The phases of the scripted status flow *)

Lemma status_template_no_created (queued running : Z) (final : string) :
  final ≠ "created" →
  Forall (λ s, s ≠ "created") (status_template queued running final).
Proof.
  intros Hfinal. unfold status_template. rewrite !Forall_app. split; [|split].
  - apply Forall_forall. by intros s ->%list_elem_of_In%repeat_spec.
  - apply Forall_forall. by intros s ->%list_elem_of_In%repeat_spec.
  - by repeat constructor.
Qed.

(** The entry of the script at call number [k] is the status of the
    phase of [k]. *)
Lemma script_entry_phase (queued running : Z) (final : string) (k : nat) :
  nth (script_position (status_template queued running final) k)
    (status_template queued running final) final
  = phase queued running final k.
Proof.
  unfold script_position. rewrite status_template_length.
  unfold status_template, phase.
  set (q := Z.to_nat queued). set (r := Z.to_nat running).
  destruct (Nat.ltb_spec k q) as [Hq|Hq].
  - rewrite Nat.min_l by lia.
    rewrite app_nth1 by (rewrite repeat_length; lia).
    rewrite (nth_indep _ _ "queued") by (rewrite repeat_length; lia).
    apply nth_repeat.
  - destruct (Nat.ltb_spec k (q + r)) as [Hr|Hr].
    + rewrite Nat.min_l by lia.
      rewrite app_nth2 by (rewrite repeat_length; lia). rewrite repeat_length.
      rewrite app_nth1 by (rewrite repeat_length; lia).
      rewrite (nth_indep _ _ "running") by (rewrite repeat_length; lia).
      apply nth_repeat.
    + rewrite Nat.min_r by lia.
      rewrite app_nth2 by (rewrite repeat_length; lia). rewrite repeat_length.
      rewrite app_nth2 by (rewrite repeat_length; lia). rewrite repeat_length.
      by replace (q + r + 1 - 1 - q - r) with 0 by lia.
Qed.

(** The statuses that the hook of [setup_simple_job_status_flow] returns.
    After any calls since it was set up, a call for a job returns
    [queued] if fewer than [queued] calls were made for that job before,
    else [running] if fewer than [queued + running] were, else [final],
    for ever; calls for other jobs do not count, and a count that is
    negative counts as zero (so with both counts at most zero the first
    call already returns [final]). *)
Theorem scripted_hook_phases
    (queued running : Z) (final : string)
    (calls : list (string * value)) (job_id : string) (current_status : value) :
  let template := status_template queued running final in
  fst (get_status template (snd (call_all template calls ∅)) job_id current_status)
  = Ok (if (calls_for job_id calls <? Z.to_nat queued)%nat then "queued"
        else if (calls_for job_id calls <? Z.to_nat queued + Z.to_nat running)%nat
             then "running"
             else final).
Proof.
  intros template.
  pose proof (status_template_nonempty queued running final) as Hne.
  rewrite (get_status_at template _ job_id current_status
             (calls_for job_id calls) final Hne).
  - simpl. f_equal. apply script_entry_phase.
  - apply (call_all_stacks template calls ∅ (λ _, 0) Hne).
    intros j. by rewrite lookup_empty, stack_after_0.
Qed.

(** The simple status flow on a job, for any counts.  On a back-end where
    [setup_simple_job_status_flow(queued, running, final)] was called with
    a [final] other than [created], and the hook not set again since, the
    start of a job in status [created] answers 202 and stores the status
    of call 0 of the script; of the consecutive reads that follow, read
    number [i] (from 0) answers the status of call [i + 1]: the start
    takes one entry of the script, and every read one more. *)
Theorem simple_flow_on_a_job
    (json_dumps : value → res string) (conn : Connection)
    (before after : list op) (queued running : Z) (final : string)
    (start get : Request) (job_id : string) (job_data : gmap string value) :
  let self :=
    snd (run json_dumps
           (before ++ Setup_simple_job_status_flow queued running final :: after)
           (__init__ conn)) in
  final ≠ "created" →
  forallb (λ o, negb (replaces_updater o)) after = true →
  match_job_path (path start) = Some job_id →
  match_job_path (path get) = Some job_id →
  batch_jobs self !! job_id = Some job_data →
  job_data !! "status" = Some (VStr "created") →
  ∃ self' context',
    _handle_post_job_results start fresh_context self
    = (Ok (VNone, context'), self')
    ∧ status_code context' = 202
    ∧ headers context' = headers fresh_context
    ∧ batch_jobs self' !! job_id ≫= (λ jd, jd !! "status")
      = Some (VStr (phase queued running final 0))
    ∧ ∀ n,
        fst (run json_dumps (repeat (GET_job get) n) self')
        = map (λ i, Ok (VDict [("id", VStr job_id);
                               ("status", VStr (phase queued running final (S i)))],
                        fresh_context))
            (seq 0 n).
Proof.
  intros self Hfinal Hkeep Hstart Hget Hj Hs. subst self.
  set (template := status_template queued running final).
  pose proof (status_template_nonempty queued running final) as Hne.
  pose proof (status_template_no_created queued running final Hfinal) as Hall.
  pose proof (run_setup_scripted json_dumps conn before after queued running final
                Hfinal Hkeep) as Hscripted.
  destruct (scripted_created_fresh _ _ _ _ Hscripted Hj Hs)
    as (job_stacks & Hu & Hfresh).
  assert (default template (job_stacks !! job_id) = stack_after template 0) as Hstack
    by (by rewrite Hfresh, stack_after_0).
  eexists _, (set_status_code 202 fresh_context).
  split; [|split; [done|split; [done|split]]].
  - rewrite _handle_post_job_results_eq, Hstart, Hj, Hs. simpl.
    rewrite Hu.
    rewrite (call_updater_scripted _ _ _ _ 0 final Hne Hstack). reflexivity.
  - simpl. rewrite lookup_insert_eq. simpl. rewrite lookup_insert_eq.
    unfold template. by rewrite script_entry_phase.
  - intros n.
    rewrite (run_reads_scripted json_dumps template final n Hne Hall 1 _
               (<[job_id := stack_after template 1]> job_stacks)
               get job_id
               (<["status" := VStr (nth (script_position template 0) template final)]>
                  job_data)
               (nth (script_position template 0) template final)); try done.
    + rewrite <- seq_shift, map_map. apply map_ext. intros i.
      unfold template. by rewrite script_entry_phase.
    + by rewrite lookup_insert_eq.
    + simpl. by rewrite lookup_insert_eq.
    + by rewrite lookup_insert_eq.
    + rewrite Forall_forall in Hall. apply Hall.
      apply list_elem_of_In, nth_In. by apply script_position_lt.
Qed.

(** The flow of two [queued], one [running] and [error] on the first job
    of a new back-end. *)
Lemma simple_flow_on_a_job_witness :
  let self :=
    snd (run (λ _, Raise TypeError)
           [Setup_simple_job_status_flow 2 1 "error"; POST_jobs plain_job_request]
           (__init__ test_connection)) in
  ∃ self',
    snd (_handle_post_job_results start_job_000_request fresh_context self) = self'
    ∧ answered_statuses
        (fst (run (λ _, Raise TypeError) (repeat (GET_job job_000_request) 4) self'))
      = [Ok (VStr "queued"); Ok (VStr "running"); Ok (VStr "error");
         Ok (VStr "error")].
Proof.
  intros self.
  destruct (simple_flow_on_a_job (λ _, Raise TypeError) test_connection
              [] [POST_jobs plain_job_request] 2 1 "error"
              start_job_000_request job_000_request "job-000" plain_job_data)
    as (self' & context' & Hstart & _ & _ & _ & Hreads); [by vm_compute..|].
  exists self'. split.
  - change self with
      (snd (run (λ _ : value, Raise TypeError)
              ([] ++ [Setup_simple_job_status_flow 2 1 "error";
                      POST_jobs plain_job_request])
              (__init__ test_connection))).
    by rewrite Hstart.
  - by rewrite Hreads.
Defined.

(** ** A started job is not started again *)

Lemma never_created_call (u : Updater) (job_id : string) (status : value) :
  never_created u →
  never_created (snd (call_updater u job_id status))
  ∧ fst (call_updater u job_id status) ≠ Ok "created".
Proof.
  intros (I & H0 & Hstep).
  pose proof (Hstep (hook_env u) job_id status H0) as [Hst Hr].
  unfold call_updater.
  destruct (hook_call u (hook_env u) job_id status) as [r st']. simpl in *.
  split; [|done]. by exists I.
Qed.

Lemma finished_updater_never_created : never_created finished_updater.
Proof. exists (λ _, True). split; [done|]. by intros st j s _. Qed.

Lemma simple_flow_never_created (template : list string)
    (job_stacks : gmap string (list string)) :
  Forall (λ s, s ≠ "created") template →
  (∀ j stack, job_stacks !! j = Some stack → Forall (λ s, s ≠ "created") stack) →
  never_created (simple_flow_updater template job_stacks).
Proof.
  intros Ht Hs.
  exists (λ stacks : gmap string (list string),
            ∀ j stack, stacks !! j = Some stack → Forall (λ s, s ≠ "created") stack).
  split; [done|]. intros st job_id status Hst.
  change (gmap string (list string)) in st. simpl in Hst |- *.
  unfold get_status. cbv zeta.
  assert (Forall (λ s, s ≠ "created") (default template (st !! job_id))) as Hstack.
  { destruct (st !! job_id) as [stack|] eqn:E; [by eapply Hst|done]. }
  destruct (default template (st !! job_id)) as [|s rest].
  - simpl. split; [|congruence]. intros j stack. rewrite lookup_insert.
    case_decide; [by intros [= <-]|by apply Hst].
  - apply Forall_cons in Hstack as [Hs0 Hrest].
    destruct (1 <? length (s :: rest))%nat; simpl.
    + split; [|congruence]. intros j stack. rewrite lookup_insert.
      case_decide; [by intros [= <-]|by apply Hst].
    + split; [|congruence]. intros j stack. rewrite lookup_insert.
      case_decide; [intros [= <-]; by constructor|by apply Hst].
Qed.

Section Started.

Variable json_dumps : value → res string.

(** One step keeps a started job started and the hook one that never
    returns [created], and a start of that job fails in it. *)
Lemma step_keeps_started (o : op) (self : DummyBackend) (job_id : string) :
  ids_in_sequence (batch_jobs self) →
  never_created (job_status_updater self) →
  keeps_never_created o →
  started job_id self →
  never_created (job_status_updater (snd (step json_dumps o self)))
  ∧ started job_id (snd (step json_dumps o self))
  ∧ (is_start_of job_id o = true
     → fst (step json_dumps o self) = Raise AssertionError).
Proof.
  intros Hi Hn Ho (jd & st & Hj & Hs & Hne).
  assert (started job_id self) as Hstarted by (by exists jd, st).
  destruct o as [r|r|r|r|r|r|r|v|v|l|u|q n f]; simpl step;
    try (split; [done|split; [done|done]]).
  - rewrite _handle_post_result_updater. split; [done|]. split; [|done].
    exists jd, st. by rewrite _handle_post_result_jobs.
  - destruct (step_POST_jobs json_dumps r self)
      as [[e He]|(jd' & He & _)]; simpl step in He; rewrite He; [done|].
    split; [done|]. split; [|done]. exists jd, st. simpl.
    rewrite lookup_insert_ne; [done|]. intros Heq.
    pose proof (next_id_fresh _ Hi) as Hf. rewrite Heq in Hf. congruence.
  - rewrite _handle_post_job_results_eq. simpl is_start_of.
    destruct (match_job_path (path r)) as [j|] eqn:Ep;
      [|split; [done|split; [done|by intros ?%bool_decide_eq_true]]].
    destruct (decide (j = job_id)) as [->|Hjj].
    + rewrite Hj, Hs. apply eq_str_false in Hne. by rewrite Hne.
    + destruct (batch_jobs self !! j) as [jd'|] eqn:Ej;
        [|split; [done|split; [done|intros ?%bool_decide_eq_true; congruence]]].
      destruct (jd' !! "status") as [s|];
        [|split; [done|split; [done|intros ?%bool_decide_eq_true; congruence]]].
      destruct (eq_str s "created");
        [|split; [done|split; [done|intros ?%bool_decide_eq_true; congruence]]].
      destruct (never_created_call _ j s Hn) as [Hn' Hr].
      destruct (call_updater _ _ _) as [[s'|e] u]; simpl in *.
      * split; [done|]. split; [|intros ?%bool_decide_eq_true; congruence].
        exists jd, st. unfold with_status. simpl. by rewrite lookup_insert_ne.
      * split; [done|]. split; [done|intros ?%bool_decide_eq_true; congruence].
  - rewrite _handle_get_job_eq.
    destruct (match_job_path (path r)) as [j|] eqn:Ep; [|done].
    destruct (batch_jobs self !! j) as [jd'|] eqn:Ej; [|done].
    destruct (jd' !! "status") as [s|] eqn:Es; [|done].
    destruct (eq_str s "created"); [done|].
    destruct (never_created_call _ j s Hn) as [Hn' Hr].
    destruct (call_updater _ _ _) as [[s'|e] u]; simpl in *; [|done].
    split; [done|]. split; [|done].
    destruct (decide (j = job_id)) as [->|Hjj].
    + eexists _, (VStr s'). unfold with_status. simpl.
      rewrite lookup_insert_eq. split; [done|].
      rewrite lookup_insert_eq. split; [done|]. congruence.
    + exists jd, st. unfold with_status. simpl. by rewrite lookup_insert_ne.
  - rewrite _handle_get_job_results_eq. repeat case_match; done.
  - rewrite _handle_get_job_result_asset_eq. repeat case_match; done.
  - rewrite _handle_post_validation_updater. split; [done|]. split; [|done].
    exists jd, st. by rewrite _handle_post_validation_jobs.
  - split; [|done]. simpl. apply simple_flow_never_created; [|done].
    by apply status_template_no_created.
Qed.

End Started.

(** A job is started once.  On a back-end that a test can reach, with a
    hook that never returns [created] (the default hook; the simple status
    flow with a final status other than [created]), a job that is
    registered with a status other than [created] keeps such a status
    through any run that sets no hook that can return [created], and every
    request of the run to start that job fails with [AssertionError]. *)
Theorem started_job_is_not_started_again
    (json_dumps : value → res string) (conn : Connection) (trace : list op)
    (self : DummyBackend) (job_id : string) :
  reachable json_dumps conn self →
  never_created (job_status_updater self) →
  Forall keeps_never_created trace →
  started job_id self →
  Forall (λ r, r = Raise AssertionError)
    (starts_of job_id trace (fst (run json_dumps trace self)))
  ∧ started job_id (snd (run json_dumps trace self)).
Proof.
  intros Hr Hn Ht. revert self Hr Hn.
  induction Ht as [|o trace Ho Ht IH]; intros self Hr Hn Hs; [done|].
  rewrite run_fst_cons, run_snd_cons.
  destruct (step_keeps_started json_dumps o self job_id) as (Hn' & Hs' & Hstart);
    [by eapply reachable_invariants|done|done|done|].
  destruct (IH (snd (step json_dumps o self))) as [HF Hend];
    [by constructor|done|done|].
  split; [|done]. cbn [starts_of].
  destruct (is_start_of job_id o) eqn:E; [|done].
  constructor; [by apply Hstart|done].
Qed.

(** The first job of a back-end, started under the default hook: two more
    starts of it, around a change to the simple status flow and a read,
    both fail. *)
Lemma started_job_is_not_started_again_witness :
  let trace :=
    [POST_job_results start_job_000_request;
     Setup_simple_job_status_flow 1 1 "error";
     GET_job job_000_request;
     POST_job_results start_job_000_request] in
  Forall (λ r, r = Raise AssertionError)
    (starts_of "job-000" trace
       (fst (run (λ _, Raise TypeError) trace started_job_backend)))
  ∧ started "job-000" (snd (run (λ _, Raise TypeError) trace started_job_backend))
  ∧ length (starts_of "job-000" trace
              (fst (run (λ _, Raise TypeError) trace started_job_backend))) = 2.
Proof.
  cbv zeta.
  match goal with
  | |- ?A ∧ ?B ∧ _ =>
      cut (A ∧ B); [intros [? ?]; split; [done|split; [done|by vm_compute]]|]
  end.
  apply (started_job_is_not_started_again _ test_connection).
  - apply (reachable_step _ _ (POST_job_results start_job_000_request)).
    apply (reachable_step _ _ (POST_jobs plain_job_request)). constructor.
  - exists (λ _, True). split; [done|]. by intros st j s _.
  - repeat constructor. done.
  - exists (<["status" := VStr "finished"]> plain_job_data), (VStr "finished").
    by vm_compute.
Defined.

(** ** Executing a cube *)

(** [execute], for any cube.  When [cube.execute()] raises, [execute]
    raises the same error and inspects nothing.  When it returns, its
    value is dropped and the answer of [execute] is that of [get_pg] on
    the back-end as the cube left it, which [execute] does not change.
    So when the execution of the cube returned and captured one
    synchronous graph and no job (it sent one [POST /result]) on a back-end
    that a test can reach, [execute] returns that graph (or its single
    node with the given [process_id]) only if the back-end had captured no
    graph before, synchronous or batch, and raises
    [OpeneoTestingException] with the number of graphs collected
    otherwise. *)
Theorem execute_observes_the_posted_graph
    (json_dumps : value → res string) (conn : Connection)
    (cube : Cube) (process_id : option string) (self : DummyBackend) :
  reachable json_dumps conn self →
  (∀ e self', cube_execute cube self = (Raise e, self') →
              execute cube process_id self = (Raise e, self'))
  ∧ (∀ v self', cube_execute cube self = (Ok v, self') →
                execute cube process_id self = (get_pg self' process_id, self'))
  ∧ (∀ v self' pg,
        cube_execute cube self = (Ok v, self') →
        sync_requests self' = (sync_requests self ++ [pg])%list →
        batch_jobs self' = batch_jobs self →
        let captured := (length (sync_requests self) + size (batch_jobs self))%nat in
        fst (execute cube process_id self)
        = if (captured =? 0)%nat
          then
            match process_id with
            | Some pid =>
                if negb (String.eqb pid EmptyString)
                then
                  match find_nodes pg pid with
                  | Raise e => Raise e
                  | Ok [node] => Ok node
                  | Ok found => Raise (not_single_node pid found)
                  end
                else Ok pg
            | None => Ok pg
            end
          else Raise (not_single_pg (S captured))).
Proof.
  intros Hr. unfold execute. unfold_M. split; [|split].
  - by intros e self' ->.
  - by intros v self' ->.
  - intros v self' pg -> Hsync Hjobs. cbv zeta. cbn [fst snd]. rewrite get_pg_eq.
    destruct (collect_pgs_Ok self') as (batch_pgs & -> & Hlen & _).
    { rewrite Hjobs. by destruct (reachable_invariants json_dumps conn self Hr). }
    rewrite Hsync. rewrite Hjobs in Hlen.
    destruct (Nat.eqb_spec (length (sync_requests self) + size (batch_jobs self)) 0)
      as [H0|H0].
    + assert (sync_requests self = []) as -> by (apply length_zero_iff_nil; lia).
      assert (batch_pgs = []) as -> by (apply length_zero_iff_nil; lia).
      done.
    + assert (length ((sync_requests self ++ [pg]) ++ batch_pgs)
              = S (length (sync_requests self) + size (batch_jobs self))) as Hl.
      { rewrite !length_app. simpl. lia. }
      destruct ((sync_requests self ++ [pg]) ++ batch_pgs)%list as [|a [|b c]];
        simpl in Hl; [lia|lia|]. by rewrite <- Hl.
Qed.

(** A cube whose [execute] sends one [POST /result] with [sample_graph]
    and returns the answer as it is, on a new back-end: [execute] returns
    that graph. *)
Lemma execute_observes_the_posted_graph_witness :
  let cube :=
    {| cube_execute :=
         answer ← _handle_post_result (λ _, Raise TypeError)
                    (sync_request sample_graph) fresh_context;
         ret (fst answer) |} in
  fst (execute cube None (__init__ test_connection)) = Ok sample_graph.
Proof.
  intros cube.
  destruct (execute_observes_the_posted_graph (λ _, Raise TypeError) test_connection
              cube None (__init__ test_connection))
    as (_ & _ & H); [constructor|].
  by rewrite (H DEFAULT_RESULT
                (set_sync_requests [sample_graph] (__init__ test_connection))
                sample_graph eq_refl eq_refl eq_refl).
Defined.

(** ** The three ways to inspect the captured graph *)

Lemma map_size_1_singleton {A} (m : gmap string A) :
  size m = 1 → ∃ i x, m = {[ i := x ]}.
Proof.
  intros Hs. rewrite <- length_map_to_list in Hs.
  destruct (map_to_list m) as [|[i x] [|? ?]] eqn:E; try done.
  exists i, x. by rewrite <- (list_to_map_to_list m), E, <- insert_empty.
Qed.

(** [get_pg] without a filter agrees with the two single getters.  On a
    back-end that a test can reach it returns a graph exactly when
    [get_sync_pg] returns that graph and no job is registered, or
    [get_batch_pg] returns it and no synchronous request was captured; and
    when both single getters return a graph, [get_pg] raises. *)
Theorem get_pg_agrees_with_the_single_getters
    (json_dumps : value → res string) (conn : Connection) (self : DummyBackend) :
  reachable json_dumps conn self →
  (∀ pg,
      get_pg self None = Ok pg
      ↔ (get_sync_pg self = Ok pg ∧ batch_jobs self = ∅)
        ∨ (get_batch_pg self = Ok pg ∧ sync_requests self = []))
  ∧ (∀ pg pg',
        get_sync_pg self = Ok pg → get_batch_pg self = Ok pg' →
        get_pg self None = Raise (not_single_pg 2)).
Proof.
  intros Hr. destruct (reachable_invariants json_dumps conn self Hr) as [_ Hc].
  destruct (collect_pgs_Ok self Hc) as (batch_pgs & Hpgs & Hlen & Hin).
  assert (∀ pg, get_sync_pg self = Ok pg ↔ sync_requests self = [pg]) as Hsync.
  { intros pg. unfold get_sync_pg.
    destruct (sync_requests self) as [|pg0 [|pg1 rest]]; simpl; split; congruence. }
  assert (∀ pg, get_batch_pg self = Ok pg ↔ batch_pgs = [pg]) as Hbatch.
  { intros pg. unfold get_batch_pg.
    destruct (Nat.eqb_spec (size (batch_jobs self)) 1) as [H1|H1]; simpl.
    - destruct (map_size_1_singleton _ H1) as (j & jd & Hm).
      rewrite Hm, map_to_list_singleton. simpl. rewrite lookup_singleton_eq.
      destruct batch_pgs as [|pg0 [|? ?]]; simpl in Hlen; try lia.
      assert (jd !! "pg" = Some pg0) as Hpg0.
      { destruct (proj1 (Hin pg0) (or_introl eq_refl)) as (j' & jd' & Hj' & Hpg').
        rewrite Hm in Hj'. apply lookup_singleton_Some in Hj' as [_ <-]. done. }
      unfold record_field. rewrite Hpg0. split; congruence.
    - split; [done|]. intros ->. simpl in Hlen. lia. }
  split.
  - intros pg. rewrite get_pg_eq, Hpgs, Hsync, Hbatch. split.
    + destruct (sync_requests self) as [|pg0 [|pg1 rest]];
        destruct batch_pgs as [|b0 [|b1 brest]]; simpl; try done.
      * intros [= ->]. by right.
      * intros [= ->]. left. split; [done|].
        apply map_size_empty_iff. by rewrite <- Hlen.
    + intros [[-> He]|[-> ->]]; [|done].
      rewrite He, map_size_empty in Hlen.
      by destruct batch_pgs.
  - intros pg pg' Hs Hb. apply Hsync in Hs. apply Hbatch in Hb.
    by rewrite get_pg_eq, Hpgs, Hs, Hb.
Qed.

(** One synchronous request on a new back-end: both [get_sync_pg] and
    [get_pg] return its graph. *)
Lemma get_pg_agrees_witness :
  let self :=
    snd (run (λ _, Raise TypeError) [POST_result (sync_request sample_graph)]
           (__init__ test_connection)) in
  get_pg self None = Ok sample_graph
  ↔ (get_sync_pg self = Ok sample_graph ∧ batch_jobs self = ∅)
    ∨ (get_batch_pg self = Ok sample_graph ∧ sync_requests self = []).
Proof.
  cbv zeta.
  apply (get_pg_agrees_with_the_single_getters (λ _, Raise TypeError) test_connection).
  apply run_reachable. constructor.
Defined.
